(** * cryptxspider: scoring, discovery and candidate tracking

    A shallow embedding of the parts of the repository that decide the
    behaviour of the risk aggregation engine (analyzer/scam_detector.py),
    the channel discovery and relevance engine (telegram/spider.py), the
    fetch orchestrator (memepad/parser.py) and the candidate reconciliation
    step (main.py), together with the tables of config.py they read.

    Conventions of the embedding.
    - Python floats that carry scores, weights and percentages are exact
      rationals ([Q]); equalities between scores are stated with [==].
    - A [str] is a [string] of UTF-8 bytes.
    - A naive [datetime] is a number of seconds ([Z]); [.days] of a
      difference is the floor of its quotient by 86400.
    - A dictionary read with [d.get(k, default)] whose value is well typed
      when present is a record field holding the defaulted value; a
      dictionary indexed with [d[k]] is a [gmap] and a missing key is a
      [KeyError]. *)

From Stdlib Require Import ZArith QArith Qabs Qround Lia Lqa List String Ascii Bool.
From stdpp Require Import gmap strings pretty.
Import ListNotations.

Local Open Scope string_scope.
Local Open Scope list_scope.
Local Open Scope Q_scope.

(** ** Python string primitives *)

Module PyStr.

(** [needle in hay] for two [str]. *)
Fixpoint contains (needle hay : string) : bool :=
  String.prefix needle hay
  || match hay with
     | EmptyString => false
     | String _ rest => contains needle rest
     end.

Definition is_upper_ascii (c : ascii) : bool :=
  ((65 <=? nat_of_ascii c) && (nat_of_ascii c <=? 90))%nat.

Definition lower_ascii (c : ascii) : ascii :=
  if is_upper_ascii c then ascii_of_nat (nat_of_ascii c + 32) else c.

(** [str.lower]: ASCII capitals, and the capitals of the Cyrillic block
    (U+0400 to U+042F, two bytes each, lead byte 0xD0) that the keyword
    tables of config.py are written in.  Other bytes are kept. *)
Fixpoint lower (s : string) : string :=
  match s with
  | EmptyString => EmptyString
  | String c rest =>
      match rest with
      | String d rest' =>
          if (nat_of_ascii c =? 208)%nat then
            let n := nat_of_ascii d in
            if ((128 <=? n) && (n <=? 143))%nat then
              String (ascii_of_nat 209) (String (ascii_of_nat (n + 16)) (lower rest'))
            else if ((144 <=? n) && (n <=? 159))%nat then
              String c (String (ascii_of_nat (n + 32)) (lower rest'))
            else if ((160 <=? n) && (n <=? 175))%nat then
              String (ascii_of_nat 209) (String (ascii_of_nat (n - 32)) (lower rest'))
            else String c (String d (lower rest'))
          else String (lower_ascii c) (lower rest)
      | EmptyString => String (lower_ascii c) EmptyString
      end
  end.

(** Truthiness of an optional string: [None] and [""] are falsy. *)
Definition truthy (o : option string) : bool :=
  match o with
  | Some (String _ _) => true
  | _ => false
  end.

(** [s[:n]]. *)
Definition take (n : nat) (s : string) : string := String.substring 0 n s.

End PyStr.

(** ** Rational helpers for the Python numeric operators *)

Module PyNum.

Definition ltb (a b : Q) : bool := negb (Qle_bool b a).
Definition leb (a b : Q) : bool := Qle_bool a b.

(** [max(a, b)] returns [b] only when [b > a]; [min(a, b)] returns [b]
    only when [b < a]. *)
Definition max (a b : Q) : Q := if ltb a b then b else a.
Definition min (a b : Q) : Q := if ltb b a then b else a.

(** [sum(l)]: left to right from 0. *)
Definition sum (l : list Q) : Q := fold_left Qplus l 0.

(** [len(l)] as a number. *)
Definition len {A} (l : list A) : Q := inject_Z (Z.of_nat (length l)).

(** [(a - b).days] for datetimes in seconds. *)
Definition days_between (a b : Z) : Z := ((a - b) / 86400)%Z.

End PyNum.

(** ** config.py *)

Module Config.

Definition MEMEPAD_BASE_URL : string := "https://memepad.io/api".
Definition REACTIONS_BASE_URL : string := "https://reactions.llc/api".
Definition STONFI_BASE_URL : string := "https://api.ston.fi/v1".

Definition SCAM_THRESHOLD : Q := 0.75.
Definition MIN_CHANNEL_AGE_DAYS : Z := 14.

Definition MONITORED_CHANNELS : list string :=
  [ "tonblum"; "memescope"; "ton_diamonds"; "toncoin_rus"; "tonx_dev";
    "stTON_chat" ].

Definition TOKEN_KEYWORDS : list string :=
  [ "jetton"; "токен"; "token"; "блюм"; "блум"; "blum";
    "memepad"; "airdrop"; "дроп"; "эирдроп"; "TON"; "тон" ].

(** The entries are written as regular expressions in config.py; the
    analyzer only ever tests them with [in], so they are kept as the
    plain strings they are. *)
Definition SCAM_PATTERNS : list string :=
  [ "(?i)100x";
    "(?i)1000x";
    "guaranteed.{0,20}profit";
    "без.{0,10}риска";
    "without.{0,10}risk";
    "(?i)pump.{0,5}dump";
    "(?i)скам";
    "(?i)scam.{0,5}alert" ].

(** Values of the heterogeneous [CHANNEL_DISCOVERY] dictionary, their
    truth value, and their value in a comparison or as a row limit. *)
Inductive cfg_value :=
| CBool (b : bool)
| CInt (n : Z)
| CFloat (q : Q).

Definition cfg_truthy (v : cfg_value) : bool :=
  match v with
  | CBool b => b
  | CInt n => negb (n =? 0)%Z
  | CFloat q => negb (Qeq_bool q 0)
  end.

Definition cfg_num (v : cfg_value) : Q :=
  match v with
  | CBool b => if b then 1 else 0
  | CInt n => inject_Z n
  | CFloat q => q
  end.

Definition cfg_limit (v : cfg_value) : nat :=
  match v with
  | CBool b => if b then 1%nat else 0%nat
  | CInt n => Z.to_nat n
  | CFloat q => Z.to_nat (Qfloor q)
  end.

Definition CHANNEL_DISCOVERY : gmap string cfg_value :=
  <["enabled" := CBool true]>
  (<["max_channels_per_run" := CInt 5]>
  (<["min_relevance_score" := CFloat 0.6]>
  (<["max_monitored_channels" := CInt 50]>
  (<["scan_frequency_hours" := CInt 6]>
  (<["cleanup_frequency_days" := CInt 7]> ∅))))).

Definition CHANNEL_SEARCH_KEYWORDS : list string :=
  [ "TON"; "toncoin"; "ton crypto"; "ton blockchain";
    "jetton"; "memepad"; "meme coin"; "блюм"; "блум";
    "tonblum"; "ton diamond"; "tonx" ].

Definition RELEVANCE_FACTORS : gmap string Q :=
  <["token_mentions" := 0.4]>
  (<["members_count" := 0.2]>
  (<["activity" := 0.15]>
  (<["description_relevance" := 0.15]>
  (<["age" := 0.1]> ∅)))).

End Config.

(** ** analyzer/scam_detector.py *)

Module ScamAnalyzer.

Import Config.

(** An f-string kept as its literal pieces and interpolated values. *)
Inductive fragment :=
| Text (s : string)
| Num (q : Q)
| Int (n : Z)
| Absent.

Definition reason := list fragment.

(** One entry of [details["socials"]]; each field is what [social.get]
    returns. *)
Record Social := {
  social_type : option string;
  social_url : option string;
  social_description : option string;
  social_created_at : option string
}.

(** One entry of [details["holders"]]. *)
Record Holder := {
  holder_address : string;
  percent : option Q
}.

Record Transaction := {
  tx_hash : string;
  tx_from : string;
  tx_to : string;
  tx_amount : Q
}.

(** [stonfi_data]: the ["liquidity"] entry when present, and the names of
    the other keys (an empty dictionary is falsy). *)
Record Liquidity := { usd : option Q }.

Record StonfiData := {
  liquidity : option Liquidity;
  stonfi_other_keys : list string
}.

(** [jetton_data["details"]], each field read with [details.get(k, d)]. *)
Record Details := {
  socials : list Social;
  holders : list Holder;
  description : string;
  ticker : string;
  name : string;
  short_name : string
}.

(** [jetton_data]: [details] is what [jetton_data.get("details", {})]
    returns, a dictionary or the [None] that the orchestrator stores when
    the details request failed. *)
Record JettonData := {
  details : option Details;
  reactions : list (string * Z);
  transactions : list Transaction;
  stonfi_data : option StonfiData
}.

(** Output of the sentiment pipeline on one text. *)
Record Sentiment := { label : string; score : Q }.

(** [self]: the sentiment pipeline is [None] when its construction failed;
    a call that raises is [None]. *)
Record Self := {
  nlp_pipeline : option (string -> option Sentiment)
}.

(** The [datetime] functions the analyzer calls. *)
Record DateTime := {
  utcnow : Z;
  fromisoformat : string -> option Z
}.

Record Analysis := {
  is_scam : bool;
  scam_score : Q;
  risk_factors : list reason;
  a_ticker : string;
  a_name : string;
  a_short_name : string
}.

Definition matches_pattern (text : string) (pattern : string) : bool :=
  PyStr.contains (PyStr.lower pattern) (PyStr.lower text).

Definition social_risks (dt : DateTime) (social : Social) : list reason :=
  if match social_type social with
     | Some t => String.eqb t "TELEGRAM"
     | None => false
     end
  then
    (if PyStr.truthy (social_description social) then
       let d := default "" (social_description social) in
       map (fun pattern =>
              [Text "Подозрительное описание канала: содержит '"; Text pattern; Text "'"])
           (filter (matches_pattern d) SCAM_PATTERNS)
     else [])
    ++
    (if PyStr.truthy (social_created_at social) then
       match fromisoformat dt (default "" (social_created_at social)) with
       | Some created_at =>
           let days_old := PyNum.days_between (utcnow dt) created_at in
           if (days_old <? MIN_CHANNEL_AGE_DAYS)%Z then
             [[Text "Канал создан недавно ("; Int days_old; Text " дней назад)"]]
           else []
       | None => []
       end
     else [])
  else [].

Definition check_fake_channel (dt : DateTime) (socials : list Social)
  : bool * list reason :=
  let risk_factors := flat_map (social_risks dt) socials in
  (negb (Nat.eqb (length risk_factors) 0), risk_factors).

Definition get_percent (h : Holder) : Q := default 0 (percent h).

Definition show_percent (h : Holder) : fragment :=
  match percent h with
  | Some p => Num p
  | None => Absent
  end.

Definition analyze_holders (holders : list Holder) : Q * list reason :=
  match holders with
  | [] => (0.5, [[Text "Нет данных о холдерах"]])
  | top :: _ =>
      let '(risk_score, risk_factors) :=
        if PyNum.ltb 50 (get_percent top) then
          (0.95, [[Text "Один адрес владеет более 50% токенов (";
                   show_percent top; Text "%)"]])
        else if PyNum.ltb 30 (get_percent top) then
          (0.7, [[Text "Один адрес владеет более 30% токенов (";
                  show_percent top; Text "%)"]])
        else (0, []) in
      let '(risk_score, risk_factors) :=
        if (length holders <? 10)%nat then
          (PyNum.max risk_score 0.6,
           risk_factors ++ [[Text "Маленькое количество холдеров (";
                             Int (Z.of_nat (length holders)); Text ")"]])
        else (risk_score, risk_factors) in
      let top5_percent := PyNum.sum (map get_percent (firstn 5 holders)) in
      if PyNum.ltb 90 top5_percent then
        (PyNum.max risk_score 0.8,
         risk_factors ++ [[Text "Топ-5 холдеров владеют "; Num top5_percent;
                           Text "% токенов"]])
      else (risk_score, risk_factors)
  end.

Definition stonfi_falsy (o : option StonfiData) : bool :=
  match o with
  | None => true
  | Some d =>
      match liquidity d, stonfi_other_keys d with
      | None, [] => true
      | _, _ => false
      end
  end.

Definition analyze_liquidity (stonfi_data : option StonfiData) : Q * list reason :=
  if stonfi_falsy stonfi_data then (0.5, [[Text "Нет данных о ликвидности"]])
  else
    let liq :=
      match stonfi_data with
      | Some d =>
          match liquidity d with
          | Some l => default 0 (usd l)
          | None => 0
          end
      | None => 0
      end in
    if PyNum.ltb liq 1000 then
      (0.8, [[Text "Крайне низкая ликвидность: $"; Num liq]])
    else if PyNum.ltb liq 5000 then
      (0.5, [[Text "Низкая ликвидность: $"; Num liq]])
    else (0, []).

Definition analyze_transactions (transactions : list Transaction) : Q * list reason :=
  match transactions with
  | [] => (0.5, [[Text "Нет данных о транзакциях"]])
  | _ =>
      if (length transactions <? 5)%nat then
        (0.6, [[Text "Очень мало транзакций (";
                Int (Z.of_nat (length transactions)); Text ")"]])
      else (0, [])
  end.

Definition analyze_description (self : Self) (description : string)
  : Q * list reason :=
  match description with
  | EmptyString => (0.5, [[Text "Отсутствует описание токена"]])
  | _ =>
      let '(risk_score, risk_factors) :=
        match filter (matches_pattern description) SCAM_PATTERNS with
        | pattern :: _ =>
            (0.7, [[Text "Описание содержит подозрительный паттерн: '";
                    Text pattern; Text "'"]])
        | [] => (0, [])
        end in
      match nlp_pipeline self with
      | Some pipeline =>
          match pipeline (PyStr.take 512 description) with
          | Some sentiment =>
              if String.eqb (label sentiment) "1 star"
                 && PyNum.ltb 0.7 (score sentiment)
              then (PyNum.max risk_score 0.6,
                    risk_factors
                      ++ [[Text "Крайне негативное описание по анализу настроения"]])
              else (risk_score, risk_factors)
          | None => (risk_score, risk_factors)
          end
      | None => (risk_score, risk_factors)
      end
  end.

(** The list [risk_scores] that [analyze_jetton] collects, with the
    reasons in the same order. *)
Definition collect (self : Self) (dt : DateTime) (d : Details)
           (jetton_data : JettonData) : list Q * list reason :=
  let '(is_fake, channel_risks) := check_fake_channel dt (socials d) in
  let '(risk_scores, risk_factors) :=
    if is_fake then ([0.8], channel_risks) else ([], []) in
  let '(holders_risk, holders_factors) := analyze_holders (holders d) in
  let '(liquidity_risk, liquidity_factors) :=
    analyze_liquidity (stonfi_data jetton_data) in
  let '(tx_risk, tx_factors) := analyze_transactions (transactions jetton_data) in
  let '(desc_risk, desc_factors) := analyze_description self (description d) in
  (risk_scores ++ [holders_risk; liquidity_risk; tx_risk; desc_risk],
   risk_factors ++ holders_factors ++ liquidity_factors ++ tx_factors
     ++ desc_factors).

(** [analyze_jetton] once [details] is a dictionary. *)
Definition analyze_details (self : Self) (dt : DateTime) (d : Details)
           (jetton_data : JettonData) : Analysis :=
  let '(risk_scores, risk_factors) := collect self dt d jetton_data in
  let final_score :=
    match risk_scores with
    | [] => 0.5
    | _ => PyNum.sum risk_scores / PyNum.len risk_scores
    end in
  {| is_scam := PyNum.leb SCAM_THRESHOLD final_score;
     scam_score := final_score;
     risk_factors := risk_factors;
     a_ticker := ticker d;
     a_name := name d;
     a_short_name := short_name d |}.

(** [analyze_jetton]; [None] is the [AttributeError] of [details.get] on a
    [details] that is [None]. *)
Definition analyze_jetton (self : Self) (dt : DateTime) (jetton_data : JettonData)
  : option Analysis :=
  match details jetton_data with
  | Some d => Some (analyze_details self dt d jetton_data)
  | None => None
  end.

End ScamAnalyzer.

(** ** The fragment of [re] used by the link patterns *)

Module Re.

(** Syntax: literals, character classes given as inclusive ranges,
    sequence, the greedy [r?] and [r{n,}], and the capturing group (each
    pattern of the repository has exactly one). *)
Inductive regex :=
| Lit (s : string)
| Cls (ranges : list (ascii * ascii))
| Seq (r1 r2 : regex)
| Opt (r : regex)
| Rep (n : nat) (r : regex)
| Group (r : regex).

Definition in_range (c : ascii) (rg : ascii * ascii) : bool :=
  ((nat_of_ascii (fst rg) <=? nat_of_ascii c)
   && (nat_of_ascii c <=? nat_of_ascii (snd rg)))%nat.

Definition in_class (ranges : list (ascii * ascii)) (c : ascii) : bool :=
  existsb (in_range c) ranges.

(** [strip_prefix p s]: the rest of [s] after the literal [p]. *)
Fixpoint strip_prefix (p s : string) : option string :=
  match p, s with
  | EmptyString, _ => Some s
  | String a p', String b s' =>
      if Ascii.eqb a b then strip_prefix p' s' else None
  | String _ _, EmptyString => None
  end.

Definition consumed (s rest : string) : string :=
  String.substring 0 (String.length s - String.length rest) s.

(** Backtracking matcher anchored at the start of [s], in continuation
    passing style: [k] receives the capture so far and the rest of the
    input, and a [None] from [k] makes the matcher try its next
    alternative (a shorter repetition, a skipped option). *)
Fixpoint match_at {A} (r : regex) (s : string) (cap : option string)
         (k : option string -> string -> option A) {struct r} : option A :=
  match r with
  | Lit p =>
      match strip_prefix p s with
      | Some rest => k cap rest
      | None => None
      end
  | Cls ranges =>
      match s with
      | String c rest => if in_class ranges c then k cap rest else None
      | EmptyString => None
      end
  | Seq r1 r2 => match_at r1 s cap (fun cap' s' => match_at r2 s' cap' k)
  | Opt r1 =>
      match match_at r1 s cap k with
      | Some res => Some res
      | None => k cap s
      end
  | Rep n r1 =>
      (fix loop (fuel n : nat) (s : string) (cap : option string) : option A :=
         let stop := if (n =? 0)%nat then k cap s else None in
         match fuel with
         | O => stop
         | S fuel' =>
             match match_at r1 s cap
                     (fun cap' s' =>
                        if (String.length s' <? String.length s)%nat
                        then loop fuel' (Nat.pred n) s' cap'
                        else None) with
             | Some res => Some res
             | None => stop
             end
         end) (S (String.length s)) n s cap
  | Group r1 =>
      match_at r1 s cap (fun _ s' => k (Some (consumed s s')) s')
  end.

(** [re.findall] for a pattern with one group: the group of every
    non-overlapping match, scanning from the left. *)
Fixpoint findall_fuel (fuel : nat) (r : regex) (s : string) : list string :=
  match fuel with
  | O => []
  | S fuel' =>
      match match_at r s None (fun cap rest => Some (cap, rest)) with
      | Some (cap, rest) =>
          default "" cap ::
            (if (String.length rest <? String.length s)%nat
             then findall_fuel fuel' r rest
             else match s with
                  | String _ s' => findall_fuel fuel' r s'
                  | EmptyString => []
                  end)
      | None =>
          match s with
          | String _ s' => findall_fuel fuel' r s'
          | EmptyString => []
          end
      end
  end.

Definition findall (r : regex) (s : string) : list string :=
  findall_fuel (S (String.length s)) r s.

End Re.

Module LinkPatterns.

Import Re.

(** [[a-zA-Z0-9_]] and [[a-zA-Z0-9_-]]. *)
Definition word : regex :=
  Cls [("a", "z"); ("A", "Z"); ("0", "9"); ("_", "_")]%char.
Definition word_dash : regex :=
  Cls [("a", "z"); ("A", "Z"); ("0", "9"); ("_", "_"); ("-", "-")]%char.

(** [(?:https?://)?] *)
Definition scheme : regex :=
  Opt (Seq (Lit "http") (Seq (Opt (Lit "s")) (Lit "://"))).

(** [TELEGRAM_LINK_PATTERNS] of config.py, in order:
    [(?:https?://)?t\.me/([a-zA-Z0-9_]+)],
    [@([a-zA-Z0-9_]{5,})],
    [(?:https?://)?t\.me/\+([a-zA-Z0-9_-]+)],
    [(?:https?://)?t\.me/joinchat/([a-zA-Z0-9_-]+)]. *)
Definition TELEGRAM_LINK_PATTERNS : list regex :=
  [ Seq scheme (Seq (Lit "t.me/") (Group (Rep 1 word)));
    Seq (Lit "@") (Group (Rep 5 word));
    Seq scheme (Seq (Lit "t.me/+") (Group (Rep 1 word_dash)));
    Seq scheme (Seq (Lit "t.me/joinchat/") (Group (Rep 1 word_dash))) ].

End LinkPatterns.

(** ** telegram/spider.py: records and pure scoring *)

Module Spider.

Import Config.

(** Row of [telegram_channel] (models/db.py). *)
Record TelegramChannel := {
  channel_id : string;
  username : option string;
  title : string;
  description : option string;
  members_count : option Z;
  created_at : option Z;
  last_scanned_at : option Z;
  is_active : bool;
  relevance_score : Q;
  token_mentions_count : Z;
  source : option string;
  source_details : option string
}.

Definition set_relevance (r : Q) (c : TelegramChannel) : TelegramChannel :=
  {| channel_id := channel_id c; username := username c; title := title c;
     description := description c; members_count := members_count c;
     created_at := created_at c; last_scanned_at := last_scanned_at c;
     is_active := is_active c; relevance_score := r;
     token_mentions_count := token_mentions_count c;
     source := source c; source_details := source_details c |}.

Definition set_mentions (n : Z) (c : TelegramChannel) : TelegramChannel :=
  {| channel_id := channel_id c; username := username c; title := title c;
     description := description c; members_count := members_count c;
     created_at := created_at c; last_scanned_at := last_scanned_at c;
     is_active := is_active c; relevance_score := relevance_score c;
     token_mentions_count := n;
     source := source c; source_details := source_details c |}.

Definition set_last_scanned (t : Z) (c : TelegramChannel) : TelegramChannel :=
  {| channel_id := channel_id c; username := username c; title := title c;
     description := description c; members_count := members_count c;
     created_at := created_at c; last_scanned_at := Some t;
     is_active := is_active c; relevance_score := relevance_score c;
     token_mentions_count := token_mentions_count c;
     source := source c; source_details := source_details c |}.

(** Candidate token as [_process_message] and [check_external_tokens] use
    it.  [mention_count], [last_mentioned_at] and [found_on_memepad] are
    the attributes those functions read and write; the column list of
    [PotentialToken] in models/db.py does not declare them. *)
Record PotentialToken := {
  pt_name : string;
  pt_description : string;
  mention_count : Z;
  last_mentioned_at : option Z;
  confidence_score : Q;
  found_on_memepad : bool
}.

Definition keyword_matches (description : string) : nat :=
  length (filter (fun keyword =>
                    PyStr.contains (PyStr.lower keyword) (PyStr.lower description))
                 TOKEN_KEYWORDS).

(** [RELEVANCE_FACTORS[k]]; [None] is the [KeyError]. *)
Definition factor (weights : gmap string Q) (k : string) : option Q := weights !! k.

(** The [try] body of [update_channel_relevance] up to the sum; [None]
    when a weight lookup raises. *)
Definition relevance (weights : gmap string Q) (now : Z) (channel : TelegramChannel)
  : option Q :=
  w_mentions ← factor weights "token_mentions";
  let token_mentions_score :=
    PyNum.min 1 (inject_Z (token_mentions_count channel) / 10) * w_mentions in
  let members := default 0%Z (members_count channel) in
  w_members ← factor weights "members_count";
  let members_score := PyNum.min 1 (inject_Z members / 10000) * w_members in
  activity_score ←
    match last_scanned_at channel with
    | Some scanned =>
        let days_since_scan := PyNum.days_between now scanned in
        w ← factor weights "activity";
        Some (PyNum.max 0.1 (1 - inject_Z days_since_scan / 30) * w)
    | None => Some 0.5
    end;
  description_score ←
    (if PyStr.truthy (description channel) then
       let hits := keyword_matches (default "" (description channel)) in
       w ← factor weights "description";
       Some (PyNum.min 1 (inject_Z (Z.of_nat hits) / 5) * w)
     else Some 0.5);
  age_score ←
    match created_at channel with
    | Some created =>
        let age_days := PyNum.days_between now created in
        w ← factor weights "age";
        Some (if (age_days <? 7)%Z then 0.2 * w
              else if (age_days <? 30)%Z then 0.5 * w
              else if (age_days <? 365)%Z then 0.9 * w
              else 0.7 * w)
    | None => Some 0.5
    end;
  Some (token_mentions_score + members_score + activity_score
        + description_score + age_score).

(** [update_channel_relevance]: the channel after the call and the value
    returned.  On an exception the stored score is returned unchanged. *)
Definition update_channel_relevance (weights : gmap string Q) (now : Z)
           (channel : TelegramChannel) : TelegramChannel * Q :=
  match relevance weights now channel with
  | Some relevance_score => (set_relevance relevance_score channel, relevance_score)
  | None => (channel, relevance_score channel)
  end.

(** [_extract_channel_links]: [list(set(channel_names))].  The order of
    the returned list is the iteration order of the set, which Python
    leaves unspecified; the result is kept as the set. *)
Definition _extract_channel_links (text : string) : gset string :=
  list_to_set
    (flat_map (fun pattern => Re.findall pattern text)
              LinkPatterns.TELEGRAM_LINK_PATTERNS).

(** The branch of [_process_message] on an existing candidate. *)
Definition mention (now : Z) (existing_token : PotentialToken) : PotentialToken :=
  {| pt_name := pt_name existing_token;
     pt_description := pt_description existing_token;
     mention_count := mention_count existing_token + 1;
     last_mentioned_at := Some now;
     confidence_score := PyNum.min 1 (confidence_score existing_token + 0.1);
     found_on_memepad := found_on_memepad existing_token |}.

(** The branch on a new name.  [fresh_count] stands for the value a new
    row gets for [mention_count], which the constructor call does not
    pass. *)
Definition new_token (fresh_count : Z) (token_name message_text : string)
  : PotentialToken :=
  {| pt_name := token_name;
     pt_description := message_text;
     mention_count := fresh_count;
     last_mentioned_at := None;
     confidence_score := 0.3;
     found_on_memepad := false |}.

(** [query(PotentialToken).filter_by(name=token_name).first()] followed by
    the update or the insertion, on the session's view of the table. *)
Fixpoint record_mention (fresh_count now : Z) (token_name message_text : string)
         (tokens : list PotentialToken) : PotentialToken * list PotentialToken :=
  match tokens with
  | [] =>
      let t := new_token fresh_count token_name message_text in (t, [t])
  | t :: rest =>
      if String.eqb (pt_name t) token_name then
        (mention now t, mention now t :: rest)
      else
        let '(r, rest') := record_mention fresh_count now token_name message_text rest in
        (r, t :: rest')
  end.

End Spider.

(** ** telegram/spider.py: the crawler over the session and the client *)

Module TelegramSpider.

Import Config Spider.

(** What the Telegram client hands back. *)
Record Entity := {
  entity_id : Z;
  is_channel : bool;
  entity_title : option string;
  entity_date : option Z
}.

Record FullChat := {
  about : option string;
  participants_count : option Z
}.

Record Message := {
  message_id : Z;
  text : option string;
  sender_id : Z;
  date : Z
}.

Record Chat := { chat_username : option string }.

Inductive search_outcome :=
| SearchOk (chats : list Chat)
| FloodWaitError (seconds : Z)
| SearchRaises.

Inductive messages_outcome :=
| Messages (l : list Message)
| AccessDenied
| MessagesRaise.

Inductive connect_outcome :=
| Connected
| StartRaises
| ClientRaises.

(** The remote side.  A [None] or a [..Raises] is an exception of the
    call.  [search_global n q] answers the search for [q] issued as the
    client's [n]-th search, so that an answer may change between two
    requests for the same keyword. *)
Record Telegram := {
  connect_result : connect_outcome;
  get_entity : string -> option Entity;
  get_full_channel : Entity -> option FullChat;
  get_messages : Entity -> nat -> messages_outcome;
  join_channel_request : Entity -> bool;
  search_global : nat -> string -> search_outcome
}.

(** Row of [telegram_message] with the keyword arguments that
    [_process_message] passes to the constructor (models/db.py declares a
    shorter column list). *)
Record TelegramMessage := {
  tm_message_id : Z;
  tm_chat_id : string;
  tm_chat_title : string;
  tm_sender_id : string;
  tm_text : string;
  tm_timestamp : Z;
  tm_contains_token_mention : bool;
  tm_potential_token_name : string
}.

Inductive exn :=
| KeyError (key : string)
| RemoteError.

(** What an observer of a run sees, in order. *)
Inductive Event :=
| Search (keyword : string)
| Sleep (seconds : Z)
| Probe (channel_name : string)
| Join (channel_name : string)
| Fetch (channel_name : string) (limit : nat)
| ChannelAlert (channel : string)
| LogInfo (message : string)
| LogWarning (message : string)
| LogError (message : string) (e : exn).

Record Db := {
  channels : list TelegramChannel;
  tokens : list PotentialToken;
  messages : list TelegramMessage
}.

(** [self] and the module-level [session]: the session's view of the
    tables, the last committed state, the number of searches issued and
    the events so far.  Statements sent to the database are taken to
    succeed; the exceptions that are modelled are those of the Telegram
    client and of dictionary lookups. *)
Record World := {
  client : bool;
  active_channels : list string;
  session : Db;
  stored : Db;
  searches : nat;
  trace : list Event
}.

Definition emit (e : Event) (w : World) : World :=
  {| client := client w; active_channels := active_channels w;
     session := session w; stored := stored w; searches := searches w;
     trace := trace w ++ [e] |}.

Definition set_client (b : bool) (w : World) : World :=
  {| client := b; active_channels := active_channels w;
     session := session w; stored := stored w; searches := searches w;
     trace := trace w |}.

Definition set_active (l : list string) (w : World) : World :=
  {| client := client w; active_channels := l;
     session := session w; stored := stored w; searches := searches w;
     trace := trace w |}.

Definition set_session (d : Db) (w : World) : World :=
  {| client := client w; active_channels := active_channels w;
     session := d; stored := stored w; searches := searches w;
     trace := trace w |}.

Definition count_search (w : World) : World :=
  {| client := client w; active_channels := active_channels w;
     session := session w; stored := stored w; searches := S (searches w);
     trace := trace w |}.

(** [session.commit()] and [session.rollback()]. *)
Definition commit (w : World) : World :=
  {| client := client w; active_channels := active_channels w;
     session := session w; stored := session w; searches := searches w;
     trace := trace w |}.

Definition rollback (w : World) : World :=
  {| client := client w; active_channels := active_channels w;
     session := stored w; stored := stored w; searches := searches w;
     trace := trace w |}.

Definition add_channel (c : TelegramChannel) (d : Db) : Db :=
  {| channels := channels d ++ [c]; tokens := tokens d; messages := messages d |}.

Definition add_message (m : TelegramMessage) (d : Db) : Db :=
  {| channels := channels d; tokens := tokens d; messages := messages d ++ [m] |}.

Definition set_tokens (l : list PotentialToken) (d : Db) : Db :=
  {| channels := channels d; tokens := l; messages := messages d |}.

(** In-place change of the row with the given (unique) [channel_id]. *)
Definition update_channel (cid : string) (f : TelegramChannel -> TelegramChannel)
           (d : Db) : Db :=
  {| channels := map (fun c => if String.eqb (channel_id c) cid then f c else c)
                     (channels d);
     tokens := tokens d; messages := messages d |}.

Definition has_username (channel_name : string) (c : TelegramChannel) : bool :=
  match username c with
  | Some u => String.eqb u channel_name
  | None => false
  end.

(** [TelegramChannel.last_scanned_at == None]. *)
Definition never_scanned (c : TelegramChannel) : bool :=
  match last_scanned_at c with
  | None => true
  | Some _ => false
  end.

Definition append_active (channel_name : string) (w : World) : World :=
  if existsb (String.eqb channel_name) (active_channels w) then w
  else set_active (active_channels w ++ [channel_name]) w.

Section Crawler.

(** The client, [_extract_potential_token_names] (not a subject of this
    development: any function from texts to name lists), the two
    configuration dictionaries, the value of [datetime.utcnow()] during
    the run and the [mention_count] of a new candidate row. *)
Variable tg : Telegram.
Variable _extract_potential_token_names : string -> list string.
Variable relevance_factors : gmap string Q.
Variable channel_discovery : gmap string cfg_value.
Variable now : Z.
Variable fresh_count : Z.

Definition add_channel_to_db (channel_name : string)
           (source source_details : option string) (w : World)
  : option TelegramChannel * World :=
  match List.find (has_username channel_name) (channels (session w)) with
  | Some existing_channel => (Some existing_channel, w)
  | None =>
      match get_entity tg channel_name with
      | Some entity =>
          if is_channel entity then
            match get_full_channel tg entity with
            | Some full_chat =>
                let new_channel :=
                  {| channel_id := pretty (entity_id entity);
                     username := Some channel_name;
                     title := default channel_name (entity_title entity);
                     description := about full_chat;
                     members_count := participants_count full_chat;
                     created_at := entity_date entity;
                     last_scanned_at := None;
                     is_active := true;
                     relevance_score := 0.5;
                     token_mentions_count := 0;
                     source := source;
                     source_details := source_details |} in
                (Some new_channel,
                 emit (LogInfo "Added new channel to database")
                      (commit (set_session (add_channel new_channel (session w)) w)))
            | None =>
                (None, emit (LogError "Error getting channel info" RemoteError) w)
            end
          else (None, emit (LogWarning "is not a channel, skipping") w)
      | None => (None, emit (LogWarning "channel could not be resolved") w)
      end
  end.

Definition load_active_channels (w : World) : World :=
  match channel_discovery !! "min_relevance_score" with
  | Some threshold =>
      let rows :=
        filter (fun c => is_active c
                         && PyNum.leb (cfg_num threshold) (relevance_score c))
               (channels (session w)) in
      match rows with
      | _ :: _ =>
          let names :=
            flat_map (fun c => if PyStr.truthy (username c)
                               then [default "" (username c)] else [])
                     rows in
          emit (LogInfo "Loaded active channels from database") (set_active names w)
      | [] =>
          let w := set_active MONITORED_CHANNELS w in
          let w :=
            fold_left (fun w channel_name =>
                         snd (add_channel_to_db channel_name (Some "initial") None w))
                      MONITORED_CHANNELS w in
          emit (LogInfo "Using initial channels") w
      end
  | None =>
      set_active MONITORED_CHANNELS
        (emit (LogError "Failed to load active channels"
                        (KeyError "min_relevance_score")) w)
  end.

Definition connect (w : World) : bool * World :=
  match connect_result tg with
  | Connected =>
      (true,
       load_active_channels
         (emit (LogInfo "Successfully connected to Telegram API")
               (set_client true w)))
  | StartRaises =>
      (false,
       emit (LogError "Failed to connect to Telegram API" RemoteError)
            (set_client true w))
  | ClientRaises =>
      (false, emit (LogError "Failed to connect to Telegram API" RemoteError) w)
  end.

(** [if not self.client: if not await self.connect(): return ...]:
    [false] is the early return. *)
Definition ensure_client (w : World) : bool * World :=
  if client w then (true, w) else connect w.

(** One element of [results.chats] in [search_channels_by_keywords]. *)
Definition register_chat (keyword : string) (st : list string * World)
           (result : Chat) : list string * World :=
  let '(found_channels, w) := st in
  if PyStr.truthy (chat_username result) then
    let channel_name := default "" (chat_username result) in
    if existsb (String.eqb channel_name) found_channels then st
    else
      let '(channel_db, w) :=
        add_channel_to_db channel_name (Some "keyword_search")
                          (Some (String.append "keyword: " keyword)) w in
      (found_channels ++ [channel_name],
       match channel_db with
       | Some _ => append_active channel_name w
       | None => w
       end)
  else st.

(** One iteration of [for keyword in keywords].  After the rate-limit
    branch has slept, [continue] ends the iteration: the loop goes on
    with the next keyword. *)
Definition search_keyword (st : list string * World) (keyword : string)
  : list string * World :=
  let '(found_channels, w) := st in
  let w := emit (LogInfo "Searching for channels with keyword") w in
  let n := searches w in
  let w := emit (Search keyword) (count_search w) in
  match search_global tg n keyword with
  | SearchOk chats =>
      let '(found_channels, w) :=
        fold_left (register_chat keyword) chats (found_channels, w) in
      (found_channels, emit (Sleep 2) w)
  | FloodWaitError seconds =>
      (found_channels,
       emit (Sleep seconds)
            (emit (LogWarning "Hit rate limit when searching channels") w))
  | SearchRaises =>
      (found_channels,
       emit (LogError "Failed to search channels with keyword" RemoteError) w)
  end.

Definition search_channels_by_keywords (keywords : list string) (w : World)
  : list string * World :=
  let keywords :=
    match keywords with
    | [] => CHANNEL_SEARCH_KEYWORDS
    | _ => keywords
    end in
  let '(ok, w) := ensure_client w in
  if ok then fold_left search_keyword keywords ([], w) else ([], w).

Definition join_channel (channel_name : string) (w : World) : bool * World :=
  match get_entity tg channel_name with
  | Some entity =>
      let w := emit (Probe channel_name) w in
      match get_messages tg entity 1 with
      | Messages _ => (true, emit (LogInfo "Already a member of channel") w)
      | AccessDenied =>
          let w := emit (Join channel_name) w in
          if join_channel_request tg entity
          then (true, emit (LogInfo "Successfully joined channel") w)
          else (false, emit (LogError "Failed to join channel" RemoteError) w)
      | MessagesRaise =>
          (false, emit (LogError "Failed to join channel" RemoteError) w)
      end
  | None => (false, emit (LogError "Failed to join channel" RemoteError) w)
  end.

Definition join_names (names : list string) : string :=
  String.concat ", " names.

Definition _process_message (message : Message) (chat_entity : Entity) (w : World)
  : (option PotentialToken * gset string) * World :=
  if PyStr.truthy (text message) then
    let message_text := default "" (text message) in
    let potential_token_names := _extract_potential_token_names message_text in
    let channel_names := _extract_channel_links message_text in
    match potential_token_names with
    | [] => ((None, channel_names), w)
    | token_name :: _ =>
        let chat_id := pretty (entity_id chat_entity) in
        let w :=
          match List.find (fun c => String.eqb (channel_id c) chat_id)
                          (channels (session w)) with
          | Some _ =>
              commit
                (set_session
                   (update_channel chat_id
                      (fun c =>
                         fst (update_channel_relevance relevance_factors now
                                (set_mentions (token_mentions_count c + 1) c)))
                      (session w)) w)
          | None => w
          end in
        let telegram_message :=
          {| tm_message_id := message_id message;
             tm_chat_id := chat_id;
             tm_chat_title := default chat_id (entity_title chat_entity);
             tm_sender_id := pretty (sender_id message);
             tm_text := message_text;
             tm_timestamp := date message;
             tm_contains_token_mention := true;
             tm_potential_token_name := join_names potential_token_names |} in
        let w := set_session (add_message telegram_message (session w)) w in
        let '(token, tokens') :=
          record_mention fresh_count now token_name message_text
                         (tokens (session w)) in
        ((Some token, channel_names),
         set_session (set_tokens tokens' (session w)) w)
    end
  else ((None, ∅), w).

(** Body of [for channel in unscanned_channels], on the row with the
    given [channel_id]. *)
Definition scan_unscanned (notification_bot : bool) (w : World) (cid : string)
  : World :=
  match List.find (fun c => String.eqb (channel_id c) cid) (channels (session w)) with
  | Some channel =>
      if PyStr.truthy (username channel) then
        let channel_name := default "" (username channel) in
        let '(joined, w) := join_channel channel_name w in
        if joined then
          match get_entity tg channel_name with
          | Some entity =>
              let w := emit (Fetch channel_name 50) w in
              match get_messages tg entity 50 with
              | Messages msgs =>
                  let '(token_mentions, w) :=
                    fold_left
                      (fun (st : Z * World) message =>
                         let '(n, w) := st in
                         let '((potential_token, _), w) :=
                           _process_message message entity w in
                         (match potential_token with
                          | Some _ => (n + 1)%Z
                          | None => n
                          end, w))
                      msgs (0%Z, w) in
                  let w :=
                    set_session
                      (update_channel cid
                         (fun c =>
                            fst (update_channel_relevance relevance_factors now
                                   (set_last_scanned now
                                      (set_mentions token_mentions c))))
                         (session w)) w in
                  let high :=
                    match List.find (fun c => String.eqb (channel_id c) cid)
                                    (channels (session w)) with
                    | Some c => PyNum.leb 0.7 (relevance_score c)
                    | None => false
                    end in
                  let w :=
                    if high && notification_bot
                    then emit (LogInfo "Sent notification about high-relevance channel")
                              (emit (ChannelAlert channel_name) w)
                    else w in
                  commit w
              | _ =>
                  rollback (emit (LogError "Error scanning channel" RemoteError) w)
              end
          | None =>
              rollback (emit (LogError "Error scanning channel" RemoteError) w)
          end
        else w
      else w
  | None => w
  end.

(** Body of [for channel_name in new_channels]. *)
Definition notify_new_channel (w : World) (channel_name : string) : World :=
  match List.find (fun c => has_username channel_name c
                            && PyNum.leb 0.6 (relevance_score c))
                  (channels (session w)) with
  | Some _ =>
      emit (LogInfo "Sent notification about new channel")
           (emit (ChannelAlert channel_name) w)
  | None => w
  end.

(** How a call ends: it returns, or an exception leaves it. *)
Inductive completion :=
| Returned
| Raised (e : exn).

Definition discover_new_channels (notification_bot : bool) (w : World)
  : completion * World :=
  match channel_discovery !! "enabled" with
  | None => (Raised (KeyError "enabled"), w)
  | Some enabled =>
      if negb (cfg_truthy enabled) then (Returned, w)
      else
        let w := emit (LogInfo "Starting channel discovery process") w in
        let current_count :=
          length (filter is_active (channels (session w))) in
        match channel_discovery !! "max_channels_total" with
        | None =>
            (Returned,
             emit (LogError "Error in channel discovery"
                            (KeyError "max_channels_total")) w)
        | Some cap =>
            if PyNum.leb (cfg_num cap) (inject_Z (Z.of_nat current_count)) then
              (Returned, emit (LogInfo "Channel limit reached") w)
            else
              let '(new_channels, w) := search_channels_by_keywords [] w in
              let w :=
                if notification_bot
                then fold_left notify_new_channel new_channels w
                else w in
              match channel_discovery !! "max_channels_per_run" with
              | None =>
                  (Returned,
                   emit (LogError "Error in channel discovery"
                                  (KeyError "max_channels_per_run")) w)
              | Some limit =>
                  let unscanned_channels :=
                    firstn (cfg_limit limit)
                           (filter (fun c => is_active c && never_scanned c)
                                   (channels (session w))) in
                  let w :=
                    fold_left (scan_unscanned notification_bot)
                              (map channel_id unscanned_channels) w in
                  (Returned, load_active_channels w)
              end
        end
  end.

End Crawler.

End TelegramSpider.

(** ** memepad/parser.py *)

Module MemepadParser.

Import Config.

#[warnings="-register-all"]
Inductive json :=
| JNull
| JBool (b : bool)
| JNum (q : Q)
| JStr (s : string)
| JArr (items : list json)
| JObj (fields : list (string * json)).

(** What [session.get(url)] leads to: the request raises, or a response
    arrives whose [json()] gives a value or raises. *)
Inductive body :=
| Json (j : json)
| NotJson.

Inductive response :=
| Response (status : Z) (b : body)
| RequestRaises.

Record Http := { get : string -> response }.

(** Outcome of awaiting a coroutine. *)
Inductive outcome (A : Type) :=
| Returns (a : A)
| Raises.
Arguments Returns {A} a.
Arguments Raises {A}.

(** [try: body  except Exception: return fallback]. *)
Definition try_except {A} (body : outcome A) (fallback : A) : outcome A :=
  match body with
  | Returns a => Returns a
  | Raises => Returns fallback
  end.

(** [data.get(key, fallback)]: an [AttributeError] unless [data] is an
    object. *)
Fixpoint assoc (key : string) (fields : list (string * json)) : option json :=
  match fields with
  | [] => None
  | (k, v) :: rest => if String.eqb k key then Some v else assoc key rest
  end.

Definition dict_get (data : json) (key : string) (fallback : json) : outcome json :=
  match data with
  | JObj fields => Returns (default fallback (assoc key fields))
  | _ => Raises
  end.

Definition details_url (short_name : string) : string :=
  MEMEPAD_BASE_URL ++ "/jetton/s/" ++ short_name.
Definition reactions_url (short_name : string) : string :=
  REACTIONS_BASE_URL ++ "/reactions/" ++ short_name.
Definition transactions_url (short_name : string) : string :=
  MEMEPAD_BASE_URL ++ "/jetton/s/" ++ short_name ++ "/transactions".
Definition stonfi_url (contract_address : string) : string :=
  STONFI_BASE_URL ++ "/wallets/"
    ++ "EQDjal6NZlYefSz0qYbbKYL_5G7lzdixamDHcXv3sUP0OYMu"
    ++ "/assets/" ++ contract_address.

Definition fetch_jetton_details (http : Http) (short_name : string)
  : outcome (option json) :=
  try_except
    match get http (details_url short_name) with
    | Response status b =>
        if negb (status =? 200)%Z then Returns None
        else match b with
             | Json j => Returns (Some j)
             | NotJson => Raises
             end
    | RequestRaises => Raises
    end
    None.

Definition fetch_reactions (http : Http) (short_name : string) : outcome json :=
  try_except
    match get http (reactions_url short_name) with
    | Response status b =>
        if negb (status =? 200)%Z then Returns (JObj [])
        else match b with
             | Json j => Returns j
             | NotJson => Raises
             end
    | RequestRaises => Raises
    end
    (JObj []).

Definition fetch_transactions (http : Http) (short_name : string) : outcome json :=
  try_except
    match get http (transactions_url short_name) with
    | Response status b =>
        if negb (status =? 200)%Z then Returns (JArr [])
        else match b with
             | Json data => dict_get data "transactions" (JArr [])
             | NotJson => Raises
             end
    | RequestRaises => Raises
    end
    (JArr []).

Definition fetch_stonfi_data (http : Http) (contract_address : string)
  : outcome (option json) :=
  try_except
    match get http (stonfi_url contract_address) with
    | Response status b =>
        if negb (status =? 200)%Z then Returns None
        else match b with
             | Json j => Returns (Some j)
             | NotJson => Raises
             end
    | RequestRaises => Raises
    end
    None.

(** [asyncio.gather] of four coroutines: the four results in the order of
    the arguments, or the exception of one of them. *)
Definition gather {A B C D} (a : outcome A) (b : outcome B) (c : outcome C)
           (d : outcome D) : outcome (A * B * C * D) :=
  match a, b, c, d with
  | Returns x, Returns y, Returns z, Returns t => Returns (x, y, z, t)
  | _, _, _, _ => Raises
  end.

Record CompleteData := {
  details : option json;
  reactions : json;
  transactions : json;
  stonfi_data : option json
}.

Definition get_complete_jetton_data (http : Http) (short_name address : string)
  : outcome CompleteData :=
  match gather (fetch_jetton_details http short_name)
               (fetch_reactions http short_name)
               (fetch_transactions http short_name)
               (fetch_stonfi_data http address) with
  | Returns (r0, r1, r2, r3) =>
      Returns {| details := r0; reactions := r1; transactions := r2;
                 stonfi_data := r3 |}
  | Raises => Raises
  end.

End MemepadParser.

(** ** main.py: reconciliation of candidates *)

Module Main.

Import Spider.

Inductive Event :=
| Commit
| NewTokenAlert (token_name : string)
| LogInfo (message : string).

(** The assignments of the [if found_on_memepad:] branch. *)
Definition reconcile (token : PotentialToken) : PotentialToken :=
  {| pt_name := pt_name token;
     pt_description := pt_description token;
     mention_count := mention_count token;
     last_mentioned_at := last_mentioned_at token;
     confidence_score := 0.9;
     found_on_memepad := true |}.

Section CheckExternal.

(** Whether the [ilike] query on the jetton table finds a row for the
    name, and the answer of [memepad_parser.search_token], a method the
    parser class of the repository does not define. *)
Variable in_jetton_table : string -> bool.
Variable search_token : string -> bool.


End CheckExternal.

(** History of a candidate row after its creation. *)
Inductive step :=
| Mentioned (now : Z)
| Reconciled.

Definition apply_step (token : PotentialToken) (s : step) : PotentialToken :=
  match s with
  | Mentioned now => mention now token
  | Reconciled => reconcile token
  end.

Definition after (history : list step) (token : PotentialToken) : PotentialToken :=
  fold_left apply_step history token.

End Main.

(** ** Concrete inputs used by the examples below *)

Module Scenario.

Import ScamAnalyzer.

Definition holder (p : Q) : Holder :=
  {| holder_address := "EQA_holder"; percent := Some p |}.

Definition transfer : Transaction :=
  {| tx_hash := "tx1"; tx_from := "EQA_holder1"; tx_to := "EQA_holder2";
     tx_amount := 100 |}.

Definition pool (dollars : Q) : option StonfiData :=
  Some {| liquidity := Some {| usd := Some dollars |}; stonfi_other_keys := [] |}.

Definition no_classifier : Self := {| nlp_pipeline := None |}.

Definition clock : DateTime := {| utcnow := 0; fromisoformat := fun _ => None |}.

Definition concentrated : list Holder :=
  [holder 60; holder 20; holder 5; holder 5; holder 5].

(** Scenario A of the specification: liquidity $500, two transactions,
    no description, no social links. *)
Definition details_A : Details :=
  {| socials := []; holders := concentrated; description := "";
     ticker := "TEST1"; name := "Test Token 1"; short_name := "test1" |}.

Definition scenario_A : JettonData :=
  {| details := Some details_A;
     reactions := [];
     transactions := [transfer; transfer];
     stonfi_data := pool 500 |}.

(** Scenario B, with the description text left open. *)
Definition details_B (text : string) : Details :=
  {| socials := []; holders := concentrated; description := text;
     ticker := "TEST1"; name := "Test Token 1"; short_name := "test1" |}.

Definition scenario_B_with (text : string) : JettonData :=
  {| details := Some (details_B text);
     reactions := [];
     transactions := [transfer; transfer; transfer];
     stonfi_data := pool 100 |}.

Definition scenario_B : JettonData := scenario_B_with "100x guaranteed profit".

(** A profile whose details request failed. *)
Definition scenario_no_details : JettonData :=
  {| details := None; reactions := []; transactions := [transfer];
     stonfi_data := pool 500 |}.

(** A holder list, sorted descending, whose first entry holds exactly
    half of the supply. *)
Definition half_owner : list Holder := [holder 50; holder 10].

(** [sorted descending by percentage]. *)
Fixpoint sorted_desc (l : list Holder) : bool :=
  match l with
  | a :: (b :: _) as rest => PyNum.leb (get_percent b) (get_percent a) && sorted_desc rest
  | _ => true
  end.

(** The three partial scores of [analyze_holders] on a non-empty list. *)
Definition concentration_part (top : Holder) : Q :=
  if PyNum.ltb 50 (get_percent top) then 0.95
  else if PyNum.ltb 30 (get_percent top) then 0.7 else 0.

Definition count_part (l : list Holder) : Q :=
  if (length l <? 10)%nat then 0.6 else 0.

Definition top5_part (l : list Holder) : Q :=
  if PyNum.ltb 90 (PyNum.sum (map get_percent (firstn 5 l))) then 0.8 else 0.

End Scenario.

Module RelevanceScenario.
Import Spider.

Definition day : Z := 86400.

(** The weight table of the relevance example, under the keys that
    [update_channel_relevance] reads. *)
Definition example_weights : gmap string Q :=
  <["token_mentions" := 0.4]>
  (<["members_count" := 0.2]>
  (<["activity" := 0.15]>
  (<["description" := 0.15]>
  (<["age" := 0.1]> ∅)))).

(** 12 mentions, 500 members, created at day 0, scanned at day 85, seen at
    day 90, with a description that hits six keywords. *)
Definition example_channel : TelegramChannel :=
  {| channel_id := "1001"; username := Some "cryptoton_news";
     title := "Cryptoton";
     description := Some "TON jetton token airdrop on memepad by blum";
     members_count := Some 500%Z;
     created_at := Some 0%Z;
     last_scanned_at := Some (85 * day)%Z;
     is_active := true;
     relevance_score := 0.5;
     token_mentions_count := 12;
     source := None; source_details := None |}.

Definition example_now : Z := 90 * day.
End RelevanceScenario.

Module DiscoveryScenario.
Import Config Spider TelegramSpider.

Definition empty_db : Db := {| channels := []; tokens := []; messages := [] |}.

(** A connected spider with nothing stored. *)
Definition online : World :=
  {| client := true; active_channels := []; session := empty_db;
     stored := empty_db; searches := 0; trace := [] |}.

(** A provider that rate-limits the first search it receives, for 30
    seconds, and answers every later one with no chats. *)
Definition flaky : Telegram :=
  {| connect_result := Connected;
     get_entity := fun _ => None;
     get_full_channel := fun _ => None;
     get_messages := fun _ _ => MessagesRaise;
     join_channel_request := fun _ => false;
     search_global := fun n _ =>
                        if (n =? 0)%nat then FloodWaitError 30 else SearchOk [] |}.

(** The keywords of the [Search] events of a trace, in order. *)
Fixpoint searched (l : list Event) : list string :=
  match l with
  | [] => []
  | Search keyword :: rest => keyword :: searched rest
  | _ :: rest => searched rest
  end.

Definition next_search (l : list Event) : option string := head (searched l).

(** For every rate-limit wait of a trace, the keyword that was being
    searched and the keyword of the search that follows the wait. *)
Fixpoint waits (current : option string) (l : list Event)
  : list (option string * option string) :=
  match l with
  | [] => []
  | Search keyword :: rest => waits (Some keyword) rest
  | LogWarning _ :: Sleep _ :: rest => (current, next_search rest) :: waits current rest
  | _ :: rest => waits current rest
  end.

(** The events of an iteration that hits the rate limit. *)
Definition after_rate_limit (keyword : string) (seconds : Z) (w : World) : World :=
  emit (Sleep seconds)
    (emit (LogWarning "Hit rate limit when searching channels")
       (emit (Search keyword)
          (count_search (emit (LogInfo "Searching for channels with keyword") w)))).

(** One active channel that was never scanned. *)
Definition unscanned_channel : TelegramChannel :=
  {| channel_id := "1001"; username := Some "cryptoton_news";
     title := "Cryptoton"; description := None; members_count := Some 500%Z;
     created_at := None; last_scanned_at := None; is_active := true;
     relevance_score := 0.5; token_mentions_count := 0;
     source := Some "message_link"; source_details := None |}.

Definition one_channel_db : Db :=
  {| channels := [unscanned_channel]; tokens := []; messages := [] |}.

Definition one_channel_world : World :=
  {| client := true; active_channels := ["cryptoton_news"];
     session := one_channel_db; stored := one_channel_db;
     searches := 0; trace := [] |}.

(** A provider that resolves every name to the channel 1001 and lets its
    messages be read; searches find nothing. *)
Definition quiet : Telegram :=
  {| connect_result := Connected;
     get_entity := fun _ => Some {| entity_id := 1001; is_channel := true;
                                    entity_title := Some "Cryptoton";
                                    entity_date := None |};
     get_full_channel := fun _ => Some {| about := None;
                                          participants_count := Some 500%Z |};
     get_messages := fun _ _ => Messages [];
     join_channel_request := fun _ => true;
     search_global := fun _ _ => SearchOk [] |}.

(** [CHANNEL_DISCOVERY] with the cap stored under the key that
    [discover_new_channels] reads. *)
Definition discovery_with_cap : gmap string cfg_value :=
  <["max_channels_total" := CInt 50]> CHANNEL_DISCOVERY.

(** The names of the channels probed for membership in a trace. *)
Fixpoint probed (l : list Event) : list string :=
  match l with
  | [] => []
  | Probe channel_name :: rest => channel_name :: probed rest
  | _ :: rest => probed rest
  end.

End DiscoveryScenario.

Module FetchScenario.
Import MemepadParser.

(** What a source delivers: the decoded body of a 200 response, and
    nothing when the request raises, the status is another one or the body
    does not decode. *)
Definition delivers (r : response) : option json :=
  match r with
  | Response status (Json j) => if (status =? 200)%Z then Some j else None
  | _ => None
  end.

End FetchScenario.

(** ** Terms for the statements on the analyzer *)

Module AnalyzerTerms.
Import ScamAnalyzer.

(** The value [liquidity] that [analyze_liquidity] compares with its
    thresholds: [stonfi_data.get("liquidity", {}).get("usd", 0)]. *)
Definition quoted_liquidity (stonfi_data : option StonfiData) : Q :=
  match stonfi_data with
  | Some d =>
      match liquidity d with
      | Some l => default 0 (usd l)
      | None => 0
      end
  | None => 0
  end.

(** A Telegram social link whose description or age makes
    [check_fake_channel] add a reason. *)
Definition suspicious (dt : DateTime) (social : Social) : bool :=
  match social_type social with
  | Some t =>
      String.eqb t "TELEGRAM"
      && ((PyStr.truthy (social_description social)
           && existsb (matches_pattern (default "" (social_description social)))
                      Config.SCAM_PATTERNS)
          || (PyStr.truthy (social_created_at social)
              && match fromisoformat dt (default "" (social_created_at social)) with
                 | Some created_at =>
                     (PyNum.days_between (utcnow dt) created_at
                      <? Config.MIN_CHANNEL_AGE_DAYS)%Z
                 | None => false
                 end))
  | None => false
  end.

(** A classifier whose call always raises. *)
Definition broken_classifier : Self :=
  {| nlp_pipeline := Some (fun _ => None) |}.

(** A profile that reaches the decision threshold: one holder with 60
    percent, liquidity $100, three transactions, a description that
    contains an entry of [SCAM_PATTERNS] literally. *)
Definition details_scam : Details :=
  {| socials := []; holders := Scenario.concentrated;
     description := "profit without.{0,10}risk";
     ticker := "SCM"; name := "Scam"; short_name := "scm" |}.

Definition scenario_scam : JettonData :=
  {| details := Some details_scam; reactions := [];
     transactions := [Scenario.transfer; Scenario.transfer; Scenario.transfer];
     stonfi_data := Scenario.pool 100 |}.

(** A profile that gives no sub-analyzer anything to report: ten holders
    with 5 percent each, liquidity $6000, five transactions, a plain
    description. *)
Definition details_clean : Details :=
  {| socials := []; holders := repeat (Scenario.holder 5) 10;
     description := "A community token";
     ticker := "CLN"; name := "Clean"; short_name := "cln" |}.

Definition scenario_clean : JettonData :=
  {| details := Some details_clean; reactions := [];
     transactions := repeat Scenario.transfer 5;
     stonfi_data := Scenario.pool 6000 |}.

End AnalyzerTerms.

(** ** Terms for the statements on relevance and candidates *)

Module RelevanceTerms.
Import Spider.

(** A channel as [add_channel_to_db] stores it when the entity has neither
    a description nor a creation date. *)
Definition bare_channel : TelegramChannel :=
  {| channel_id := "2002"; username := Some "tonx_dev"; title := "tonx_dev";
     description := None; members_count := Some 40%Z; created_at := None;
     last_scanned_at := None; is_active := true; relevance_score := 0.5;
     token_mentions_count := 0; source := Some "initial";
     source_details := None |}.



End RelevanceTerms.

(** ** Terms for the statements on the crawler *)

Module CrawlerTerms.
Import Config Spider TelegramSpider.

(** A row as [add_channel_to_db] creates it: active, never scanned, with
    the neutral relevance 0.5 and no mentions. *)
Definition new_row (c : TelegramChannel) : bool :=
  is_active c && never_scanned c && Qeq_bool (relevance_score c) 0.5
  && (token_mentions_count c =? 0)%Z.

(** A provider that finds the same two channels for every keyword. *)
Definition two_chats : Telegram :=
  {| connect_result := Connected;
     get_entity := fun name =>
                     if String.eqb name "tonblum"
                     then Some {| entity_id := 1; is_channel := true;
                                  entity_title := Some "Blum";
                                  entity_date := Some 0%Z |}
                     else None;
     get_full_channel := fun _ => Some {| about := Some "TON memepad";
                                          participants_count := Some 900%Z |};
     get_messages := fun _ _ => Messages [];
     join_channel_request := fun _ => true;
     search_global := fun _ _ =>
                        SearchOk [ {| chat_username := Some "tonblum" |};
                                   {| chat_username := None |};
                                   {| chat_username := Some "memescope" |};
                                   {| chat_username := Some "tonblum" |} ] |}.

(** [w'] has the rows of [w], unchanged and in place, followed by rows as
    [add_channel_to_db] creates them; the other tables are the same. *)
Definition grows (w w' : World) : Prop :=
  exists added,
    channels (session w') = channels (session w) ++ added
    /\ forallb new_row added = true
    /\ tokens (session w') = tokens (session w)
    /\ messages (session w') = messages (session w).




End CrawlerTerms.

(** ** main.py: retirement of channels *)

Module Cleanup.

Import Spider TelegramSpider.

Definition set_inactive (c : TelegramChannel) : TelegramChannel :=
  {| channel_id := channel_id c; username := username c; title := title c;
     description := description c; members_count := members_count c;
     created_at := created_at c; last_scanned_at := last_scanned_at c;
     is_active := false; relevance_score := relevance_score c;
     token_mentions_count := token_mentions_count c;
     source := source c; source_details := source_details c |}.

(** [datetime.utcnow() - timedelta(days=30)]. *)
Definition month_ago (now : Z) : Z := now - 30 * 86400.

(** The filter of the query: active, relevance below 0.3, last scanned
    before [month_ago].  A row whose [last_scanned_at] is NULL satisfies no
    comparison and is not selected. *)
Definition is_old (now : Z) (c : TelegramChannel) : bool :=
  is_active c
  && PyNum.ltb (relevance_score c) 0.3
  && match last_scanned_at c with
     | Some scanned => (scanned <? month_ago now)%Z
     | None => false
     end.

Definition clean_old_channels (now : Z) (w : World) : World :=
  let old_channels := List.filter (is_old now) (channels (session w)) in
  match old_channels with
  | [] => w
  | _ =>
      let w := emit (LogInfo "Удаление неактивных каналов с низкой релевантностью") w in
      commit
        (set_session
           {| channels := map (fun c => if is_old now c then set_inactive c else c)
                              (channels (session w));
              tokens := tokens (session w);
              messages := messages (session w) |} w)
  end.

(** A channel with a low score that was scanned on day 0. *)
Definition stale_channel : TelegramChannel :=
  {| channel_id := "3003"; username := Some "old_news"; title := "Old news";
     description := Some "news"; members_count := Some 12%Z;
     created_at := Some 0%Z; last_scanned_at := Some 0%Z; is_active := true;
     relevance_score := 0.2; token_mentions_count := 0;
     source := Some "message_link"; source_details := None |}.

Definition stale_world : World :=
  {| client := true; active_channels := ["old_news"];
     session := {| channels := [stale_channel; DiscoveryScenario.unscanned_channel];
                   tokens := []; messages := [] |};
     stored := {| channels := [stale_channel; DiscoveryScenario.unscanned_channel];
                  tokens := []; messages := [] |};
     searches := 0; trace := [] |}.

End Cleanup.

(** ** memepad/parser.py: the listing views *)

Module MemepadListing.

Import Config MemepadParser.

Definition listing_url (endpoint : string) : string :=
  MEMEPAD_BASE_URL ++ "/" ++ endpoint.

Definition fetch_jettons (http : Http) (endpoint : string) : outcome json :=
  try_except
    match get http (listing_url endpoint) with
    | Response status b =>
        if negb (status =? 200)%Z then Returns (JArr [])
        else match b with
             | Json data => dict_get data "jettons" (JArr [])
             | NotJson => Raises
             end
    | RequestRaises => Raises
    end
    (JArr []).

Definition endpoints : list string :=
  [ "jetton/spotlight";
    "jetton/sections/published_at?published=only&pageToken=1";
    "jetton/sections/nearest_to_listing?published=include_listed";
    "jetton/sections/hot?published=include";
    "jetton/sections/live-streams?published=include";
    "jetton/sections/created_at?published=exclude" ].

(** [asyncio.gather] on the list of tasks: all results in order, or the
    exception of a task. *)
Fixpoint gather_all {A} (tasks : list (outcome A)) : outcome (list A) :=
  match tasks with
  | [] => Returns []
  | Returns a :: rest =>
      match gather_all rest with
      | Returns l => Returns (a :: l)
      | Raises => Raises
      end
  | Raises :: _ => Raises
  end.

(** Truth value of a decoded JSON value. *)
Definition json_truthy (j : json) : bool :=
  match j with
  | JNull => false
  | JBool b => b
  | JNum q => negb (Qeq_bool q 0)
  | JStr s => negb (String.eqb s "")
  | JArr items => match items with [] => false | _ => true end
  | JObj fields => match fields with [] => false | _ => true end
  end.

(** The values a set can hold, up to Python's equality on them: [None],
    numbers (with [True] as 1 and [False] as 0) and strings.  Lists and
    dictionaries are unhashable. *)
Inductive key :=
| KNone
| KNum (numerator : Z) (denominator : positive)
| KStr (s : string).

Definition key_of (j : json) : option key :=
  match j with
  | JNull => Some KNone
  | JBool b => Some (KNum (if b then 1 else 0) 1)
  | JNum q => Some (KNum (Qnum (Qred q)) (Qden (Qred q)))
  | JStr s => Some (KStr s)
  | JArr _ | JObj _ => None
  end.

Definition key_eqb (a b : key) : bool :=
  match a, b with
  | KNone, KNone => true
  | KNum n d, KNum n' d' => (n =? n')%Z && (d =? d')%positive
  | KStr s, KStr s' => String.eqb s s'
  | _, _ => false
  end.

(** [for x in value]: the items of a list, the keys of a dictionary, the
    characters of a string; other values are not iterable. *)
Fixpoint characters (s : string) : list json :=
  match s with
  | EmptyString => []
  | String c rest => JStr (String c EmptyString) :: characters rest
  end.

Definition iterate (value : json) : outcome (list json) :=
  match value with
  | JArr items => Returns items
  | JObj fields => Returns (map (fun kv => JStr (fst kv)) fields)
  | JStr s => Returns (characters s)
  | JNull | JBool _ | JNum _ => Raises
  end.

(** [jetton.get("address")]: an [AttributeError] unless the entry is an
    object. *)
Definition address_of (jetton : json) : outcome json :=
  match jetton with
  | JObj fields => Returns (default JNull (assoc "address" fields))
  | _ => Raises
  end.

(** Body of the inner loop.  The state is [seen_addresses] (in the order
    of insertion) and [all_jettons]. *)
Definition merge_jetton (st : list key * list json) (jetton : json)
  : outcome (list key * list json) :=
  let '(seen_addresses, all_jettons) := st in
  match address_of jetton with
  | Returns address =>
      if json_truthy address then
        match key_of address with
        | Some k =>
            if existsb (key_eqb k) seen_addresses then Returns st
            else Returns (seen_addresses ++ [k], all_jettons ++ [jetton])
        | None => Raises
        end
      else Returns st
  | Raises => Raises
  end.

Fixpoint for_each {S A} (body : S -> A -> outcome S) (items : list A) (st : S)
  : outcome S :=
  match items with
  | [] => Returns st
  | x :: rest =>
      match body st x with
      | Returns st' => for_each body rest st'
      | Raises => Raises
      end
  end.

Definition merge_list (st : list key * list json) (jettons_list : json)
  : outcome (list key * list json) :=
  match iterate jettons_list with
  | Returns items => for_each merge_jetton items st
  | Raises => Raises
  end.

Definition fetch_all_jettons (http : Http) : outcome (list json) :=
  match gather_all (map (fetch_jettons http) endpoints) with
  | Returns results =>
      match for_each merge_list results ([], []) with
      | Returns (_, all_jettons) => Returns all_jettons
      | Raises => Raises
      end
  | Raises => Raises
  end.

(** The key under which an entry is kept, when it is kept. *)
Definition address_key (jetton : json) : option key :=
  match address_of jetton with
  | Returns address => if json_truthy address then key_of address else None
  | Raises => None
  end.

(** The entries the six views deliver, in the order of the views. *)
Definition delivered (http : Http) : list json :=
  flat_map (fun endpoint =>
              match fetch_jettons http endpoint with
              | Returns value =>
                  match iterate value with
                  | Returns items => items
                  | Raises => []
                  end
              | Raises => []
              end) endpoints.

(** An entry that the merge can take: an object whose address is absent,
    falsy or hashable. *)
Definition mergeable (jetton : json) : bool :=
  match address_of jetton with
  | Returns address =>
      negb (json_truthy address)
      || match key_of address with Some _ => true | None => false end
  | Raises => false
  end.

(** The entries of one delivered view. *)
Definition entries (value : json) : list json :=
  match iterate value with
  | Returns items => items
  | Raises => []
  end.

(** A view the merge can take: iterable, with mergeable entries only. *)
Definition well_formed_view (value : json) : bool :=
  match iterate value with
  | Returns items => forallb mergeable items
  | Raises => false
  end.

Definition all_well_formed (http : Http) : bool :=
  forallb (fun endpoint =>
             match fetch_jettons http endpoint with
             | Returns value => well_formed_view value
             | Raises => false
             end) endpoints.

(** [has_key k j]: the entry [j] is kept under the key [k]. *)
Definition has_key (k : option key) (jetton : json) : bool :=
  match k, address_key jetton with
  | Some a, Some b => key_eqb a b
  | _, _ => false
  end.

(** The state of the merge after the entries [processed]: the kept entries
    carry exactly the seen keys, which are distinct; they are a
    subsequence of the processed entries; every processed entry with a key
    has its key seen; and each kept entry is the first processed entry
    with its key. *)
Definition tracks (processed : list json) (st : list key * list json) : Prop :=
  map address_key (snd st) = map Some (fst st)
  /\ NoDup (fst st)
  /\ sublist (snd st) processed
  /\ (forall j k, In j processed -> address_key j = Some k -> In k (fst st))
  /\ (forall j, In j (snd st) ->
                 List.find (has_key (address_key j)) processed = Some j).

Definition token (address ticker : string) : json :=
  JObj [("address", JStr address); ("ticker", JStr ticker)].

(** Two views that answer, with one token in common; the other views
    fail.  And a view that lists a bare string. *)
Definition two_views : Http :=
  {| get := fun url =>
       if String.eqb url (listing_url "jetton/spotlight") then
         Response 200 (Json (JObj [("jettons",
                                    JArr [token "EQA_test1" "TEST1";
                                          token "EQA_test2" "TEST2"])]))
       else if String.eqb url (listing_url "jetton/sections/hot?published=include") then
         Response 200 (Json (JObj [("jettons",
                                    JArr [token "EQA_test2" "HOT2";
                                          token "EQA_test3" "TEST3"])]))
       else if String.eqb url (listing_url "jetton/sections/created_at?published=exclude")
       then Response 503 NotJson
       else RequestRaises |}.

Definition bare_string_view : Http :=
  {| get := fun _ => Response 200 (Json (JObj [("jettons", JArr [JStr "EQA_test1"])])) |}.

End MemepadListing.

(** ** bot/notification.py *)

Module NotificationBot.

Definition valid_types : list string :=
  ["new_tokens"; "scam_alerts"; "new_channels"; "all"].

Definition every_type : list string :=
  ["new_tokens"; "scam_alerts"; "new_channels"].

(** [self._subscribed_users]: a dictionary from user ids to lists of
    notification types, in insertion order. *)
Definition subscriptions := list (Z * list string).

Fixpoint lookup (user_id : Z) (d : subscriptions) : option (list string) :=
  match d with
  | [] => None
  | (u, types) :: rest => if (u =? user_id)%Z then Some types else lookup user_id rest
  end.

(** [d[user_id] = types]: in place for a key that is present, at the end
    for a new key. *)
Fixpoint assign (user_id : Z) (types : list string) (d : subscriptions)
  : subscriptions :=
  match d with
  | [] => [(user_id, types)]
  | (u, old) :: rest =>
      if (u =? user_id)%Z then (u, types) :: rest
      else (u, old) :: assign user_id types rest
  end.

(** [del d[user_id]]. *)
Fixpoint remove (user_id : Z) (d : subscriptions) : subscriptions :=
  match d with
  | [] => []
  | (u, old) :: rest =>
      if (u =? user_id)%Z then rest else (u, old) :: remove user_id rest
  end.

Inductive reply :=
| AskForTypes
| InvalidTypes
| Subscribed (types : list string)
| UnsubscribedAll
| NotSubscribed
| Unsubscribed (removed remaining : list string).

Definition is_valid (arg : string) : bool := existsb (String.eqb arg) valid_types.

(** The loop of [_cmd_subscribe] over [args], from the list collected so
    far. *)
Fixpoint subscription_types (args : list string) (collected : list string)
  : list string :=
  match args with
  | [] => collected
  | arg :: rest =>
      if is_valid arg then
        if String.eqb arg "all" then every_type
        else subscription_types rest (collected ++ [arg])
      else subscription_types rest collected
  end.

(** [_cmd_subscribe], with [args] the words of [message.get_args()]. *)
Definition _cmd_subscribe (user_id : Z) (args : list string) (d : subscriptions)
  : subscriptions * reply :=
  match args with
  | [] => (d, AskForTypes)
  | _ =>
      match subscription_types args [] with
      | [] => (d, InvalidTypes)
      | types => (assign user_id types d, Subscribed types)
      end
  end.

(** The loop of [_cmd_unsubscribe]; [None] when it meets "all", deletes the
    entry and returns. *)
Fixpoint unsubscribe_types (args : list string) (collected : list string)
  : option (list string) :=
  match args with
  | [] => Some collected
  | arg :: rest =>
      if is_valid arg then
        if String.eqb arg "all" then None
        else unsubscribe_types rest (collected ++ [arg])
      else unsubscribe_types rest collected
  end.

Definition _cmd_unsubscribe (user_id : Z) (args : list string) (d : subscriptions)
  : subscriptions * reply :=
  match args with
  | [] =>
      match lookup user_id d with
      | Some _ => (remove user_id d, UnsubscribedAll)
      | None => (d, NotSubscribed)
      end
  | _ =>
      match lookup user_id d with
      | None => (d, NotSubscribed)
      | Some current_types =>
          match unsubscribe_types args [] with
          | None => (remove user_id d, UnsubscribedAll)
          | Some [] => (d, InvalidTypes)
          | Some unsubscribe =>
              let new_types :=
                List.filter (fun t => negb (existsb (String.eqb t) unsubscribe))
                            current_types in
              match new_types with
              | [] => (remove user_id d, UnsubscribedAll)
              | _ => (assign user_id new_types d, Unsubscribed unsubscribe new_types)
              end
          end
      end
  end.

(** What [self.bot.send_message] does on its [n]-th call. *)
Inductive send_result :=
| Delivered
| BotBlocked
| ChatNotFound
| RetryAfter (timeout : Z)
| OtherFailure.

Record Bot := { send_message : nat -> Z -> string -> send_result }.

Inductive Event :=
| Sent (chat_id : Z) (message : string)
| Slept (timeout : Z)
| LogError (chat_id : Z).

(** A local variable of a function body. *)
Inductive local (A : Type) :=
| Unbound
| Bound (a : A).
Arguments Unbound {A}.
Arguments Bound {A} a.

(** [types.ParseMode.HTML] inside [send_alert].  The body of [send_alert]
    assigns [types] (it is a target of its [for] loop), so the name is a
    local variable of the function and not the module [aiogram.types]:
    before the loop has run in the same call it is unbound and the
    expression raises [UnboundLocalError]; once bound it is a list, which
    has no attribute [ParseMode].  [None] is the exception. *)
Definition html_parse_mode (types : local (list string)) : option string :=
  match types with
  | Unbound => None
  | Bound _ => None
  end.

(** [send_alert].  [fuel] bounds the depth of the calls of [send_alert] by
    itself ([None] when it is exhausted); [n] counts the calls of
    [send_message].  A [chat_id] of [None] or 0 selects the broadcast. *)
Fixpoint send_alert (fuel : nat) (bot : Bot) (d : subscriptions)
         (notification_type message : string) (chat_id : option Z) (n : nat)
  : option (bool * list Event * nat) :=
  match fuel with
  | O => None
  | S fuel' =>
      let chat := default 0%Z chat_id in
      if negb (chat =? 0)%Z then
        match html_parse_mode Unbound with
        | Some _ =>
            match send_message bot n chat message with
            | Delivered => Some (true, [Sent chat message], S n)
            | BotBlocked => Some (false, [LogError chat], S n)
            | ChatNotFound => Some (false, [LogError chat], S n)
            | RetryAfter timeout =>
                match send_alert fuel' bot d notification_type message chat_id (S n) with
                | Some (ok, events, n') =>
                    Some (ok, LogError chat :: Slept timeout :: events, n')
                | None => None
                end
            | OtherFailure => Some (false, [LogError chat], S n)
            end
        | None => Some (false, [LogError chat], n)
        end
      else
        (fix broadcast (items : subscriptions) (success_count : nat)
             (events : list Event) (n : nat) : option (bool * list Event * nat) :=
           match items with
           | [] => Some (negb (success_count =? 0)%nat, events, n)
           | (user_id, types) :: rest =>
               if existsb (String.eqb notification_type) types then
                 match send_alert fuel' bot d notification_type message
                                  (Some user_id) n with
                 | Some (ok, events', n') =>
                     broadcast rest
                               (if ok then S success_count else success_count)
                               (events ++ events') n'
                 | None => None
                 end
               else broadcast rest success_count events n
           end) d 0%nat [] n
  end.

(** The keys are those of a dictionary (each user once), and every stored
    list is non-empty and holds real notification types only. *)
Definition well_formed (d : subscriptions) : Prop :=
  List.NoDup (map fst d)
  /\ Forall (fun entry => snd entry <> []
                          /\ Forall (fun t => In t every_type) (snd entry)) d.

(** The users subscribed to a type, in the order of the dictionary. *)
Definition subscribers (notification_type : string) (d : subscriptions) : list Z :=
  map fst (List.filter (fun entry => existsb (String.eqb notification_type) (snd entry))
                       d).

(** A bot that accepts every message. *)
Definition willing : Bot := {| send_message := fun _ _ _ => Delivered |}.

Definition two_users : subscriptions :=
  [(501, ["new_tokens"; "scam_alerts"]); (502, ["new_channels"])]%Z.

End NotificationBot.

(** ** Channel names *)

Module ChannelNames.

(** Every character of [s] satisfies [p]. *)
Fixpoint all_chars (p : ascii -> bool) (s : string) : bool :=
  match s with
  | EmptyString => true
  | String c rest => p c && all_chars p rest
  end.

(** The characters [[a-zA-Z0-9_-]]. *)
Definition name_char (c : ascii) : bool :=
  Re.in_class [("a", "z"); ("A", "Z"); ("0", "9"); ("_", "_"); ("-", "-")]%char c.

(** [x] occurs in [text]. *)
Definition occurs_in (x text : string) : Prop :=
  exists before after, text = String.append before (String.append x after).

(** The patterns that end in a group [([ranges]{n,})], after any prefix. *)
Inductive ends_in_group (ranges : list (ascii * ascii)) (n : nat)
  : Re.regex -> Prop :=
| ends_group : ends_in_group ranges n (Re.Group (Re.Rep n (Re.Cls ranges)))
| ends_seq r1 r2 :
    ends_in_group ranges n r2 -> ends_in_group ranges n (Re.Seq r1 r2).

End ChannelNames.

(** * Properties *)

(** ** Facts about the numeric helpers *)

Lemma ltb_lt (a b : Q) : PyNum.ltb a b = true <-> a < b.
Proof.
  unfold PyNum.ltb. rewrite negb_true_iff.
  split; intro H.
  - apply Qnot_le_lt. intro L. apply Qle_bool_iff in L. congruence.
  - destruct (Qle_bool b a) eqn:E; [|reflexivity].
    apply Qle_bool_iff in E. exfalso. apply (Qlt_not_le _ _ H E).
Qed.

Lemma ltb_ge (a b : Q) : PyNum.ltb a b = false <-> b <= a.
Proof.
  unfold PyNum.ltb. rewrite negb_false_iff. apply Qle_bool_iff.
Qed.

Lemma leb_le (a b : Q) : PyNum.leb a b = true <-> a <= b.
Proof. apply Qle_bool_iff. Qed.

Lemma max_cases (a b : Q) :
  (a < b /\ PyNum.max a b = b) \/ (b <= a /\ PyNum.max a b = a).
Proof.
  unfold PyNum.max. destruct (PyNum.ltb a b) eqn:E.
  - left. split; [now apply ltb_lt|reflexivity].
  - right. split; [now apply ltb_ge|reflexivity].
Qed.

Lemma min_cases (a b : Q) :
  (b < a /\ PyNum.min a b = b) \/ (a <= b /\ PyNum.min a b = a).
Proof.
  unfold PyNum.min. destruct (PyNum.ltb b a) eqn:E.
  - left. split; [now apply ltb_lt|reflexivity].
  - right. split; [now apply ltb_ge|reflexivity].
Qed.

Lemma max_lower_l (a b : Q) : a <= PyNum.max a b.
Proof. destruct (max_cases a b) as [[H ->]|[H ->]]; lra. Qed.

Lemma max_lower_r (a b : Q) : b <= PyNum.max a b.
Proof. destruct (max_cases a b) as [[H ->]|[H ->]]; lra. Qed.

Lemma max_upper (a b c : Q) : a <= c -> b <= c -> PyNum.max a b <= c.
Proof. intros. destruct (max_cases a b) as [[H1 ->]|[H1 ->]]; lra. Qed.

Lemma sum_four (a b c d : Q) : PyNum.sum [a; b; c; d] == a + b + c + d.
Proof. unfold PyNum.sum. simpl. lra. Qed.

Lemma sum_five (a b c d e : Q) : PyNum.sum [a; b; c; d; e] == a + b + c + d + e.
Proof. unfold PyNum.sum. simpl. lra. Qed.

(** ** The risk aggregation engine *)

Section ScamAnalyzerFacts.

Import ScamAnalyzer Scenario.

(** [analyze_holders] returns the running maximum of its three partial
    scores. *)
Lemma analyze_holders_running_max (top : Holder) (rest : list Holder) :
  fst (analyze_holders (top :: rest))
  = let l := top :: rest in
    let s1 := concentration_part top in
    let s2 := if (length l <? 10)%nat then PyNum.max s1 0.6 else s1 in
    if PyNum.ltb 90 (PyNum.sum (map get_percent (firstn 5 l)))
    then PyNum.max s2 0.8 else s2.
Proof.
  unfold analyze_holders, concentration_part.
  destruct (PyNum.ltb 50 (get_percent top));
    [|destruct (PyNum.ltb 30 (get_percent top))];
    destruct (length (top :: rest) <? 10)%nat;
    cbv zeta;
    destruct (PyNum.ltb 90 (PyNum.sum (map get_percent (firstn 5 (top :: rest)))));
    reflexivity.
Qed.

Lemma analyze_holders_range (l : list Holder) :
  0 <= fst (analyze_holders l) <= 1.
Proof.
  destruct l as [|top rest]; [simpl; lra|].
  rewrite analyze_holders_running_max. cbv zeta.
  assert (H1 : 0 <= concentration_part top <= 0.95).
  { unfold concentration_part.
    destruct (PyNum.ltb 50 _); [lra|]. destruct (PyNum.ltb 30 _); lra. }
  set (s1 := concentration_part top) in *.
  assert (H2 : 0 <= (if (length (top :: rest) <? 10)%nat then PyNum.max s1 0.6 else s1) <= 0.95).
  { destruct (length (top :: rest) <? 10)%nat; [|exact H1].
    split; [pose proof (max_lower_l s1 0.6); lra | apply max_upper; lra]. }
  set (s2 := if (length (top :: rest) <? 10)%nat then _ else _) in *.
  destruct (PyNum.ltb 90 _); [|lra].
  split; [pose proof (max_lower_l s2 0.8); lra | apply max_upper; lra].
Qed.

Lemma analyze_liquidity_range (s : option StonfiData) :
  0 <= fst (analyze_liquidity s) <= 1.
Proof.
  unfold analyze_liquidity.
  destruct (stonfi_falsy s); [simpl; lra|].
  match goal with |- context [PyNum.ltb ?x 1000] => destruct (PyNum.ltb x 1000); [simpl; lra|destruct (PyNum.ltb x 5000); simpl; lra] end.
Qed.

Lemma analyze_transactions_range (l : list Transaction) :
  0 <= fst (analyze_transactions l) <= 1.
Proof.
  unfold analyze_transactions. destruct l; [simpl; lra|].
  destruct (length _ <? 5)%nat; simpl; lra.
Qed.

Lemma analyze_description_range (self : Self) (text : string) :
  0 <= fst (analyze_description self text) <= 1.
Proof.
  unfold analyze_description. destruct text as [|c text]; [simpl; lra|].
  set (base := match filter _ _ with [] => _ | _ => _ end).
  assert (Hb : 0 <= fst base <= 0.7).
  { subst base. destruct (filter _ _); simpl; lra. }
  destruct base as [s f]. simpl in Hb.
  destruct (nlp_pipeline self) as [pipeline|]; [|simpl; lra].
  destruct (pipeline _) as [sentiment|]; [|simpl; lra].
  destruct (_ && _); [|simpl; lra].
  simpl. split; [pose proof (max_lower_l s 0.6); lra | apply max_upper; lra].
Qed.

Lemma collect_scores (self : Self) (dt : DateTime) (d : Details) (jd : JettonData) :
  fst (collect self dt d jd)
  = (if fst (check_fake_channel dt (socials d)) then [0.8] else [])
      ++ [fst (analyze_holders (holders d));
          fst (analyze_liquidity (stonfi_data jd));
          fst (analyze_transactions (transactions jd));
          fst (analyze_description self (description d))].
Proof.
  unfold collect.
  destruct (check_fake_channel _ _) as [flag risks].
  destruct (analyze_holders _) as [h hf].
  destruct (analyze_liquidity _) as [l lf].
  destruct (analyze_transactions _) as [t tf].
  destruct (analyze_description _ _) as [x xf].
  destruct flag; reflexivity.
Qed.

Lemma scam_score_collect (self : Self) (dt : DateTime) (d : Details) (jd : JettonData) :
  scam_score (analyze_details self dt d jd)
  = match fst (collect self dt d jd) with
    | [] => 0.5
    | _ => PyNum.sum (fst (collect self dt d jd)) / PyNum.len (fst (collect self dt d jd))
    end.
Proof.
  unfold analyze_details. destruct (collect self dt d jd) as [scores factors].
  reflexivity.
Qed.

Lemma is_scam_threshold (self : Self) (dt : DateTime) (d : Details) (jd : JettonData) :
  is_scam (analyze_details self dt d jd)
  = PyNum.leb Config.SCAM_THRESHOLD (scam_score (analyze_details self dt d jd)).
Proof.
  unfold analyze_details. destruct (collect self dt d jd) as [scores factors].
  reflexivity.
Qed.

Lemma scam_score_value (self : Self) (dt : DateTime) (d : Details) (jd : JettonData) :
  let h := fst (analyze_holders (holders d)) in
  let l := fst (analyze_liquidity (stonfi_data jd)) in
  let t := fst (analyze_transactions (transactions jd)) in
  let x := fst (analyze_description self (description d)) in
  scam_score (analyze_details self dt d jd)
  == if fst (check_fake_channel dt (socials d))
     then (0.8 + h + l + t + x) / 5
     else (h + l + t + x) / 4.
Proof.
  cbv zeta. rewrite scam_score_collect, collect_scores.
  destruct (fst (check_fake_channel _ _)); cbn [app].
  - rewrite sum_five. unfold PyNum.len. cbn [length Z.of_nat]. reflexivity.
  - rewrite sum_four. unfold PyNum.len. cbn [length Z.of_nat]. reflexivity.
Qed.

(** When the details request failed, [details.get] raises. *)
Lemma analyze_jetton_without_details (self : Self) (dt : DateTime) :
  analyze_jetton self dt scenario_no_details = None.
Proof. reflexivity. Qed.

(** C1, as amended.  For every token profile whose details are present,
    [analyze_jetton] returns, and its [scam_score] is the unweighted mean of
    the sub-scores it collected: the holder, liquidity, transaction and
    description sub-scores always, preceded by a fixed 0.8 only when the
    fake-channel check flags the profile (five entries then, four
    otherwise).  The score lies in [0, 1], [is_scam] holds exactly when the
    score is at least 0.75, and each of the four sub-analyzers answers
    missing input with exactly 0.5 and one reason that notes the absent
    data. *)
Theorem analyze_jetton_mean_of_collected
        (self : Self) (dt : DateTime) (jd : JettonData) (d : Details) :
  details jd = Some d ->
  let h := fst (analyze_holders (holders d)) in
  let l := fst (analyze_liquidity (stonfi_data jd)) in
  let t := fst (analyze_transactions (transactions jd)) in
  let x := fst (analyze_description self (description d)) in
  exists r,
    analyze_jetton self dt jd = Some r
    /\ scam_score r == (if fst (check_fake_channel dt (socials d))
                         then (0.8 + h + l + t + x) / 5
                         else (h + l + t + x) / 4)
    /\ 0 <= scam_score r <= 1
    /\ (is_scam r = true <-> 0.75 <= scam_score r)
    /\ analyze_holders [] = (0.5, [[Text "Нет данных о холдерах"]])
    /\ analyze_liquidity None = (0.5, [[Text "Нет данных о ликвидности"]])
    /\ analyze_liquidity (Some {| liquidity := None; stonfi_other_keys := [] |})
       = (0.5, [[Text "Нет данных о ликвидности"]])
    /\ analyze_transactions [] = (0.5, [[Text "Нет данных о транзакциях"]])
    /\ analyze_description self "" = (0.5, [[Text "Отсутствует описание токена"]]).
Proof.
  intro Hd. cbv zeta.
  exists (analyze_details self dt d jd).
  split; [unfold analyze_jetton; rewrite Hd; reflexivity|].
  pose proof (scam_score_value self dt d jd) as Hv. cbv zeta in Hv.
  pose proof (analyze_holders_range (holders d)) as Hh.
  pose proof (analyze_liquidity_range (stonfi_data jd)) as Hl.
  pose proof (analyze_transactions_range (transactions jd)) as Ht.
  pose proof (analyze_description_range self (description d)) as Hx.
  split; [exact Hv|].
  split.
  - rewrite Hv. unfold Qdiv. change (/ 5) with (1 # 5). change (/ 4) with (1 # 4).
    destruct (fst (check_fake_channel _ _)); lra.
  - split; [|repeat split; reflexivity].
    rewrite is_scam_threshold. apply leb_le.
Qed.

(** C1, witness: scenario A, where the mean is taken over four entries. *)
Lemma analyze_jetton_mean_of_collected_witness :
  exists r,
    analyze_jetton no_classifier clock scenario_A = Some r
    /\ scam_score r == (0.95 + 0.8 + 0.6 + 0.5) / 4
    /\ 0 <= scam_score r <= 1.
Proof.
  destruct (analyze_jetton_mean_of_collected
              no_classifier clock scenario_A details_A eq_refl)
    as (r & Hr & Hs & Hb & _).
  exists r. split; [exact Hr|]. split; [exact Hs|exact Hb].
Defined.

(** C1, counterexample.  On scenario A of the specification (no social
    links, so the fake-channel check does not flag) the returned score is
    0.7125, the mean of four entries: it is not the mean of five sub-scores,
    whether the fake-channel check is counted as 0 or as the neutral 0.5. *)
Lemma five_way_mean_fails_on_scenario_A :
  exists r,
    analyze_jetton no_classifier clock scenario_A = Some r
    /\ scam_score r == 0.7125
    /\ ~ (exists f : Q,
             (f == 0 \/ f == 0.5)
             /\ scam_score r
                == (f + fst (analyze_holders (holders details_A))
                      + fst (analyze_liquidity (stonfi_data scenario_A))
                      + fst (analyze_transactions (transactions scenario_A))
                      + fst (analyze_description no_classifier
                                                 (description details_A))) / 5).
Proof.
  exists (analyze_details no_classifier clock details_A scenario_A).
  split; [reflexivity|].
  assert (Hs : scam_score (analyze_details no_classifier clock details_A scenario_A)
               == 0.7125) by reflexivity.
  split; [exact Hs|].
  intros [f [Hf E]].
  rewrite Hs in E.
  change (fst (analyze_holders (holders details_A))) with 0.95 in E.
  change (fst (analyze_liquidity (stonfi_data scenario_A))) with 0.8 in E.
  change (fst (analyze_transactions (transactions scenario_A))) with 0.6 in E.
  change (fst (analyze_description no_classifier (description details_A)))
    with 0.5 in E.
  unfold Qdiv in E. change (/ 5) with (1 # 5) in E.
  destruct Hf as [Hf|Hf]; lra.
Qed.

(** C3, counterexample.  On scenario B without a sentiment classifier the
    analyzer returns, and the values stated for it do not all hold: the
    description sub-score is 0, not 0.7 (the entries of [SCAM_PATTERNS] are
    compared as plain substrings, and none occurs in the text), and the
    score is 0.5875, not 0.61. *)
Lemma scenario_B_stated_values_fail :
  exists r,
    analyze_jetton no_classifier clock scenario_B = Some r
    /\ fst (analyze_description no_classifier "100x guaranteed profit") == 0
    /\ scam_score r == 0.5875
    /\ ~ (fst (analyze_holders concentrated) == 0.95
          /\ fst (analyze_liquidity (stonfi_data scenario_B)) == 0.8
          /\ fst (analyze_transactions (transactions scenario_B)) == 0.6
          /\ fst (analyze_description no_classifier "100x guaranteed profit") == 0.7
          /\ scam_score r == 0.61
          /\ is_scam r = false).
Proof.
  exists (analyze_details no_classifier clock (details_B "100x guaranteed profit")
                          scenario_B).
  split; [reflexivity|]. split; [reflexivity|]. split; [reflexivity|].
  intros (_ & _ & _ & Hx & _). vm_compute in Hx. discriminate Hx.
Qed.

(** C3, as amended.  For the profile of scenario B, whatever its description
    text and the classifier: the analyzer returns; the fake-channel check
    does not flag and contributes no entry; the holder, liquidity and
    transaction sub-scores are 0.95, 0.8 and 0.6; the collected list is
    these three followed by the description sub-score [x]; the final score
    is their mean (0.95 + 0.8 + 0.6 + x) / 4; and [is_scam] holds exactly
    when that score is at least 0.75. *)
Theorem scenario_B_mean_of_four (self : Self) (dt : DateTime) (text : string) :
  let jd := scenario_B_with text in
  let x := fst (analyze_description self text) in
  exists r,
    analyze_jetton self dt jd = Some r
    /\ fst (check_fake_channel dt (socials (details_B text))) = false
    /\ fst (analyze_holders (holders (details_B text))) == 0.95
    /\ fst (analyze_liquidity (stonfi_data jd)) == 0.8
    /\ fst (analyze_transactions (transactions jd)) == 0.6
    /\ fst (collect self dt (details_B text) jd) = [0.95; 0.8; 0.6; x]
    /\ scam_score r == (0.95 + 0.8 + 0.6 + x) / 4
    /\ (is_scam r = true <-> 0.75 <= scam_score r).
Proof.
  cbv zeta.
  exists (analyze_details self dt (details_B text) (scenario_B_with text)).
  assert (Hc : fst (collect self dt (details_B text) (scenario_B_with text))
               = [0.95; 0.8; 0.6; fst (analyze_description self text)]).
  { rewrite collect_scores. reflexivity. }
  repeat split; try reflexivity; try exact Hc.
  - rewrite scam_score_collect, Hc, sum_four. reflexivity.
  - rewrite is_scam_threshold. apply leb_le.
  - rewrite is_scam_threshold. apply leb_le.
Qed.

(** C6, counterexample.  A list sorted descending whose top holder has
    exactly 50 percent gets 0.7, which is below 0.95. *)
Lemma half_owner_below_095 :
  sorted_desc half_owner = true
  /\ 50 <= get_percent (holder 50)
  /\ ~ (0.95 <= fst (analyze_holders half_owner)).
Proof.
  split; [reflexivity|]. split; [vm_compute; discriminate|].
  vm_compute. intro H. apply H. reflexivity.
Qed.

(** C6, as amended.  For every non-empty holder list sorted descending by
    percentage: the sub-score is 0.95 (so at least 0.95) when the top
    holder's percentage is strictly above 50; at least 0.7 when it is in
    (30, 50]; at least 0.8 whenever the first five percentages sum to more
    than 90; and it is the running maximum of the three partial scores
    (concentration, holder count, top-five share), not their average. *)
Theorem analyze_holders_concentration (top : Holder) (rest : list Holder) :
  sorted_desc (top :: rest) = true ->
  (50 < get_percent top -> fst (analyze_holders (top :: rest)) == 0.95)
  /\ (30 < get_percent top <= 50 -> 0.7 <= fst (analyze_holders (top :: rest)))
  /\ (90 < PyNum.sum (map get_percent (firstn 5 (top :: rest)))
      -> 0.8 <= fst (analyze_holders (top :: rest)))
  /\ fst (analyze_holders (top :: rest))
     = PyNum.max (PyNum.max (concentration_part top) (count_part (top :: rest)))
                 (top5_part (top :: rest)).
Proof.
  intros _.
  rewrite analyze_holders_running_max. cbv zeta.
  unfold concentration_part, count_part, top5_part.
  set (n := (length (top :: rest) <? 10)%nat).
  set (s5 := PyNum.sum (map get_percent (firstn 5 (top :: rest)))).
  repeat split.
  - intro H. apply ltb_lt in H. rewrite H.
    destruct n; destruct (PyNum.ltb 90 s5); reflexivity.
  - intros [H1 H2]. apply ltb_lt in H1. apply ltb_ge in H2. rewrite H1, H2.
    destruct n; destruct (PyNum.ltb 90 s5); vm_compute; discriminate.
  - intro H. apply ltb_lt in H. rewrite H. apply max_lower_r.
  - destruct (PyNum.ltb 50 (get_percent top));
      [|destruct (PyNum.ltb 30 (get_percent top))];
      destruct n; destruct (PyNum.ltb 90 s5); reflexivity.
Qed.

(** C6, witness: the three bounds on the lists [60; 20; 5; 5; 5] and
    [40; 10]. *)
Lemma analyze_holders_concentration_witness :
  sorted_desc concentrated = true
  /\ fst (analyze_holders concentrated) == 0.95
  /\ 0.7 <= fst (analyze_holders [holder 40; holder 10])
  /\ 0.8 <= fst (analyze_holders concentrated).
Proof.
  split; [reflexivity|].
  destruct (analyze_holders_concentration
              (holder 60) [holder 20; holder 5; holder 5; holder 5] eq_refl)
    as (H1 & _ & H3 & _).
  destruct (analyze_holders_concentration (holder 40) [holder 10] eq_refl)
    as (_ & H2 & _).
  split; [apply H1; reflexivity|].
  split; [apply H2; split; [reflexivity|vm_compute; discriminate]|].
  apply H3. reflexivity.
Defined.

End ScamAnalyzerFacts.

(** ** Channel relevance *)

Section RelevanceFacts.
Import Spider RelevanceScenario.

Lemma example_weights_lookup :
  factor example_weights "token_mentions" = Some 0.4
  /\ factor example_weights "members_count" = Some 0.2
  /\ factor example_weights "activity" = Some 0.15
  /\ factor example_weights "description" = Some 0.15
  /\ factor example_weights "age" = Some 0.1.
Proof. repeat split; vm_compute; reflexivity. Qed.

(** C2, counterexample.  For the channel of the example (12 mentions, 500
    members, scanned 5 days ago, six keyword hits, created 90 days ago) and
    the weights of the example, the score computed and stored is 0.775; it
    is farther than 0.01 from 0.7345. *)
Lemma example_relevance_is_not_07345 :
  let '(channel, returned) :=
    update_channel_relevance example_weights example_now example_channel in
  relevance_score channel == 0.775
  /\ returned == 0.775
  /\ ~ (Qabs (relevance_score channel - 0.7345) <= 0.01).
Proof.
  vm_compute. split; [reflexivity|]. split; [reflexivity|].
  intro H. apply H. reflexivity.
Qed.

(** C2, as amended.  For a channel with 12 token mentions, 500 members, last
    scanned 5 days ago, a description with at least 5 keyword hits, created
    90 days ago, under a weight table that holds 0.4, 0.2, 0.15, 0.15 and
    0.1 under the keys the routine reads ("token_mentions", "members_count",
    "activity", "description", "age"), [update_channel_relevance] returns
    and stores 0.4 + 0.01 + 0.125 + 0.15 + 0.09 = 0.775. *)
Theorem update_channel_relevance_example
        (now scanned created : Z) (text : string) (channel : TelegramChannel) :
  token_mentions_count channel = 12%Z ->
  members_count channel = Some 500%Z ->
  last_scanned_at channel = Some scanned ->
  PyNum.days_between now scanned = 5%Z ->
  description channel = Some text ->
  (5 <= keyword_matches text)%nat ->
  created_at channel = Some created ->
  PyNum.days_between now created = 90%Z ->
  snd (update_channel_relevance example_weights now channel) == 0.775
  /\ relevance_score (fst (update_channel_relevance example_weights now channel))
     == 0.775.
Proof.
  intros Hm Hc Hs Hds Hd Hk Hcr Hdc.
  unfold update_channel_relevance, relevance.
  destruct example_weights_lookup as (W1 & W2 & W3 & W4 & W5).
  rewrite W1, W2. cbn [mbind option_bind].
  rewrite Hs, Hcr, Hd, Hm, Hc, Hds, Hdc. cbn [mbind option_bind].
  rewrite W3, W5. cbn [mbind option_bind].
  assert (Ht : PyStr.truthy (Some text) = true).
  { destruct text; [|reflexivity]. vm_compute in Hk. lia. }
  rewrite Ht, W4. cbn [mbind option_bind default].
  assert (Hmin : PyNum.min 1 (inject_Z (Z.of_nat (keyword_matches text)) / 5) == 1).
  { destruct (min_cases 1 (inject_Z (Z.of_nat (keyword_matches text)) / 5))
      as [[H ->]|[H ->]]; [|reflexivity].
    exfalso.
    assert (5 <= inject_Z (Z.of_nat (keyword_matches text))).
    { change 5 with (inject_Z 5). rewrite <- Zle_Qle. lia. }
    unfold Qdiv in H. change (/ 5) with (1 # 5) in H. lra. }
  cbn [fst snd set_relevance relevance_score].
  split; rewrite Hmin; reflexivity.
Qed.

(** C2, witness: the channel of the example. *)
Lemma update_channel_relevance_example_witness :
  snd (update_channel_relevance example_weights example_now example_channel) == 0.775
  /\ relevance_score
       (fst (update_channel_relevance example_weights example_now example_channel))
     == 0.775.
Proof.
  apply (update_channel_relevance_example
           example_now (85 * day) 0
           "TON jetton token airdrop on memepad by blum" example_channel);
    try reflexivity.
  vm_compute. lia.
Defined.

(** With the table of config.py the weight of the description is looked up
    under a key the table does not have: the score of a channel that has a
    description is left as it was. *)
Lemma shipped_weights_keep_score (now : Z) (channel : TelegramChannel) :
  PyStr.truthy (description channel) = true ->
  update_channel_relevance Config.RELEVANCE_FACTORS now channel
  = (channel, relevance_score channel).
Proof.
  intro Ht. unfold update_channel_relevance, relevance. rewrite Ht.
  assert (W1 : factor Config.RELEVANCE_FACTORS "token_mentions" = Some 0.4)
    by (vm_compute; reflexivity).
  assert (W2 : factor Config.RELEVANCE_FACTORS "members_count" = Some 0.2)
    by (vm_compute; reflexivity).
  assert (W3 : factor Config.RELEVANCE_FACTORS "activity" = Some 0.15)
    by (vm_compute; reflexivity).
  assert (W4 : factor Config.RELEVANCE_FACTORS "description" = None)
    by (vm_compute; reflexivity).
  rewrite W1, W2, W3, W4. cbn [mbind option_bind].
  destruct (last_scanned_at channel); reflexivity.
Qed.

End RelevanceFacts.

(** ** Candidate tokens *)

Section CandidateFacts.
Import Spider Main.






End CandidateFacts.

(** ** Channel links *)

Section LinkFacts.
Import Spider.

(** C9.  [_extract_channel_links] is a function of its text: on
    "join @cryptoton_news and t.me/cryptoton_news" it yields exactly the set
    with the one element "cryptoton_news", found by the first and by the
    second pattern; and for every text an identifier is in the result
    exactly when one of the four patterns finds it, whichever that is. *)
Theorem extract_channel_links_example :
  _extract_channel_links "join @cryptoton_news and t.me/cryptoton_news"
  = {[ "cryptoton_news" ]}
  /\ (forall text : string, forall x : string,
        x ∈ _extract_channel_links text
        <-> exists pattern, In pattern LinkPatterns.TELEGRAM_LINK_PATTERNS
                            /\ In x (Re.findall pattern text))
  /\ map (fun pattern =>
            Re.findall pattern "join @cryptoton_news and t.me/cryptoton_news")
         LinkPatterns.TELEGRAM_LINK_PATTERNS
     = [["cryptoton_news"]; ["cryptoton_news"]; []; []].
Proof.
  split; [vm_compute; reflexivity|]. split; [|vm_compute; reflexivity].
  intros text x. unfold _extract_channel_links.
  rewrite elem_of_list_to_set, list_elem_of_In, in_flat_map. reflexivity.
Qed.

End LinkFacts.

(** ** Keyword search and discovery *)

Section DiscoveryFacts.
Import Config Spider TelegramSpider DiscoveryScenario.

Lemma search_keyword_rate_limited
      (tg : Telegram) (found : list string) (w : World) (keyword : string)
      (seconds : Z) :
  search_global tg (searches w) keyword = FloodWaitError seconds ->
  search_keyword tg (found, w) keyword = (found, after_rate_limit keyword seconds w).
Proof.
  intro H. unfold search_keyword. cbn [emit searches count_search].
  rewrite H. reflexivity.
Qed.

(** C4, as amended.  When the provider answers the search for a keyword
    with a rate-limit signal, [search_channels_by_keywords] logs it, sleeps
    for the number of seconds the provider gave, and goes on with the
    keywords that follow: the rate-limited keyword is not searched again,
    the sweep is not aborted, and the channels found so far are kept. *)
Theorem rate_limited_keyword_is_passed_over
        (tg : Telegram) (discovery : gmap string cfg_value)
        (before rest : list string) (keyword : string) (seconds : Z)
        (w connected : World) :
  ensure_client tg discovery w = (true, connected) ->
  search_global tg
    (searches (snd (fold_left (search_keyword tg) before ([], connected)))) keyword
  = FloodWaitError seconds ->
  search_channels_by_keywords tg discovery (before ++ keyword :: rest) w
  = fold_left (search_keyword tg) rest
      (fst (fold_left (search_keyword tg) before ([], connected)),
       after_rate_limit keyword seconds
         (snd (fold_left (search_keyword tg) before ([], connected)))).
Proof.
  intros Hc Hf. unfold search_channels_by_keywords. rewrite Hc.
  assert (Hne : match before ++ keyword :: rest with
                | [] => CHANNEL_SEARCH_KEYWORDS
                | _ => before ++ keyword :: rest
                end = before ++ keyword :: rest).
  { destruct before; reflexivity. }
  rewrite Hne, fold_left_app. cbn [fold_left].
  destruct (fold_left (search_keyword tg) before ([], connected)) as [found w'] eqn:E.
  cbn [fst snd] in *.
  rewrite (search_keyword_rate_limited tg found w' keyword seconds Hf).
  reflexivity.
Qed.

(** C4, witness: the keywords "TON" and "jetton" against a provider that
    rate-limits its first search. *)
Lemma rate_limited_keyword_is_passed_over_witness :
  search_channels_by_keywords flaky CHANNEL_DISCOVERY ["TON"; "jetton"] online
  = fold_left (search_keyword flaky) ["jetton"]
      ([], after_rate_limit "TON" 30 online).
Proof.
  apply (rate_limited_keyword_is_passed_over
           flaky CHANNEL_DISCOVERY [] ["jetton"] "TON" 30 online online);
    reflexivity.
Defined.

(** C4, counterexample.  The provider rate-limits the first search for
    "TON" and would answer a second one; the run searches "TON" once and
    then "jetton": the search that follows the wait is not for the keyword
    that was rate-limited. *)
Lemma rate_limited_keyword_not_retried :
  search_global flaky 0 "TON" = FloodWaitError 30
  /\ search_global flaky 1 "TON" = SearchOk []
  /\ searched (trace (snd (search_channels_by_keywords
                             flaky CHANNEL_DISCOVERY ["TON"; "jetton"] online)))
     = ["TON"; "jetton"]
  /\ ~ Forall (fun p => snd p = fst p)
         (waits None (trace (snd (search_channels_by_keywords
                                    flaky CHANNEL_DISCOVERY ["TON"; "jetton"] online)))).
Proof.
  split; [reflexivity|]. split; [reflexivity|]. split; [vm_compute; reflexivity|].
  intro H.
  assert (E : waits None (trace (snd (search_channels_by_keywords
                                    flaky CHANNEL_DISCOVERY ["TON"; "jetton"] online)))
              = [(Some "TON", Some "jetton")]) by (vm_compute; reflexivity).
  rewrite E in H. inversion H as [|? ? Hh _]. cbn in Hh. discriminate Hh.
Qed.

Lemma discovery_keys :
  CHANNEL_DISCOVERY !! "enabled" = Some (CBool true)
  /\ CHANNEL_DISCOVERY !! "max_channels_total" = None
  /\ CHANNEL_DISCOVERY !! "max_monitored_channels" = Some (CInt 50).
Proof. repeat split; vm_compute; reflexivity. Qed.

(** C5, the code at its configuration.  With [CHANNEL_DISCOVERY] as
    config.py defines it, whatever the number of active channels, the
    client and the stored rows: [discover_new_channels] logs its start, the
    lookup of "max_channels_total" raises [KeyError], the handler logs it
    and the call returns.  No keyword is searched and no channel is
    scanned, also when the count is below the cap. *)
Theorem discovery_stops_at_cap_lookup
        (tg : Telegram) (extract : string -> list string)
        (weights : gmap string Q) (now fresh_count : Z)
        (notification_bot : bool) (w : World) :
  discover_new_channels tg extract weights CHANNEL_DISCOVERY now fresh_count
                        notification_bot w
  = (Returned,
     emit (LogError "Error in channel discovery" (KeyError "max_channels_total"))
          (emit (LogInfo "Starting channel discovery process") w)).
Proof.
  unfold discover_new_channels.
  destruct discovery_keys as (E1 & E2 & _). rewrite E1, E2. reflexivity.
Qed.

(** Under a table that has the key the routine reads, discovery is skipped
    once the active channels have reached the cap. *)
Lemma discovery_skipped_at_cap
      (tg : Telegram) (extract : string -> list string)
      (weights : gmap string Q) (discovery : gmap string cfg_value)
      (now fresh_count : Z) (notification_bot : bool) (w : World)
      (cap : cfg_value) :
  discovery !! "enabled" = Some (CBool true) ->
  discovery !! "max_channels_total" = Some cap ->
  cfg_num cap <= inject_Z (Z.of_nat (length (filter is_active (channels (session w))))) ->
  discover_new_channels tg extract weights discovery now fresh_count
                        notification_bot w
  = (Returned,
     emit (LogInfo "Channel limit reached")
          (emit (LogInfo "Starting channel discovery process") w)).
Proof.
  intros E1 E2 Hcap. unfold discover_new_channels. rewrite E1, E2.
  cbn [cfg_truthy negb emit session channels].
  apply leb_le in Hcap. rewrite Hcap. reflexivity.
Qed.

(** One active, never scanned channel, far below the cap of 50: nothing is
    searched, probed or stored. *)
Lemma discovery_on_one_channel_world :
  let w := snd (discover_new_channels quiet (fun _ => []) RELEVANCE_FACTORS
                  CHANNEL_DISCOVERY 0 0 false one_channel_world) in
  length (filter is_active (channels (session one_channel_world))) = 1%nat
  /\ searched (trace w) = []
  /\ probed (trace w) = []
  /\ session w = session one_channel_world.
Proof. vm_compute. repeat split. Qed.

(** The same world under a table that has the key the routine reads: all
    keywords are searched and the unscanned channel is scanned. *)
Lemma discovery_with_cap_proceeds :
  let w := snd (discover_new_channels quiet (fun _ => []) RELEVANCE_FACTORS
                  discovery_with_cap 0 0 false one_channel_world) in
  searched (trace w) = CHANNEL_SEARCH_KEYWORDS
  /\ probed (trace w) = ["cryptoton_news"]
  /\ map last_scanned_at (channels (session w)) = [Some 0%Z].
Proof. vm_compute. repeat split. Qed.

End DiscoveryFacts.

(** ** The fetch orchestrator *)

Section ParserFacts.
Import MemepadParser FetchScenario.

(** C7.  [get_complete_jetton_data] always returns: no outcome of the four
    requests makes it raise.  Each entry of the result is determined by the
    response of its own source alone: the decoded body when the request
    ends in a 200 response, and otherwise [None] for the details, the empty
    object for the reactions, the empty list for the transactions (also
    when the body is not an object) and [None] for the liquidity data. *)
Theorem get_complete_jetton_data_degrades_per_source
        (http : Http) (short_name address : string) :
  exists data,
    get_complete_jetton_data http short_name address = Returns data
    /\ details data = delivers (get http (details_url short_name))
    /\ reactions data
       = default (JObj []) (delivers (get http (reactions_url short_name)))
    /\ transactions data
       = match delivers (get http (transactions_url short_name)) with
         | Some (JObj fields) => default (JArr []) (assoc "transactions" fields)
         | _ => JArr []
         end
    /\ stonfi_data data = delivers (get http (stonfi_url address)).
Proof.
  unfold get_complete_jetton_data, gather, fetch_jetton_details, fetch_reactions,
    fetch_transactions, fetch_stonfi_data, try_except, delivers, dict_get.
  destruct (get http (details_url short_name)) as [s0 [j0|]|];
    destruct (get http (reactions_url short_name)) as [s1 [j1|]|];
    destruct (get http (transactions_url short_name)) as [s2 [j2|]|];
    destruct (get http (stonfi_url address)) as [s3 [j3|]|];
    try destruct (s0 =? 200)%Z; try destruct (s1 =? 200)%Z;
    try destruct (s2 =? 200)%Z; try destruct (s3 =? 200)%Z;
    try destruct j2;
    cbn; eexists; repeat split.
Qed.

End ParserFacts.

(** * Further properties of the code *)

(** The [filter] of the definitions on a boolean test, cell by cell. *)
Lemma filter_test {A} (f : A -> bool) (l : list A) :
  filter (fun x => f x) l = List.filter f l.
Proof.
  induction l as [|a l IH]; [reflexivity|].
  rewrite filter_cons. cbn [List.filter]. rewrite IH. cbv beta.
  destruct (f a); reflexivity.
Qed.

Section AnalyzerExtras.
Import ScamAnalyzer Scenario AnalyzerTerms.

Lemma analyze_holders_high (l : list Holder) :
  fst (analyze_holders l) <= 0.95
  /\ (0.8 < fst (analyze_holders l)
      -> exists top rest, l = top :: rest /\ 50 < get_percent top).
Proof.
  destruct l as [|top rest]; [simpl; split; [lra|intro; lra]|].
  rewrite analyze_holders_running_max. cbv zeta.
  unfold concentration_part.
  destruct (PyNum.ltb 50 (get_percent top)) eqn:E50.
  - apply ltb_lt in E50. split.
    + destruct (length (top :: rest) <? 10)%nat; destruct (PyNum.ltb 90 _);
        vm_compute; discriminate.
    + intros _. exists top, rest. split; [reflexivity|exact E50].
  - assert (Hle : forall s, s <= 0.7 ->
              (if PyNum.ltb 90 (PyNum.sum (map get_percent (firstn 5 (top :: rest))))
               then PyNum.max (if (length (top :: rest) <? 10)%nat
                               then PyNum.max s 0.6 else s) 0.8
               else if (length (top :: rest) <? 10)%nat
                    then PyNum.max s 0.6 else s) <= 0.8).
    { intros s Hs.
      assert (H1 : (if (length (top :: rest) <? 10)%nat then PyNum.max s 0.6 else s) <= 0.8).
      { destruct (length (top :: rest) <? 10)%nat; [apply max_upper|]; lra. }
      destruct (PyNum.ltb 90 _); [apply max_upper|]; lra. }
    assert (Hs : (if PyNum.ltb 30 (get_percent top) then 0.7 else 0) <= 0.7)
      by (destruct (PyNum.ltb 30 _); lra).
    specialize (Hle _ Hs). split; [lra|intro; lra].
Qed.

Lemma analyze_liquidity_cases (s : option StonfiData) :
  (stonfi_falsy s = true /\ fst (analyze_liquidity s) = 0.5)
  \/ (stonfi_falsy s = false /\ quoted_liquidity s < 1000
      /\ fst (analyze_liquidity s) = 0.8)
  \/ (stonfi_falsy s = false /\ 1000 <= quoted_liquidity s < 5000
      /\ fst (analyze_liquidity s) = 0.5)
  \/ (stonfi_falsy s = false /\ 5000 <= quoted_liquidity s
      /\ fst (analyze_liquidity s) = 0).
Proof.
  unfold analyze_liquidity. fold (quoted_liquidity s).
  destruct (stonfi_falsy s); [left; split; reflexivity|right].
  destruct (PyNum.ltb (quoted_liquidity s) 1000) eqn:E1.
  - left. apply ltb_lt in E1. repeat split; assumption.
  - right. apply ltb_ge in E1.
    destruct (PyNum.ltb (quoted_liquidity s) 5000) eqn:E2.
    + left. apply ltb_lt in E2. repeat split; assumption.
    + right. apply ltb_ge in E2. repeat split; assumption.
Qed.

Lemma analyze_transactions_cases (l : list Transaction) :
  (l = [] /\ fst (analyze_transactions l) = 0.5)
  \/ ((0 < length l < 5)%nat /\ fst (analyze_transactions l) = 0.6)
  \/ ((5 <= length l)%nat /\ fst (analyze_transactions l) = 0).
Proof.
  destruct l as [|a l]; [left; split; reflexivity|right].
  unfold analyze_transactions.
  destruct (length (a :: l) <? 5)%nat eqn:E.
  - left. apply Nat.ltb_lt in E. split; [simpl in *; lia|reflexivity].
  - right. apply Nat.ltb_ge in E. split; [exact E|reflexivity].
Qed.

Lemma analyze_description_high (self : Self) (text : string) :
  fst (analyze_description self text) <= 0.7
  /\ (0.5 < fst (analyze_description self text) -> text <> "").
Proof.
  split.
  - unfold analyze_description. destruct text as [|c text]; [simpl; lra|].
    set (base := match filter _ _ with [] => _ | _ => _ end).
    assert (Hb : 0 <= fst base <= 0.7).
    { subst base. destruct (filter _ _); simpl; lra. }
    destruct base as [s f]. simpl in Hb.
    destruct (nlp_pipeline self) as [pipeline|]; [|simpl; lra].
    destruct (pipeline _) as [sentiment|]; [|simpl; lra].
    destruct (_ && _); [|simpl; lra].
    simpl. apply max_upper; lra.
  - destruct text; [simpl; intro; lra|discriminate].
Qed.

(** X1.  [analyze_jetton] sets [is_scam] only when every measured signal is
    bad at once.  If it returns a result whose [is_scam] is true (the mean of
    the collected scores is above [SCAM_THRESHOLD]), then the details are
    present, the first holder of the list owns more than 50 percent, the
    stonfi data is present and quotes less than $1000 of liquidity, fewer
    than five transactions are listed, and the description is not empty. *)
Theorem scam_verdict_needs_every_signal
        (self : Self) (dt : DateTime) (jd : JettonData) (r : Analysis) :
  analyze_jetton self dt jd = Some r ->
  is_scam r = true ->
  exists d,
    details jd = Some d
    /\ (exists top rest, holders d = top :: rest /\ 50 < get_percent top)
    /\ stonfi_falsy (stonfi_data jd) = false
    /\ quoted_liquidity (stonfi_data jd) < 1000
    /\ (length (transactions jd) < 5)%nat
    /\ description d <> "".
Proof.
  unfold analyze_jetton. destruct (details jd) as [d|] eqn:Hd; [|discriminate].
  intros Hr Hs. injection Hr as <-. exists d. split; [reflexivity|].
  rewrite is_scam_threshold in Hs. apply leb_le in Hs.
  pose proof (scam_score_value self dt d jd) as Hv. cbv zeta in Hv.
  rewrite Hv in Hs. clear Hv. unfold Config.SCAM_THRESHOLD in Hs.
  destruct (analyze_holders_high (holders d)) as [Hh1 Hh2].
  destruct (analyze_description_high self (description d)) as [Hx1 Hx2].
  pose proof (analyze_description_range self (description d)) as Hx0.
  pose proof (analyze_holders_range (holders d)) as Hh0.
  unfold Qdiv in Hs. change (/ 5) with (1 # 5) in Hs. change (/ 4) with (1 # 4) in Hs.
  assert (Hgoal :
    0.8 < fst (analyze_holders (holders d))
    /\ 0.5 < fst (analyze_liquidity (stonfi_data jd))
    /\ 0 < fst (analyze_transactions (transactions jd))
    /\ 0.5 < fst (analyze_description self (description d))).
  { destruct (analyze_liquidity_cases (stonfi_data jd))
      as [[_ El]|[(_ & _ & El)|[(_ & _ & El)|(_ & _ & El)]]];
      destruct (analyze_transactions_cases (transactions jd))
        as [[_ Et]|[[_ Et]|[_ Et]]];
      rewrite El, Et in *;
      destruct (fst (check_fake_channel dt (socials d)));
      repeat split; lra. }
  destruct Hgoal as (G1 & G2 & G3 & G4).
  split; [exact (Hh2 G1)|].
  destruct (analyze_liquidity_cases (stonfi_data jd))
    as [[_ El]|[(F & L & El)|[(_ & _ & El)|(_ & _ & El)]]];
    try (rewrite El in G2; lra).
  split; [exact F|]. split; [exact L|].
  split.
  - destruct (analyze_transactions_cases (transactions jd))
      as [[E Et]|[[E Et]|[E Et]]].
    + rewrite E. simpl. lia.
    + lia.
    + rewrite Et in G3. lra.
  - exact (Hx2 G4).
Qed.

(** X1, witness: the profile [scenario_scam], which [analyze_jetton] rates
    a scam. *)
Lemma scam_verdict_needs_every_signal_witness :
  exists d,
    details scenario_scam = Some d
    /\ (length (transactions scenario_scam) < 5)%nat
    /\ quoted_liquidity (stonfi_data scenario_scam) < 1000.
Proof.
  destruct (scam_verdict_needs_every_signal
              no_classifier clock scenario_scam
              (analyze_details no_classifier clock details_scam scenario_scam)
              eq_refl eq_refl)
    as (d & Hd & _ & _ & L & T & _).
  exists d. split; [exact Hd|]. split; [exact T|exact L].
Defined.

(** X2.  For stonfi data that is present (a non-empty dictionary), the risk
    that [analyze_liquidity] returns never grows with the quoted liquidity:
    a pool that quotes at least as much gets at most the same risk. *)
Theorem more_liquidity_never_raises_risk (s1 s2 : option StonfiData) :
  stonfi_falsy s1 = false ->
  stonfi_falsy s2 = false ->
  quoted_liquidity s1 <= quoted_liquidity s2 ->
  fst (analyze_liquidity s2) <= fst (analyze_liquidity s1).
Proof.
  intros F1 F2 H.
  destruct (analyze_liquidity_cases s1)
    as [[F _]|[(_ & L1 & E1)|[(_ & L1 & E1)|(_ & L1 & E1)]]]; [congruence| | |];
    destruct (analyze_liquidity_cases s2)
      as [[F _]|[(_ & L2 & E2)|[(_ & L2 & E2)|(_ & L2 & E2)]]];
    try congruence; rewrite E1, E2; lra.
Qed.

(** X2, witness: pools of $500 and of $6000. *)
Lemma more_liquidity_never_raises_risk_witness :
  fst (analyze_liquidity (pool 6000)) <= fst (analyze_liquidity (pool 500)).
Proof.
  apply more_liquidity_never_raises_risk; [reflexivity|reflexivity|].
  vm_compute. discriminate.
Defined.

(** A stonfi dictionary that has other entries and no liquidity entry is
    read as a liquidity of $0 and gets the highest liquidity risk; an empty
    dictionary and [None] get 0.5. *)
Lemma missing_liquidity_entry_counts_as_zero
        (other : string) (others : list string) :
  analyze_liquidity (Some {| liquidity := None; stonfi_other_keys := other :: others |})
  = (0.8, [[Text "Крайне низкая ликвидность: $"; Num 0]])
  /\ fst (analyze_liquidity (Some {| liquidity := None; stonfi_other_keys := [] |}))
     = 0.5
  /\ fst (analyze_liquidity None) = 0.5.
Proof. repeat split. Qed.

(** X3.  The sentiment classifier can only raise the risk that
    [analyze_description] returns, and only from 0 to 0.6: with any
    classifier the risk is at least the risk without one, and it is either
    the same or 0.6 where it was 0.  A classifier whose call raises leaves
    the result, score and reasons, as without a classifier. *)
Theorem classifier_only_raises_to_06 (self : Self) (text : string) :
  fst (analyze_description no_classifier text) <= fst (analyze_description self text)
  /\ (fst (analyze_description self text) == fst (analyze_description no_classifier text)
      \/ (fst (analyze_description no_classifier text) == 0
          /\ fst (analyze_description self text) == 0.6))
  /\ analyze_description broken_classifier text = analyze_description no_classifier text.
Proof.
  unfold analyze_description, no_classifier, broken_classifier.
  destruct text as [|c text]; [simpl; repeat split; try lra; left; reflexivity|].
  cbn [nlp_pipeline].
  set (base := match filter _ _ with [] => _ | _ => _ end).
  assert (Hb : fst base = 0 \/ fst base = 0.7).
  { subst base. destruct (filter _ _); [left|right]; reflexivity. }
  destruct base as [s f]. cbn [fst] in *.
  split; [|split; [|reflexivity]].
  - destruct (nlp_pipeline self) as [pipeline|]; [|simpl; lra].
    destruct (pipeline _) as [sentiment|]; [|simpl; lra].
    destruct (_ && _); [|simpl; lra].
    cbn [fst]. apply max_lower_l.
  - destruct (nlp_pipeline self) as [pipeline|]; [|left; reflexivity].
    destruct (pipeline _) as [sentiment|]; [|left; reflexivity].
    destruct (_ && _); [|left; reflexivity].
    cbn [fst]. destruct Hb as [-> | ->].
    + right. split; reflexivity.
    + left. reflexivity.
Qed.

Lemma analyze_holders_silent (l : list Holder) :
  snd (analyze_holders l) = [] <-> fst (analyze_holders l) == 0.
Proof.
  destruct l as [|top rest]; [simpl; split; [discriminate|intro H; vm_compute in H; discriminate]|].
  unfold analyze_holders.
  destruct (PyNum.ltb 50 (get_percent top));
    [|destruct (PyNum.ltb 30 (get_percent top))];
    destruct (length (top :: rest) <? 10)%nat; cbv zeta;
    destruct (PyNum.ltb 90 _); cbn;
    (split; [try discriminate; try reflexivity
            |intro H; try reflexivity; vm_compute in H; discriminate]).
Qed.

Lemma analyze_liquidity_silent (s : option StonfiData) :
  snd (analyze_liquidity s) = [] <-> fst (analyze_liquidity s) == 0.
Proof.
  unfold analyze_liquidity. fold (quoted_liquidity s).
  destruct (stonfi_falsy s);
    [|destruct (PyNum.ltb _ 1000); [|destruct (PyNum.ltb _ 5000)]]; cbn;
    (split; [try discriminate; try reflexivity
            |intro H; try reflexivity; vm_compute in H; discriminate]).
Qed.

Lemma analyze_transactions_silent (l : list Transaction) :
  snd (analyze_transactions l) = [] <-> fst (analyze_transactions l) == 0.
Proof.
  unfold analyze_transactions.
  destruct l; [|destruct (length _ <? 5)%nat]; cbn;
    (split; [try discriminate; try reflexivity
            |intro H; try reflexivity; vm_compute in H; discriminate]).
Qed.

Lemma analyze_description_silent (self : Self) (text : string) :
  snd (analyze_description self text) = [] <-> fst (analyze_description self text) == 0.
Proof.
  unfold analyze_description.
  destruct text as [|c text];
    [cbn; split; [discriminate|intro H; vm_compute in H; discriminate]|].
  destruct (filter _ _) as [|p ps];
    (destruct (nlp_pipeline self) as [pipeline|];
     [destruct (pipeline _) as [sentiment|]; [destruct (_ && _)|]|]); cbn;
    (split; [try discriminate; try reflexivity
            |intro H; try reflexivity; vm_compute in H; discriminate]).
Qed.

Lemma collect_reasons (self : Self) (dt : DateTime) (d : Details) (jd : JettonData) :
  snd (collect self dt d jd)
  = (if fst (check_fake_channel dt (socials d))
     then snd (check_fake_channel dt (socials d)) else [])
      ++ snd (analyze_holders (holders d))
      ++ snd (analyze_liquidity (stonfi_data jd))
      ++ snd (analyze_transactions (transactions jd))
      ++ snd (analyze_description self (description d)).
Proof.
  unfold collect.
  destruct (check_fake_channel _ _) as [flag risks].
  destruct (analyze_holders _) as [h hf].
  destruct (analyze_liquidity _) as [l lf].
  destruct (analyze_transactions _) as [t tf].
  destruct (analyze_description _ _) as [x xf].
  destruct flag; reflexivity.
Qed.

Lemma risk_factors_collect (self : Self) (dt : DateTime) (d : Details) (jd : JettonData) :
  risk_factors (analyze_details self dt d jd) = snd (collect self dt d jd).
Proof.
  unfold analyze_details. destruct (collect self dt d jd). reflexivity.
Qed.

(** X4.  When [analyze_jetton] returns, its list of risk factors is empty
    exactly when its score is 0: every positive score comes with a reason,
    and no reason is given without one. *)
Theorem no_reason_exactly_when_score_is_zero
        (self : Self) (dt : DateTime) (jd : JettonData) (r : Analysis) :
  analyze_jetton self dt jd = Some r ->
  (risk_factors r = [] <-> scam_score r == 0).
Proof.
  unfold analyze_jetton. destruct (details jd) as [d|]; [|discriminate].
  intro Hr. injection Hr as <-.
  rewrite risk_factors_collect, collect_reasons.
  pose proof (scam_score_value self dt d jd) as Hv. cbv zeta in Hv. rewrite Hv.
  pose proof (analyze_holders_range (holders d)) as Hh.
  pose proof (analyze_liquidity_range (stonfi_data jd)) as Hl.
  pose proof (analyze_transactions_range (transactions jd)) as Ht.
  pose proof (analyze_description_range self (description d)) as Hx.
  pose proof (analyze_holders_silent (holders d)) as Sh.
  pose proof (analyze_liquidity_silent (stonfi_data jd)) as Sl.
  pose proof (analyze_transactions_silent (transactions jd)) as St.
  pose proof (analyze_description_silent self (description d)) as Sx.
  unfold Qdiv. change (/ 5) with (1 # 5). change (/ 4) with (1 # 4).
  destruct (check_fake_channel dt (socials d)) as [flag risks] eqn:Ec.
  cbn [fst snd].
  destruct flag.
  - split; [|intro; lra].
    intro H. exfalso.
    apply app_eq_nil in H. destruct H as [H _].
    unfold check_fake_channel in Ec. injection Ec as Ef Er.
    rewrite Er, H in Ef. discriminate Ef.
  - cbn [app]. split.
    + intro H.
      apply app_eq_nil in H. destruct H as [H1 H].
      apply app_eq_nil in H. destruct H as [H2 H].
      apply app_eq_nil in H. destruct H as [H3 H4].
      apply Sh in H1. apply Sl in H2. apply St in H3. apply Sx in H4. lra.
    + intro H.
      assert (E1 : fst (analyze_holders (holders d)) == 0) by lra.
      assert (E2 : fst (analyze_liquidity (stonfi_data jd)) == 0) by lra.
      assert (E3 : fst (analyze_transactions (transactions jd)) == 0) by lra.
      assert (E4 : fst (analyze_description self (description d)) == 0) by lra.
      apply Sh in E1. apply Sl in E2. apply St in E3. apply Sx in E4.
      rewrite E1, E2, E3, E4. reflexivity.
Qed.

(** X4, witness: the profile [scenario_clean], which has score 0 and no
    reason. *)
Lemma no_reason_exactly_when_score_is_zero_witness :
  exists r,
    analyze_jetton no_classifier clock scenario_clean = Some r
    /\ risk_factors r = [] /\ scam_score r == 0.
Proof.
  exists (analyze_details no_classifier clock details_clean scenario_clean).
  split; [reflexivity|].
  pose proof (no_reason_exactly_when_score_is_zero
                no_classifier clock scenario_clean _ eq_refl) as [H _].
  split; [reflexivity|]. apply H. reflexivity.
Defined.

Lemma social_risks_nonempty (dt : DateTime) (social : Social) :
  negb (Nat.eqb (length (social_risks dt social)) 0) = suspicious dt social.
Proof.
  unfold social_risks, suspicious.
  destruct (social_type social) as [t|]; [|reflexivity].
  destruct (String.eqb t "TELEGRAM"); [|reflexivity]. cbn [andb].
  set (d := default "" (social_description social)).
  assert (Hp : negb (Nat.eqb (length (filter (matches_pattern d) Config.SCAM_PATTERNS)) 0)
               = existsb (matches_pattern d) Config.SCAM_PATTERNS).
  { rewrite filter_test.
    induction Config.SCAM_PATTERNS as [|p ps IH]; [reflexivity|].
    cbn [List.filter existsb]. destruct (matches_pattern d p); [reflexivity|exact IH]. }
  rewrite length_app.
  destruct (PyStr.truthy (social_description social)).
  - rewrite length_map. cbn [andb].
    destruct (filter (matches_pattern d) Config.SCAM_PATTERNS) as [|p ps] eqn:Ef.
    + rewrite <- Hp. cbn [length Nat.add Nat.eqb negb orb].
      destruct (PyStr.truthy (social_created_at social)); [|reflexivity].
      cbn [andb]. destruct (fromisoformat dt _); [|reflexivity].
      cbv zeta. destruct (_ <? _)%Z; reflexivity.
    + rewrite <- Hp. reflexivity.
  - cbn [andb orb length Nat.add].
    destruct (PyStr.truthy (social_created_at social)); [|reflexivity].
    cbn [andb]. destruct (fromisoformat dt _); [|reflexivity].
    cbv zeta. destruct (_ <? _)%Z; reflexivity.
Qed.

(** X5.  [check_fake_channel] judges the links one by one.  Its flag is set
    exactly when one of the links is a Telegram link whose description
    contains an entry of [SCAM_PATTERNS] or whose creation date parses and is
    less than [MIN_CHANNEL_AGE_DAYS] days old; on a concatenation of two
    lists the flag is the disjunction of the two flags and the reasons are
    those of the first list followed by those of the second. *)
Theorem fake_channel_flag_is_per_link (dt : DateTime) (socials more : list Social) :
  fst (check_fake_channel dt socials) = existsb (suspicious dt) socials
  /\ fst (check_fake_channel dt (socials ++ more))
     = fst (check_fake_channel dt socials) || fst (check_fake_channel dt more)
  /\ snd (check_fake_channel dt (socials ++ more))
     = snd (check_fake_channel dt socials) ++ snd (check_fake_channel dt more).
Proof.
  assert (H : forall l, fst (check_fake_channel dt l) = existsb (suspicious dt) l).
  { intro l. unfold check_fake_channel. cbn [fst].
    induction l as [|s l IH]; [reflexivity|].
    cbn [flat_map existsb]. rewrite length_app, <- IH, <- social_risks_nonempty.
    destruct (length (social_risks dt s)); reflexivity. }
  split; [apply H|]. split.
  - rewrite !H, existsb_app. reflexivity.
  - unfold check_fake_channel. cbn [snd]. apply flat_map_app.
Qed.

End AnalyzerExtras.

Section RelevanceExtras.
Import Spider RelevanceScenario RelevanceTerms.

Lemma shipped_weights_lookup :
  factor Config.RELEVANCE_FACTORS "token_mentions" = Some 0.4
  /\ factor Config.RELEVANCE_FACTORS "members_count" = Some 0.2
  /\ factor Config.RELEVANCE_FACTORS "activity" = Some 0.15
  /\ factor Config.RELEVANCE_FACTORS "description" = None
  /\ factor Config.RELEVANCE_FACTORS "age" = Some 0.1.
Proof. repeat split; vm_compute; reflexivity. Qed.

Lemma min_one_bounds (x : Q) : 0 <= x -> 0 <= PyNum.min 1 x <= 1.
Proof. intro H. destruct (min_cases 1 x) as [[L ->]|[L ->]]; lra. Qed.

Lemma min_one_monotone (x y : Q) : x <= y -> PyNum.min 1 x <= PyNum.min 1 y.
Proof.
  intro H. destruct (min_cases 1 x) as [[L ->]|[L ->]];
    destruct (min_cases 1 y) as [[M ->]|[M ->]]; lra.
Qed.

Lemma tenth_nonneg (n : Z) (k : Q) : (0 <= n)%Z -> 0 < k -> 0 <= inject_Z n / k.
Proof.
  intros Hn Hk. apply Qle_shift_div_l; [exact Hk|].
  rewrite Qmult_0_l. change 0 with (inject_Z 0). rewrite <- Zle_Qle. exact Hn.
Qed.

(** X6.  With the weights of config.py, a channel without description,
    never scanned and without creation date gets the three defaults of 0.5
    unweighted: [update_channel_relevance] returns and stores a score of
    at least 1.5, whatever the (non-negative) counts of mentions and
    members. *)
Theorem bare_channel_scores_above_one (now : Z) (channel : TelegramChannel) :
  PyStr.truthy (description channel) = false ->
  last_scanned_at channel = None ->
  created_at channel = None ->
  (0 <= token_mentions_count channel)%Z ->
  (0 <= default 0%Z (members_count channel))%Z ->
  1.5 <= snd (update_channel_relevance Config.RELEVANCE_FACTORS now channel)
  /\ relevance_score (fst (update_channel_relevance Config.RELEVANCE_FACTORS now channel))
     = snd (update_channel_relevance Config.RELEVANCE_FACTORS now channel).
Proof.
  intros Hd Hs Hc Hm Hn.
  unfold update_channel_relevance, relevance.
  destruct shipped_weights_lookup as (W1 & W2 & _).
  rewrite W1, W2, Hd, Hs, Hc. cbn [mbind option_bind fst snd set_relevance relevance_score].
  split; [|reflexivity].
  pose proof (min_one_bounds _ (tenth_nonneg _ 10 Hm ltac:(lra))) as B1.
  pose proof (min_one_bounds _ (tenth_nonneg _ 10000 Hn ltac:(lra))) as B2.
  lra.
Qed.

(** X6, witness: the channel [bare_channel]. *)
Lemma bare_channel_scores_above_one_witness :
  1.5 <= snd (update_channel_relevance Config.RELEVANCE_FACTORS 0 bare_channel).
Proof.
  apply (bare_channel_scores_above_one 0 bare_channel); try reflexivity;
    vm_compute; discriminate.
Defined.

(** X7.  Under a table that has the five keys the routine reads, with
    non-negative weights, a channel with a member count, a last scan that is
    not in the future, a non-empty description and a creation date gets a
    score: [relevance] returns, and its value lies between 0 and the sum of
    the first four weights and 0.9 times the weight of the age. *)
Theorem relevance_within_weights
        (weights : gmap string Q) (now scanned created : Z) (text : string)
        (members : Z) (channel : TelegramChannel) (w1 w2 w3 w4 w5 : Q) :
  factor weights "token_mentions" = Some w1 ->
  factor weights "members_count" = Some w2 ->
  factor weights "activity" = Some w3 ->
  factor weights "description" = Some w4 ->
  factor weights "age" = Some w5 ->
  0 <= w1 -> 0 <= w2 -> 0 <= w3 -> 0 <= w4 -> 0 <= w5 ->
  (0 <= token_mentions_count channel)%Z ->
  members_count channel = Some members -> (0 <= members)%Z ->
  last_scanned_at channel = Some scanned -> (scanned <= now)%Z ->
  description channel = Some text -> text <> "" ->
  created_at channel = Some created ->
  exists r,
    relevance weights now channel = Some r
    /\ 0 <= r <= w1 + w2 + w3 + w4 + 0.9 * w5.
Proof.
  intros W1 W2 W3 W4 W5 P1 P2 P3 P4 P5 Hm Hc Hn Hs Hle Hd Ht Hcr.
  unfold relevance.
  rewrite W1, W2, Hs, Hd, Hcr, Hc. cbn [mbind option_bind default].
  rewrite W3, W5. cbn [mbind option_bind].
  assert (Htr : PyStr.truthy (Some text) = true) by (destruct text; [congruence|reflexivity]).
  rewrite Htr, W4. cbn [mbind option_bind from_option id].
  eexists. split; [reflexivity|].
  pose proof (min_one_bounds _ (tenth_nonneg _ 10 Hm ltac:(lra))) as B1.
  pose proof (min_one_bounds _ (tenth_nonneg _ 10000 Hn ltac:(lra))) as B2.
  assert (Hk : (0 <= Z.of_nat (keyword_matches text))%Z) by lia.
  pose proof (min_one_bounds _ (tenth_nonneg _ 5 Hk ltac:(lra))) as B4.
  assert (Hdays : 0 <= inject_Z (PyNum.days_between now scanned) / 30).
  { apply tenth_nonneg; [|lra]. unfold PyNum.days_between.
    apply Z.div_pos; lia. }
  assert (B3 : 0.1 <= PyNum.max 0.1 (1 - inject_Z (PyNum.days_between now scanned) / 30) <= 1).
  { destruct (max_cases 0.1 (1 - inject_Z (PyNum.days_between now scanned) / 30))
      as [[L ->]|[L ->]]; lra. }
  set (a := PyNum.min 1 (inject_Z (token_mentions_count channel) / 10)) in *.
  set (b := PyNum.min 1 (inject_Z members / 10000)) in *.
  set (c := PyNum.max 0.1 _) in *.
  set (e := PyNum.min 1 (inject_Z (Z.of_nat (keyword_matches text)) / 5)) in *.
  assert (A1 : 0 <= a * w1 <= w1) by nra.
  assert (A2 : 0 <= b * w2 <= w2) by nra.
  assert (A3 : 0 <= c * w3 <= w3) by nra.
  assert (A4 : 0 <= e * w4 <= w4) by nra.
  destruct (_ <? 7)%Z; [|destruct (_ <? 30)%Z; [|destruct (_ <? 365)%Z]]; lra.
Qed.

(** X7, witness: the example channel under the example weights. *)
Lemma relevance_within_weights_witness :
  exists r,
    relevance example_weights example_now example_channel = Some r
    /\ 0 <= r <= 0.4 + 0.2 + 0.15 + 0.15 + 0.9 * 0.1.
Proof.
  apply (relevance_within_weights
           example_weights example_now (85 * day) 0
           "TON jetton token airdrop on memepad by blum" 500 example_channel);
    try reflexivity; try (vm_compute; discriminate).
Defined.

(** X8.  Under a non-negative weight for mentions, the relevance of a
    channel never drops when its count of mentions grows and everything
    else stays. *)
Theorem more_mentions_never_lower_relevance
        (weights : gmap string Q) (now : Z) (channel : TelegramChannel)
        (n1 n2 : Z) (w r1 r2 : Q) :
  factor weights "token_mentions" = Some w ->
  0 <= w ->
  (n1 <= n2)%Z ->
  relevance weights now (set_mentions n1 channel) = Some r1 ->
  relevance weights now (set_mentions n2 channel) = Some r2 ->
  r1 <= r2.
Proof.
  intros W Hw Hn. unfold relevance. rewrite W.
  cbn [mbind option_bind set_mentions token_mentions_count members_count
       last_scanned_at description created_at].
  destruct (factor weights "members_count") as [w2|]; [|discriminate].
  cbn [mbind option_bind].
  destruct (match last_scanned_at channel with Some _ => _ | None => _ end) as [act|];
    [|discriminate].
  cbn [mbind option_bind].
  destruct (if PyStr.truthy (description channel) then _ else _) as [des|];
    [|discriminate].
  cbn [mbind option_bind].
  destruct (match created_at channel with Some _ => _ | None => _ end) as [age|];
    [|discriminate].
  cbn [mbind option_bind].
  intros E1 E2. injection E1 as <-. injection E2 as <-.
  assert (Hq : inject_Z n1 / 10 <= inject_Z n2 / 10).
  { unfold Qdiv. change (/ 10) with (1 # 10).
    assert (inject_Z n1 <= inject_Z n2) by (rewrite <- Zle_Qle; exact Hn). lra. }
  pose proof (min_one_monotone _ _ Hq) as Hmin.
  nra.
Qed.

(** X8, witness: the example channel with 5 and with 12 mentions. *)
Lemma more_mentions_never_lower_relevance_witness :
  exists r1 r2,
    relevance example_weights example_now (set_mentions 5 example_channel) = Some r1
    /\ relevance example_weights example_now (set_mentions 12 example_channel) = Some r2
    /\ r1 <= r2.
Proof.
  eexists. eexists.
  split; [vm_compute; reflexivity|]. split; [vm_compute; reflexivity|].
  apply (more_mentions_never_lower_relevance
           example_weights example_now example_channel 5 12 0.4);
    try (vm_compute; reflexivity); vm_compute; discriminate.
Defined.

End RelevanceExtras.

Section CandidateExtras.
Import Spider Main RelevanceTerms.










End CandidateExtras.

Section CrawlerExtras.
Import Config Spider TelegramSpider DiscoveryScenario CrawlerTerms.

Lemma searched_app (a b : list Event) : searched (a ++ b) = searched a ++ searched b.
Proof.
  induction a as [|e a IH]; [reflexivity|].
  destruct e; cbn [app searched]; rewrite IH; reflexivity.
Qed.

Lemma add_channel_to_db_searched
      (tg : Telegram) (channel_name : string) (source source_details : option string)
      (w : World) :
  searched (trace (snd (add_channel_to_db tg channel_name source source_details w)))
  = searched (trace w)
  /\ searches (snd (add_channel_to_db tg channel_name source source_details w))
     = searches w.
Proof.
  unfold add_channel_to_db.
  destruct (List.find _ _); [split; reflexivity|].
  destruct (get_entity tg channel_name) as [entity|];
    [destruct (is_channel entity); [destruct (get_full_channel tg entity)|]|];
    cbn [snd emit trace commit set_session searches]; rewrite searched_app;
    cbn [searched]; rewrite app_nil_r; split; reflexivity.
Qed.

Lemma append_active_trace (channel_name : string) (w : World) :
  trace (append_active channel_name w) = trace w
  /\ searches (append_active channel_name w) = searches w
  /\ session (append_active channel_name w) = session w.
Proof. unfold append_active. destruct (existsb _ _); repeat split. Qed.

Lemma register_chat_searched
      (tg : Telegram) (keyword : string) (st : list string * World) (result : Chat) :
  searched (trace (snd (register_chat tg keyword st result))) = searched (trace (snd st))
  /\ searches (snd (register_chat tg keyword st result)) = searches (snd st).
Proof.
  unfold register_chat. destruct st as [found w].
  destruct (PyStr.truthy (chat_username result)); [|split; reflexivity].
  destruct (existsb _ found); [split; reflexivity|].
  pose proof (add_channel_to_db_searched tg (default "" (chat_username result))
                (Some "keyword_search") (Some (String.append "keyword: " keyword)) w)
    as [H1 H2].
  destruct (add_channel_to_db _ _ _ _ _) as [[c|] w']; cbn [snd] in *.
  - destruct (append_active_trace (default "" (chat_username result)) w')
      as (T & S & _).
    rewrite T, S. split; assumption.
  - split; assumption.
Qed.

Lemma register_chats_searched
      (tg : Telegram) (keyword : string) (chats : list Chat) (st : list string * World) :
  searched (trace (snd (fold_left (register_chat tg keyword) chats st)))
  = searched (trace (snd st))
  /\ searches (snd (fold_left (register_chat tg keyword) chats st)) = searches (snd st).
Proof.
  revert st. induction chats as [|c chats IH]; intro st; [split; reflexivity|].
  cbn [fold_left]. destruct (IH (register_chat tg keyword st c)) as [H1 H2].
  destruct (register_chat_searched tg keyword st c) as [H3 H4].
  rewrite H1, H2. split; assumption.
Qed.

Lemma search_keyword_searched
      (tg : Telegram) (st : list string * World) (keyword : string) :
  searched (trace (snd (search_keyword tg st keyword)))
  = searched (trace (snd st)) ++ [keyword]
  /\ searches (snd (search_keyword tg st keyword)) = S (searches (snd st)).
Proof.
  unfold search_keyword. destruct st as [found w]. cbn [snd].
  cbn [emit searches count_search].
  destruct (search_global tg (searches w) keyword) as [chats|seconds|].
  - match goal with |- context [fold_left ?f chats ?s] =>
      pose proof (register_chats_searched tg keyword chats s) as [H1 H2];
      destruct (fold_left f chats s) as [found' w'] end.
    cbn [snd emit trace searches count_search] in *.
    rewrite searched_app, H1, H2, !searched_app.
    cbn [searched]. rewrite !app_nil_r. split; reflexivity.
  - cbn [snd emit trace searches count_search]. rewrite !searched_app.
    cbn [searched]. rewrite !app_nil_r. split; reflexivity.
  - cbn [snd emit trace searches count_search]. rewrite !searched_app.
    cbn [searched]. rewrite !app_nil_r. split; reflexivity.
Qed.

Lemma search_keywords_searched
      (tg : Telegram) (keywords : list string) (st : list string * World) :
  searched (trace (snd (fold_left (search_keyword tg) keywords st)))
  = searched (trace (snd st)) ++ keywords
  /\ searches (snd (fold_left (search_keyword tg) keywords st))
     = (searches (snd st) + length keywords)%nat.
Proof.
  revert st. induction keywords as [|k keywords IH]; intro st.
  - cbn. rewrite app_nil_r. split; [reflexivity|lia].
  - cbn [fold_left length]. destruct (IH (search_keyword tg st k)) as [H1 H2].
    destruct (search_keyword_searched tg st k) as [H3 H4].
    rewrite H1, H2, H3, H4, <- app_assoc. split; [reflexivity|lia].
Qed.

(** X11.  When the client is available and the list of keywords is not
    empty, [search_channels_by_keywords] issues exactly one search per
    keyword, in the order of the list, whatever the searches find and
    whichever of them raise. *)
Theorem every_keyword_is_searched_once
        (tg : Telegram) (discovery : gmap string cfg_value)
        (keywords : list string) (w connected : World) :
  ensure_client tg discovery w = (true, connected) ->
  keywords <> [] ->
  let w' := snd (search_channels_by_keywords tg discovery keywords w) in
  searched (trace w') = searched (trace connected) ++ keywords
  /\ searches w' = (searches connected + length keywords)%nat.
Proof.
  intros Hc Hk. cbv zeta. unfold search_channels_by_keywords. rewrite Hc.
  destruct keywords as [|k ks]; [congruence|].
  apply (search_keywords_searched tg (k :: ks) ([], connected)).
Qed.

(** X11, witness: three keywords against a client whose first search is
    rate limited. *)
Lemma every_keyword_is_searched_once_witness :
  searched (trace (snd (search_channels_by_keywords
                          flaky CHANNEL_DISCOVERY ["TON"; "jetton"; "memepad"] online)))
  = ["TON"; "jetton"; "memepad"].
Proof.
  apply (every_keyword_is_searched_once
           flaky CHANNEL_DISCOVERY ["TON"; "jetton"; "memepad"] online online eq_refl).
  discriminate.
Defined.

(** Found channels: no duplicates *)
Lemma register_chat_nodup
      (tg : Telegram) (keyword : string) (st : list string * World) (result : Chat) :
  NoDup (fst st) -> NoDup (fst (register_chat tg keyword st result)).
Proof.
  unfold register_chat. destruct st as [found w]. cbn [fst]. intro H.
  destruct (PyStr.truthy (chat_username result)); [|exact H].
  destruct (existsb _ found) eqn:E; [exact H|].
  destruct (add_channel_to_db _ _ _ _ _) as [c w']. cbn [fst].
  apply NoDup_app. split; [exact H|]. split; [|apply NoDup_singleton].
  intros x Hx Hin. apply list_elem_of_In in Hx, Hin. destruct Hin as [<-|[]].
  assert (existsb (String.eqb (default "" (chat_username result))) found = true).
  { apply existsb_exists. eexists. split; [exact Hx|apply String.eqb_refl]. }
  congruence.
Qed.

Lemma search_keyword_nodup
      (tg : Telegram) (st : list string * World) (keyword : string) :
  NoDup (fst st) -> NoDup (fst (search_keyword tg st keyword)).
Proof.
  unfold search_keyword. destruct st as [found w]. cbn [fst]. intro H.
  destruct (search_global tg _ keyword) as [chats|seconds|]; [|exact H|exact H].
  match goal with |- context [fold_left ?f chats ?s] =>
    assert (Hf : NoDup (fst (fold_left f chats s))) end.
  { match goal with |- context [fold_left _ chats ?s] =>
      assert (Hs : NoDup (fst s)) by exact H; revert Hs; generalize s end.
    induction chats as [|c chats IH]; intros s Hs; [exact Hs|].
    cbn [fold_left]. apply IH. apply register_chat_nodup. exact Hs. }
  destruct (fold_left _ chats _). exact Hf.
Qed.

(** X12.  The list that [search_channels_by_keywords] returns holds no
    channel name twice, also when several keywords or several results of
    one search name the same channel. *)
Theorem found_channels_are_distinct
        (tg : Telegram) (discovery : gmap string cfg_value)
        (keywords : list string) (w : World) :
  NoDup (fst (search_channels_by_keywords tg discovery keywords w)).
Proof.
  assert (H : forall ks st, NoDup (fst st) ->
                            NoDup (fst (fold_left (search_keyword tg) ks st))).
  { induction ks as [|k ks IH]; intros st Hs; [exact Hs|].
    cbn [fold_left]. apply IH. apply search_keyword_nodup. exact Hs. }
  unfold search_channels_by_keywords.
  destruct (ensure_client tg discovery w) as [ok w1].
  destruct ok; [apply H|]; constructor.
Qed.

End CrawlerExtras.

Section StoreExtras.
Import Config Spider TelegramSpider DiscoveryScenario CrawlerTerms.

Lemma grows_refl (w : World) : grows w w.
Proof. exists []. rewrite app_nil_r. repeat split. Qed.

Lemma grows_session (w w' : World) : session w' = session w -> grows w w'.
Proof. intro E. exists []. rewrite E, app_nil_r. repeat split. Qed.

Lemma grows_trans (a b c : World) : grows a b -> grows b c -> grows a c.
Proof.
  intros (x & E1 & F1 & T1 & M1) (y & E2 & F2 & T2 & M2).
  exists (x ++ y). rewrite E2, E1, <- app_assoc, forallb_app, F1, F2.
  repeat split; congruence.
Qed.

Lemma add_channel_to_db_grows
      (tg : Telegram) (channel_name : string) (source source_details : option string)
      (w : World) :
  grows w (snd (add_channel_to_db tg channel_name source source_details w)).
Proof.
  unfold add_channel_to_db.
  destruct (List.find _ _); [apply grows_session; reflexivity|].
  destruct (get_entity tg channel_name) as [entity|];
    [destruct (is_channel entity); [destruct (get_full_channel tg entity)|]|];
    try (cbn [snd]; apply grows_session; reflexivity).
  cbn [snd]. eexists [_]. repeat split.
Qed.

Lemma load_active_channels_grows
      (tg : Telegram) (discovery : gmap string cfg_value) (w : World) :
  grows w (load_active_channels tg discovery w).
Proof.
  unfold load_active_channels.
  destruct (discovery !! "min_relevance_score"); [|apply grows_session; reflexivity].
  destruct (filter _ _); [|apply grows_session; reflexivity].
  assert (H : forall names w0, grows w w0 ->
              grows w (fold_left (fun w1 channel_name =>
                          snd (add_channel_to_db tg channel_name (Some "initial") None w1))
                        names w0)).
  { induction names as [|n names IH]; intros w0 H0; [exact H0|].
    cbn [fold_left]. apply IH. eapply grows_trans; [exact H0|].
    apply add_channel_to_db_grows. }
  specialize (H MONITORED_CHANNELS (set_active MONITORED_CHANNELS w) (grows_refl _)).
  destruct H as (x & E & F & T & M). exists x. repeat split; assumption.
Qed.

Lemma ensure_client_grows
      (tg : Telegram) (discovery : gmap string cfg_value) (w : World) :
  grows w (snd (ensure_client tg discovery w)).
Proof.
  unfold ensure_client, connect. destruct (client w); [apply grows_session; reflexivity|].
  destruct (connect_result tg); cbn [snd]; try (apply grows_session; reflexivity).
  match goal with |- grows _ (load_active_channels _ _ ?w0) =>
    destruct (load_active_channels_grows tg discovery w0) as (x & E & F & T & M) end.
  exists x. repeat split; assumption.
Qed.

Lemma register_chat_grows
      (tg : Telegram) (keyword : string) (st : list string * World) (result : Chat) :
  grows (snd st) (snd (register_chat tg keyword st result)).
Proof.
  unfold register_chat. destruct st as [found w]. cbn [snd].
  destruct (PyStr.truthy (chat_username result)); [|apply grows_session; reflexivity].
  destruct (existsb _ found); [apply grows_session; reflexivity|].
  pose proof (add_channel_to_db_grows tg (default "" (chat_username result))
                (Some "keyword_search") (Some (String.append "keyword: " keyword)) w)
    as H.
  destruct (add_channel_to_db _ _ _ _ _) as [[c|] w']; cbn [snd] in *; [|exact H].
  destruct (append_active_trace (default "" (chat_username result)) w') as (_ & _ & S).
  destruct H as (x & E & F & T & M). exists x. rewrite S. repeat split; assumption.
Qed.

Lemma search_keyword_grows
      (tg : Telegram) (st : list string * World) (keyword : string) :
  grows (snd st) (snd (search_keyword tg st keyword)).
Proof.
  unfold search_keyword. destruct st as [found w]. cbn [snd].
  destruct (search_global tg _ keyword) as [chats|seconds|];
    [|apply grows_session; reflexivity|apply grows_session; reflexivity].
  match goal with |- context [fold_left ?f chats ?s] =>
    assert (Hf : grows w (snd (fold_left f chats s))) end.
  { match goal with |- context [fold_left _ chats ?s] =>
      assert (Hs : grows w (snd s)) by (apply grows_session; reflexivity); revert Hs; generalize s end.
    induction chats as [|c chats IH]; intros s Hs; [exact Hs|].
    cbn [fold_left]. apply IH. eapply grows_trans; [exact Hs|].
    apply register_chat_grows. }
  destruct (fold_left _ chats _) as [found' w']. cbn [snd] in *.
  destruct Hf as (x & E & F & T & M). exists x. repeat split; assumption.
Qed.

(** X13.  [search_channels_by_keywords] never changes or removes what the
    session holds: after the call the channel table is the table before,
    followed by rows as [add_channel_to_db] creates them (active, never
    scanned, relevance 0.5, no mentions), and the tables of candidates and
    messages are the same. *)
Theorem keyword_search_only_appends_rows
        (tg : Telegram) (discovery : gmap string cfg_value)
        (keywords : list string) (w : World) :
  grows w (snd (search_channels_by_keywords tg discovery keywords w)).
Proof.
  assert (H : forall ks st, grows w (snd st) ->
                            grows w (snd (fold_left (search_keyword tg) ks st))).
  { induction ks as [|k ks IH]; intros st Hs; [exact Hs|].
    cbn [fold_left]. apply IH. eapply grows_trans; [exact Hs|].
    apply search_keyword_grows. }
  unfold search_channels_by_keywords.
  pose proof (ensure_client_grows tg discovery w) as Hc.
  destruct (ensure_client tg discovery w) as [ok w1]. cbn [snd] in Hc.
  destruct ok; [apply H|]; exact Hc.
Qed.

(** X14.  Once [add_channel_to_db] has returned a row for a name, a later
    call for the same name returns the same row and changes nothing,
    whatever source it is given: the row is in the table under that name,
    and the source recorded first stays. *)
Theorem add_channel_to_db_twice
        (tg : Telegram) (channel_name : string)
        (source source_details source' source_details' : option string)
        (w w' : World) (row : TelegramChannel) :
  add_channel_to_db tg channel_name source source_details w = (Some row, w') ->
  add_channel_to_db tg channel_name source' source_details' w' = (Some row, w')
  /\ username row = Some channel_name
  /\ In row (channels (session w')).
Proof.
  unfold add_channel_to_db.
  destruct (List.find (has_username channel_name) (channels (session w))) as [c|] eqn:Ef.
  - intro H. injection H as <- <-. rewrite Ef. split; [reflexivity|].
    apply find_some in Ef. destruct Ef as [Hin Hu]. split; [|exact Hin].
    unfold has_username in Hu. destruct (username c) as [u|]; [|discriminate].
    apply String.eqb_eq in Hu. congruence.
  - destruct (get_entity tg channel_name) as [entity|]; [|discriminate].
    destruct (is_channel entity); [|discriminate].
    destruct (get_full_channel tg entity) as [full|]; [|discriminate].
    intro H. injection H as <- <-.
    cbn [session emit commit set_session add_channel channels].
    assert (Hfind : List.find (has_username channel_name)
                      (channels (session w) ++
                       [{| channel_id := pretty (entity_id entity);
                           username := Some channel_name;
                           title := default channel_name (entity_title entity);
                           description := about full;
                           members_count := participants_count full;
                           created_at := entity_date entity;
                           last_scanned_at := None; is_active := true;
                           relevance_score := 0.5; token_mentions_count := 0;
                           source := source; source_details := source_details |}])
                    = Some {| channel_id := pretty (entity_id entity);
                           username := Some channel_name;
                           title := default channel_name (entity_title entity);
                           description := about full;
                           members_count := participants_count full;
                           created_at := entity_date entity;
                           last_scanned_at := None; is_active := true;
                           relevance_score := 0.5; token_mentions_count := 0;
                           source := source; source_details := source_details |}).
    { generalize dependent (channels (session w)). intros l Hl.
      induction l as [|c l IH].
      - cbn. rewrite String.eqb_refl. reflexivity.
      - cbn [app List.find] in *. destruct (has_username channel_name c); [discriminate|].
        apply IH. exact Hl. }
    rewrite Hfind. split; [reflexivity|]. split; [reflexivity|].
    apply in_or_app. right. left. reflexivity.
Qed.

(** X14, witness: "tonblum" registered as initial, then found again by a
    keyword search. *)
Lemma add_channel_to_db_twice_witness :
  exists row w',
    add_channel_to_db two_chats "tonblum" (Some "initial") None online = (Some row, w')
    /\ add_channel_to_db two_chats "tonblum" (Some "keyword_search") None w'
       = (Some row, w')
    /\ source row = Some "initial".
Proof.
  destruct (add_channel_to_db two_chats "tonblum" (Some "initial") None online)
    as [[row|] w'] eqn:E; [|vm_compute in E; discriminate E].
  exists row, w'. split; [reflexivity|].
  destruct (add_channel_to_db_twice two_chats "tonblum" (Some "initial") None
              (Some "keyword_search") None online w' row E) as (H & _ & _).
  split; [exact H|].
  vm_compute in E. injection E as <- _. reflexivity.
Defined.

(** X15.  After [load_active_channels] under the configuration of
    config.py, the active list is either the initial list
    [MONITORED_CHANNELS], or every name on it is the username of a stored
    row that is active and has a relevance of at least 0.6. *)
Theorem loaded_channels_qualify (tg : Telegram) (w : World) :
  let w' := load_active_channels tg CHANNEL_DISCOVERY w in
  active_channels w' = MONITORED_CHANNELS
  \/ (forall channel_name,
        In channel_name (active_channels w') ->
        exists row,
          In row (channels (session w))
          /\ username row = Some channel_name
          /\ is_active row = true
          /\ 0.6 <= relevance_score row).
Proof.
  cbv zeta. unfold load_active_channels.
  assert (Hk : CHANNEL_DISCOVERY !! "min_relevance_score" = Some (CFloat 0.6))
    by (vm_compute; reflexivity).
  rewrite Hk. cbn [cfg_num].
  rewrite filter_test.
  destruct (List.filter _ (channels (session w))) as [|r rows] eqn:Ef.
  - left. cbn [emit active_channels].
    match goal with |- active_channels (fold_left ?f ?l ?w0) = _ =>
      assert (H : forall names w1, active_channels (fold_left f names w1)
                                   = active_channels w1) end.
    { induction names as [|n names IH]; intro w1; [reflexivity|].
      cbn [fold_left]. rewrite IH. unfold add_channel_to_db.
      destruct (List.find _ _); [reflexivity|].
      destruct (get_entity tg n) as [entity|];
        [destruct (is_channel entity); [destruct (get_full_channel tg entity)|]|];
        reflexivity. }
    rewrite H. reflexivity.
  - right. cbn [emit active_channels set_active]. intros name Hin.
    apply in_flat_map in Hin. destruct Hin as (row & Hrow & Hname).
    rewrite <- Ef in Hrow. apply filter_In in Hrow. destruct Hrow as [Hin Hq].
    apply andb_true_iff in Hq. destruct Hq as [Ha Hr].
    exists row. split; [exact Hin|].
    unfold PyStr.truthy in Hname.
    destruct (username row) as [[|c u]|]; try contradiction.
    destruct Hname as [<-|[]]. split; [reflexivity|]. split; [exact Ha|].
    apply leb_le. exact Hr.
Qed.

End StoreExtras.

Section MessageExtras.
Import Config Spider TelegramSpider DiscoveryScenario CrawlerTerms.


Lemma update_channel_ids
      (cid : string) (f : TelegramChannel -> TelegramChannel) (d : Db) :
  (forall c, channel_id (f c) = channel_id c) ->
  map channel_id (channels (update_channel cid f d)) = map channel_id (channels d).
Proof.
  intro Hf. unfold update_channel. cbn [channels]. rewrite map_map.
  apply map_ext. intro c. destruct (String.eqb _ _); [apply Hf|reflexivity].
Qed.



End MessageExtras.

Section CleanupExtras.
Import Spider TelegramSpider Cleanup.

Lemma is_old_inactive (now : Z) (c : TelegramChannel) :
  is_old now (if is_old now c then set_inactive c else c) = false.
Proof.
  destruct (is_old now c) eqn:E; [reflexivity|exact E].
Qed.

(** X17.  [clean_old_channels] only deactivates.  After the call the
    channel table has the same rows in the same order with the same
    relevance; every row that is active afterwards is a row of before,
    unchanged; rows that were never scanned and rows with a relevance of at
    least 0.3 are kept as they are; candidates and messages are the same;
    and a second call at the same time changes nothing more. *)
Theorem retirement_only_deactivates (now : Z) (w : World) :
  let w' := clean_old_channels now w in
  map channel_id (channels (session w')) = map channel_id (channels (session w))
  /\ map relevance_score (channels (session w'))
     = map relevance_score (channels (session w))
  /\ (forall c, In c (channels (session w')) -> is_active c = true ->
                In c (channels (session w)))
  /\ (forall c, In c (channels (session w)) -> last_scanned_at c = None ->
                In c (channels (session w')))
  /\ (forall c, In c (channels (session w)) -> 0.3 <= relevance_score c ->
                In c (channels (session w')))
  /\ tokens (session w') = tokens (session w)
  /\ messages (session w') = messages (session w)
  /\ clean_old_channels now w' = w'.
Proof.
  cbv zeta. unfold clean_old_channels.
  destruct (List.filter (is_old now) (channels (session w))) as [|o os] eqn:Ef.
  - rewrite Ef. repeat split; auto.
  - cbn [emit session commit set_session channels tokens messages].
    set (retire := fun c => if is_old now c then set_inactive c else c).
    assert (Hnone : List.filter (is_old now) (map retire (channels (session w))) = []).
    { clear Ef. induction (channels (session w)) as [|c l IH]; [reflexivity|].
      cbn [map List.filter]. unfold retire at 1. rewrite is_old_inactive. exact IH. }
    rewrite Hnone.
    split; [rewrite map_map; apply map_ext; intro c; unfold retire;
            destruct (is_old now c); reflexivity|].
    split; [rewrite map_map; apply map_ext; intro c; unfold retire;
            destruct (is_old now c); reflexivity|].
    split.
    { intros c Hin Ha. apply in_map_iff in Hin. destruct Hin as (c0 & <- & Hin).
      unfold retire in *. destruct (is_old now c0); [discriminate Ha|exact Hin]. }
    split.
    { intros c Hin Hs. apply in_map_iff. exists c. split; [|exact Hin].
      unfold retire, is_old. rewrite Hs, !andb_false_r. reflexivity. }
    split.
    { intros c Hin Hr. apply in_map_iff. exists c. split; [|exact Hin].
      unfold retire, is_old. apply ltb_ge in Hr. rewrite Hr, andb_false_r.
      reflexivity. }
    repeat split.
Qed.

(** A stale channel is retired, a never scanned one is kept. *)
Lemma retirement_on_stale_world :
  map is_active (channels (session (clean_old_channels (40 * 86400) stale_world)))
  = [false; true].
Proof. reflexivity. Qed.

End CleanupExtras.

Section ListingExtras.
Import MemepadParser MemepadListing.

Lemma key_eqb_eq (a b : key) : key_eqb a b = true <-> a = b.
Proof.
  destruct a as [|n d|s], b as [|n' d'|s']; cbn; try (split; [discriminate|discriminate]);
    try (split; reflexivity).
  - rewrite andb_true_iff, Z.eqb_eq, Pos.eqb_eq. split; [intros [-> ->]; reflexivity|].
    intro H. injection H as -> ->. split; reflexivity.
  - rewrite String.eqb_eq. split; [intros ->; reflexivity|intro H; injection H; auto].
Qed.

Lemma fetch_jettons_returns (http : Http) (endpoint : string) :
  exists value, fetch_jettons http endpoint = Returns value.
Proof.
  unfold fetch_jettons, try_except.
  destruct (get http _) as [status [data|]|]; try (eexists; reflexivity);
    destruct (negb _); try (eexists; reflexivity).
  destruct (dict_get data "jettons" (JArr [])); eexists; reflexivity.
Qed.

Lemma has_key_self (j : json) (k : key) :
  address_key j = Some k -> has_key (Some k) j = true.
Proof. intro H. unfold has_key. rewrite H. apply key_eqb_eq. reflexivity. Qed.

Lemma find_none_app {A} (f : A -> bool) (l : list A) (x : A) :
  List.find f l = None -> List.find f (l ++ [x]) = if f x then Some x else None.
Proof.
  induction l as [|a l IH]; intro H; [reflexivity|].
  cbn [app List.find] in *. destruct (f a); [discriminate|]. exact (IH H).
Qed.

Lemma find_some_app {A} (f : A -> bool) (l l' : list A) (x : A) :
  List.find f l = Some x -> List.find f (l ++ l') = Some x.
Proof.
  induction l as [|a l IH]; intro H; [discriminate|].
  cbn [app List.find] in *. destruct (f a); [exact H|]. exact (IH H).
Qed.

Lemma merge_jetton_tracks
      (processed : list json) (st st' : list key * list json) (jetton : json) :
  tracks processed st ->
  merge_jetton st jetton = Returns st' ->
  tracks (processed ++ [jetton]) st'.
Proof.
  intros (Hm & Hn & Hs & Hc & Hf). unfold merge_jetton. destruct st as [seen kept].
  cbn [fst snd] in *.
  assert (Hold : forall j, In j kept ->
                   List.find (has_key (address_key j)) (processed ++ [jetton]) = Some j).
  { intros j Hj. apply find_some_app. apply Hf. exact Hj. }
  destruct (address_of jetton) as [address|] eqn:Ea; [|discriminate].
  destruct (json_truthy address) eqn:Et.
  - destruct (key_of address) as [k|] eqn:Ek; [|discriminate].
    assert (Hk : address_key jetton = Some k)
      by (unfold address_key; rewrite Ea, Et; exact Ek).
    destruct (existsb (key_eqb k) seen) eqn:Ex.
    + intro H. injection H as <-. unfold tracks. cbn [fst snd].
      assert (Hin : In k seen).
      { apply existsb_exists in Ex. destruct Ex as (x & Hx & Hkx).
        apply key_eqb_eq in Hkx. subst x. exact Hx. }
      repeat split; try assumption.
      * apply sublist_inserts_r. exact Hs.
      * intros j k0 Hj Hk0. apply in_app_or in Hj. destruct Hj as [Hj|[<-|[]]].
        -- eapply Hc; eassumption.
        -- rewrite Hk in Hk0. injection Hk0 as <-. exact Hin.
    + intro H. injection H as <-. unfold tracks. cbn [fst snd].
      assert (Hnot : ~ In k seen).
      { intro Hin.
        assert (existsb (key_eqb k) seen = true).
        { apply existsb_exists. exists k. split; [exact Hin|].
          apply key_eqb_eq. reflexivity. }
        congruence. }
      repeat split.
      * rewrite !List.map_app, Hm. cbn [map]. rewrite Hk. reflexivity.
      * apply NoDup_app. split; [exact Hn|]. split; [|apply NoDup_singleton].
        intros x Hx Hin. apply list_elem_of_In in Hx, Hin.
        destruct Hin as [<-|[]]. exact (Hnot Hx).
      * apply sublist_app; [exact Hs|reflexivity].
      * intros j k0 Hj Hk0. apply in_app_or in Hj. apply in_or_app.
        destruct Hj as [Hj|[<-|[]]].
        -- left. eapply Hc; eassumption.
        -- right. rewrite Hk in Hk0. injection Hk0 as <-. left. reflexivity.
      * intros j Hj. apply in_app_or in Hj. destruct Hj as [Hj|[<-|[]]].
        -- apply Hold. exact Hj.
        -- rewrite Hk.
           assert (Hnone : List.find (has_key (Some k)) processed = None).
           { destruct (List.find (has_key (Some k)) processed) as [j0|] eqn:E0;
               [|reflexivity].
             exfalso. apply find_some in E0. destruct E0 as [Hin0 Hk0].
             unfold has_key in Hk0.
             destruct (address_key j0) as [k0|] eqn:Ek0; [|discriminate].
             apply key_eqb_eq in Hk0. subst k0.
             apply Hnot. eapply Hc; eassumption. }
           rewrite (find_none_app _ _ _ Hnone), (has_key_self _ _ Hk). reflexivity.
  - intro H. injection H as <-. unfold tracks. cbn [fst snd].
    assert (Hk : address_key jetton = None)
      by (unfold address_key; rewrite Ea, Et; reflexivity).
    repeat split; try assumption.
    * apply sublist_inserts_r. exact Hs.
    * intros j k0 Hj Hk0. apply in_app_or in Hj. destruct Hj as [Hj|[<-|[]]].
      -- eapply Hc; eassumption.
      -- congruence.
Qed.

Lemma for_each_tracks
      (items processed : list json) (st st' : list key * list json) :
  tracks processed st ->
  for_each merge_jetton items st = Returns st' ->
  tracks (processed ++ items) st'.
Proof.
  revert processed st. induction items as [|j items IH]; intros processed st Ht.
  - cbn. intro H. injection H as <-. rewrite app_nil_r. exact Ht.
  - cbn [for_each]. destruct (merge_jetton st j) as [st1|] eqn:E; [|discriminate].
    intro H. replace (processed ++ j :: items) with ((processed ++ [j]) ++ items)
      by (rewrite <- app_assoc; reflexivity).
    eapply IH; [|exact H]. eapply merge_jetton_tracks; eassumption.
Qed.

Lemma merge_lists_track
      (results : list json) (processed : list json) (st st' : list key * list json) :
  tracks processed st ->
  for_each merge_list results st = Returns st' ->
  tracks (processed ++ flat_map entries results) st'.
Proof.
  revert processed st. induction results as [|v results IH]; intros processed st Ht.
  - cbn. intro H. injection H as <-. rewrite app_nil_r. exact Ht.
  - cbn [for_each flat_map]. unfold merge_list at 1, entries at 1.
    destruct (iterate v) as [items|]; [|discriminate].
    destruct (for_each merge_jetton items st) as [st1|] eqn:E; [|discriminate].
    intro H. rewrite app_assoc. eapply IH; [|exact H].
    eapply for_each_tracks; eassumption.
Qed.

Lemma gathered_views (http : Http) (l : list string) :
  exists results,
    gather_all (map (fetch_jettons http) l) = Returns results
    /\ map Returns results = map (fetch_jettons http) l.
Proof.
  induction l as [|e l (results & E & M)]; [exists []; split; reflexivity|].
  destruct (fetch_jettons_returns http e) as [v Hv].
  exists (v :: results). cbn [map gather_all]. rewrite Hv, E, M. split; reflexivity.
Qed.

Lemma delivered_entries (http : Http) (l : list string) (results : list json) :
  map Returns results = map (fetch_jettons http) l ->
  flat_map (fun endpoint =>
              match fetch_jettons http endpoint with
              | Returns value =>
                  match iterate value with
                  | Returns items => items
                  | Raises => []
                  end
              | Raises => []
              end) l
  = flat_map entries results.
Proof.
  revert results. induction l as [|e l IH]; intros [|v results] H; try discriminate;
    [reflexivity|].
  cbn [map] in H. injection H as Hv Hrest. cbn [flat_map].
  rewrite <- Hv, (IH _ Hrest). reflexivity.
Qed.

(** X18.  When [fetch_all_jettons] returns, its list holds each address
    once: the addresses of the entries are truthy, hashable and pairwise
    different; the list is a subsequence of what the six views delivered, in
    the order of the views; every delivered entry with such an address has an
    entry of the same address in the list; and the entry kept for an address
    is the first one delivered with it. *)
Theorem merged_listing_keeps_first_of_each_address (http : Http) (l : list json) :
  fetch_all_jettons http = Returns l ->
  NoDup (map address_key l)
  /\ (forall j, In j l -> exists k, address_key j = Some k)
  /\ sublist l (delivered http)
  /\ (forall j k, In j (delivered http) -> address_key j = Some k ->
                  exists kept, In kept l /\ address_key kept = Some k)
  /\ (forall j, In j l ->
                List.find (has_key (address_key j)) (delivered http) = Some j).
Proof.
  unfold fetch_all_jettons, delivered.
  destruct (gathered_views http endpoints) as (results & E & M).
  rewrite E, (delivered_entries http endpoints results M).
  destruct (for_each merge_list results ([], [])) as [[seen kept]|] eqn:Ef;
    [|discriminate].
  intro H. injection H as <-.
  assert (H0 : tracks [] (@nil key, @nil json)).
  { unfold tracks. cbn. repeat split; try constructor; intros; contradiction. }
  pose proof (merge_lists_track results [] _ _ H0 Ef) as (Hm & Hn & Hs & Hc & Hf).
  cbn [app fst snd] in *.
  assert (Hkey : forall j, In j kept -> exists k, address_key j = Some k).
  { intros j Hj. apply (in_map address_key) in Hj. rewrite Hm in Hj.
    apply in_map_iff in Hj. destruct Hj as (k & Hk & _). exists k. congruence. }
  split.
  { rewrite Hm. apply NoDup_fmap_2; [|exact Hn]. intros a b Hab. congruence. }
  split; [exact Hkey|]. split; [exact Hs|]. split; [|exact Hf].
  intros j k Hj Hk. specialize (Hc j k Hj Hk).
  apply (in_map Some) in Hc. rewrite <- Hm in Hc.
  apply in_map_iff in Hc. destruct Hc as (kept0 & Hk0 & Hin0).
  exists kept0. split; assumption.
Qed.

(** X18, witness: two views that answer with one token in common, the
    other views failing. *)
Lemma merged_listing_keeps_first_of_each_address_witness :
  fetch_all_jettons two_views
  = Returns [token "EQA_test1" "TEST1"; token "EQA_test2" "TEST2";
             token "EQA_test3" "TEST3"]
  /\ NoDup (map address_key
              [token "EQA_test1" "TEST1"; token "EQA_test2" "TEST2";
               token "EQA_test3" "TEST3"]).
Proof.
  assert (E : fetch_all_jettons two_views
              = Returns [token "EQA_test1" "TEST1"; token "EQA_test2" "TEST2";
                         token "EQA_test3" "TEST3"]) by reflexivity.
  split; [exact E|].
  destruct (merged_listing_keeps_first_of_each_address two_views _ E) as [H _].
  exact H.
Defined.

(** Raising does not depend on the state of the merge. *)
Lemma merge_jetton_raises (st : list key * list json) (jetton : json) :
  match merge_jetton st jetton with
  | Returns _ => mergeable jetton = true
  | Raises => mergeable jetton = false
  end.
Proof.
  unfold merge_jetton, mergeable. destruct st as [seen kept].
  destruct (address_of jetton) as [address|]; [|reflexivity].
  destruct (json_truthy address); cbn [negb orb]; [|reflexivity].
  destruct (key_of address) as [k|]; [|reflexivity].
  destruct (existsb _ _); reflexivity.
Qed.

Lemma for_each_merge_raises (items : list json) (st : list key * list json) :
  match for_each merge_jetton items st with
  | Returns _ => forallb mergeable items = true
  | Raises => forallb mergeable items = false
  end.
Proof.
  revert st. induction items as [|j items IH]; intro st; [reflexivity|].
  cbn [for_each forallb]. pose proof (merge_jetton_raises st j) as Hj.
  destruct (merge_jetton st j) as [st1|]; rewrite Hj; [|reflexivity].
  apply IH.
Qed.

Lemma merge_lists_raise (results : list json) (st : list key * list json) :
  match for_each merge_list results st with
  | Returns _ => forallb well_formed_view results = true
  | Raises => forallb well_formed_view results = false
  end.
Proof.
  revert st. induction results as [|v results IH]; intro st; [reflexivity|].
  cbn [for_each forallb]. unfold merge_list at 1, well_formed_view at 1 3.
  destruct (iterate v) as [items|]; [|reflexivity].
  pose proof (for_each_merge_raises items st) as Hi.
  destruct (for_each merge_jetton items st) as [st1|]; rewrite Hi; [|reflexivity].
  apply IH.
Qed.

(** X19.  [fetch_all_jettons] has no handler of its own: it returns exactly
    when every delivered view can be iterated and lists only objects whose
    address is absent, falsy or hashable, and raises otherwise (a failed
    request is not such a case: [fetch_jettons] turns it into an empty
    list). *)
Theorem fetch_all_jettons_raises_on_malformed_view (http : Http) :
  match fetch_all_jettons http with
  | Returns _ => all_well_formed http = true
  | Raises => all_well_formed http = false
  end.
Proof.
  unfold fetch_all_jettons, all_well_formed.
  destruct (gathered_views http endpoints) as (results & E & M).
  rewrite E.
  assert (Hw : forallb (fun endpoint =>
                          match fetch_jettons http endpoint with
                          | Returns value => well_formed_view value
                          | Raises => false
                          end) endpoints
               = forallb well_formed_view results).
  { clear E. revert results M. induction endpoints as [|e l IH];
      intros [|v results] M; try discriminate; [reflexivity|].
    cbn [map] in M. injection M as Hv Hrest. cbn [forallb].
    rewrite <- Hv, (IH _ Hrest). reflexivity. }
  rewrite Hw. pose proof (merge_lists_raise results ([], [])) as H.
  destruct (for_each merge_list results ([], [])) as [[seen kept]|]; exact H.
Qed.

(** A view that lists a bare string makes the whole call raise. *)
Lemma bare_string_view_raises : fetch_all_jettons bare_string_view = Raises.
Proof. reflexivity. Qed.

End ListingExtras.

Section NotificationExtras.
Import NotificationBot.

Lemma lookup_assign (user_id other : Z) (types : list string) (d : subscriptions) :
  lookup other (assign user_id types d)
  = if (user_id =? other)%Z then Some types else lookup other d.
Proof.
  induction d as [|[u old] d IH].
  - cbn. reflexivity.
  - cbn [assign]. destruct (u =? user_id)%Z eqn:E.
    + apply Z.eqb_eq in E. subst u. cbn [lookup].
      destruct (user_id =? other)%Z; reflexivity.
    + cbn [lookup]. rewrite IH.
      destruct (u =? other)%Z eqn:E2; [|reflexivity].
      apply Z.eqb_eq in E2. subst u. rewrite Z.eqb_sym, E. reflexivity.
Qed.

Lemma lookup_remove_other (user_id other : Z) (d : subscriptions) :
  user_id <> other -> lookup other (remove user_id d) = lookup other d.
Proof.
  intro Hne. induction d as [|[u old] d IH]; [reflexivity|].
  cbn [remove]. destruct (u =? user_id)%Z eqn:E.
  - apply Z.eqb_eq in E. subst u. cbn [lookup].
    destruct (user_id =? other)%Z eqn:E2; [|reflexivity].
    apply Z.eqb_eq in E2. contradiction.
  - cbn [lookup]. rewrite IH. reflexivity.
Qed.

Lemma lookup_absent (user_id : Z) (d : subscriptions) :
  ~ In user_id (map fst d) -> lookup user_id d = None.
Proof.
  induction d as [|[u old] d IH]; intro H; [reflexivity|].
  cbn [lookup]. cbn [map fst In] in H. destruct (u =? user_id)%Z eqn:E.
  - apply Z.eqb_eq in E. exfalso. apply H. left. exact E.
  - apply IH. intro Hin. apply H. right. exact Hin.
Qed.

Lemma lookup_remove_same (user_id : Z) (d : subscriptions) :
  List.NoDup (map fst d) -> lookup user_id (remove user_id d) = None.
Proof.
  induction d as [|[u old] d IH]; intro H; [reflexivity|].
  cbn [map fst] in H. inversion H as [|? ? Hnin Hnd]; subst.
  cbn [remove]. destruct (u =? user_id)%Z eqn:E.
  - apply Z.eqb_eq in E. subst u. apply lookup_absent. exact Hnin.
  - cbn [lookup]. rewrite E. apply IH. exact Hnd.
Qed.

Lemma keys_assign (user_id : Z) (types : list string) (d : subscriptions) :
  forall u, In u (map fst (assign user_id types d))
            <-> u = user_id \/ In u (map fst d).
Proof.
  intro u0. induction d as [|[u old] d IH].
  - cbn. intuition congruence.
  - cbn [assign]. destruct (u =? user_id)%Z eqn:E.
    + apply Z.eqb_eq in E. subst u. cbn [map fst In]. intuition congruence.
    + cbn [map fst In]. rewrite IH. intuition congruence.
Qed.

Lemma keys_remove (user_id : Z) (d : subscriptions) :
  forall u, In u (map fst (remove user_id d)) -> In u (map fst d).
Proof.
  intro u0. induction d as [|[u old] d IH]; [tauto|].
  cbn [remove]. destruct (u =? user_id)%Z; cbn [map fst In]; tauto.
Qed.

Lemma nodup_assign (user_id : Z) (types : list string) (d : subscriptions) :
  List.NoDup (map fst d) -> List.NoDup (map fst (assign user_id types d)).
Proof.
  induction d as [|[u old] d IH]; intro H.
  - cbn. constructor; [intros []|constructor].
  - cbn [map fst] in H. inversion H as [|? ? Hnin Hnd]; subst.
    cbn [assign]. destruct (u =? user_id)%Z eqn:E.
    + cbn [map fst]. constructor; assumption.
    + cbn [map fst]. constructor; [|apply IH; exact Hnd].
      intro Hin. apply keys_assign in Hin. destruct Hin as [Hin|Hin].
      * subst u. rewrite Z.eqb_refl in E. discriminate.
      * contradiction.
Qed.

Lemma nodup_remove (user_id : Z) (d : subscriptions) :
  List.NoDup (map fst d) -> List.NoDup (map fst (remove user_id d)).
Proof.
  induction d as [|[u old] d IH]; intro H; [constructor|].
  cbn [map fst] in H. inversion H as [|? ? Hnin Hnd]; subst.
  cbn [remove]. destruct (u =? user_id)%Z; [exact Hnd|].
  cbn [map fst]. constructor; [|apply IH; exact Hnd].
  intro Hin. apply Hnin. apply keys_remove in Hin. exact Hin.
Qed.

Lemma every_type_all : Forall (fun t => In t every_type) every_type.
Proof.
  apply List.Forall_forall. intros t Ht. exact Ht.
Qed.

Lemma valid_not_all (arg : string) :
  is_valid arg = true -> String.eqb arg "all" = false -> In arg every_type.
Proof.
  unfold is_valid, valid_types, every_type. cbn [existsb In]. intros Ev Ea.
  rewrite Ea, !orb_false_r in Ev.
  apply orb_true_iff in Ev. destruct Ev as [Ev|Ev];
    [apply String.eqb_eq in Ev; left; symmetry; exact Ev|].
  apply orb_true_iff in Ev. destruct Ev as [Ev|Ev];
    apply String.eqb_eq in Ev; [right; left|right; right; left]; symmetry; exact Ev.
Qed.

Lemma subscription_types_real (args collected : list string) :
  Forall (fun t => In t every_type) collected ->
  Forall (fun t => In t every_type) (subscription_types args collected).
Proof.
  revert collected. induction args as [|arg args IH]; intros collected H; [exact H|].
  cbn [subscription_types]. destruct (is_valid arg) eqn:Ev; [|apply IH; exact H].
  destruct (String.eqb arg "all") eqn:Ea.
  - apply every_type_all.
  - apply IH. apply Forall_app. split; [exact H|]. constructor; [|constructor].
    apply valid_not_all; assumption.
Qed.

Lemma well_formed_assign (user_id : Z) (types : list string) (d : subscriptions) :
  types <> [] -> Forall (fun t => In t every_type) types ->
  well_formed d -> well_formed (assign user_id types d).
Proof.
  intros Hne Hreal [Hnd H]. split; [apply nodup_assign; exact Hnd|]. clear Hnd.
  induction d as [|[u old] d IH].
  - constructor; [split; assumption|constructor].
  - cbn [assign]. inversion H as [|? ? Hhd Htl]; subst.
    destruct (u =? user_id)%Z; constructor; try assumption.
    + split; assumption.
    + apply IH. exact Htl.
Qed.

Lemma well_formed_remove (user_id : Z) (d : subscriptions) :
  well_formed d -> well_formed (remove user_id d).
Proof.
  intros [Hnd H]. split; [apply nodup_remove; exact Hnd|]. clear Hnd.
  induction d as [|[u old] d IH]; [constructor|].
  cbn [remove]. inversion H as [|? ? Hhd Htl]; subst.
  destruct (u =? user_id)%Z; [exact Htl|]. constructor; [exact Hhd|apply IH; exact Htl].
Qed.

Lemma lookup_well_formed (user_id : Z) (d : subscriptions) (types : list string) :
  well_formed d -> lookup user_id d = Some types ->
  Forall (fun t => In t every_type) types.
Proof.
  intros [_ H]. induction d as [|[u old] d IH]; intro E; [discriminate|].
  inversion H as [|? ? Hhd Htl]; subst. cbn [lookup] in E.
  destruct (u =? user_id)%Z; [injection E as <-; apply Hhd|apply IH; assumption].
Qed.

(** X20.  The commands keep the subscriptions well formed.  If each user
    has one entry, and every entry is a non-empty list of the real
    notification types [new_tokens], [scam_alerts] and [new_channels], then
    the same holds after [_cmd_subscribe] and after [_cmd_unsubscribe], for
    any arguments: no entry is ever empty, and none holds "all" or an
    unknown word. *)
Theorem commands_keep_subscriptions_well_formed
        (user_id : Z) (args : list string) (d : subscriptions) :
  well_formed d ->
  well_formed (fst (_cmd_subscribe user_id args d))
  /\ well_formed (fst (_cmd_unsubscribe user_id args d)).
Proof.
  intro H. split.
  - unfold _cmd_subscribe. destruct args as [|a args]; [exact H|].
    pose proof (subscription_types_real (a :: args) [] (List.Forall_nil _)) as Hr.
    destruct (subscription_types (a :: args) []) as [|t ts] eqn:E; [exact H|].
    cbn [fst]. apply well_formed_assign; [discriminate|exact Hr|exact H].
  - unfold _cmd_unsubscribe.
    destruct args as [|a args].
    + destruct (lookup user_id d); [apply well_formed_remove|]; exact H.
    + destruct (lookup user_id d) as [current|] eqn:El; [|exact H].
      destruct (unsubscribe_types (a :: args) []) as [[|x xs]|];
        [exact H| |apply well_formed_remove; exact H].
      cbv zeta.
      destruct (List.filter _ current) as [|t ts] eqn:Ef;
        [apply well_formed_remove; exact H|].
      cbn [fst]. apply well_formed_assign; [discriminate| |exact H].
      rewrite <- Ef.
      pose proof (lookup_well_formed user_id d current H El) as Hc.
      apply List.Forall_forall. intros t0 Ht0. apply filter_In in Ht0.
      destruct Ht0 as [Ht0 _]. rewrite List.Forall_forall in Hc. apply Hc.
      exact Ht0.
Qed.

(** X20, witness: two users, and commands with a valid and an unknown
    word. *)
Lemma commands_keep_subscriptions_well_formed_witness :
  well_formed (fst (_cmd_subscribe 501 ["scam_alerts"; "bogus"] two_users))
  /\ well_formed (fst (_cmd_unsubscribe 501 ["scam_alerts"; "bogus"] two_users)).
Proof.
  apply commands_keep_subscriptions_well_formed.
  split.
  - cbn. constructor; [intros [H|[]]; discriminate H|].
    constructor; [intros []|constructor].
  - constructor; [split; [discriminate|]|].
    + constructor; [cbn; tauto|]. constructor; [cbn; tauto|constructor].
    + constructor; [|constructor]. split; [discriminate|].
      constructor; [cbn; tauto|constructor].
Defined.

Lemma subscription_types_all (args collected : list string) :
  In "all" args -> subscription_types args collected = every_type.
Proof.
  revert collected. induction args as [|arg args IH]; intros collected H; [contradiction|].
  cbn [subscription_types]. destruct (String.eqb arg "all") eqn:Ea.
  - apply String.eqb_eq in Ea. subst arg. reflexivity.
  - destruct H as [H|H]; [subst arg; discriminate Ea|].
    destruct (is_valid arg); apply IH; exact H.
Qed.

(** X21.  A [/subscribe] that names at least one valid type replaces the
    choice of the user and does not add to it: afterwards the entry of the
    user is exactly the list the command collected, and the entries of all
    other users are as before.  If "all" is among the arguments, the list
    collected is the three real types, whatever else is named. *)
Theorem subscribe_overwrites_previous_choice
        (user_id other : Z) (args : list string) (d : subscriptions) :
  subscription_types args [] <> [] ->
  lookup other (fst (_cmd_subscribe user_id args d))
  = (if (user_id =? other)%Z then Some (subscription_types args [])
     else lookup other d)
  /\ (In "all" args -> subscription_types args [] = every_type).
Proof.
  intro Hne. split; [|apply subscription_types_all].
  unfold _cmd_subscribe.
  destruct args as [|a args]; [cbn in Hne; congruence|].
  destruct (subscription_types (a :: args) []) as [|t ts] eqn:E; [congruence|].
  cbn [fst]. apply lookup_assign.
Qed.

(** X21, witness: a user subscribed to two types subscribes to a third and
    is left with that one. *)
Lemma subscribe_overwrites_previous_choice_witness :
  lookup 501 (fst (_cmd_subscribe 501 ["new_channels"] two_users))
  = Some ["new_channels"].
Proof.
  pose proof (subscribe_overwrites_previous_choice 501 501 ["new_channels"] two_users)
    as H.
  destruct H as [H _]; [vm_compute; discriminate|]. exact H.
Defined.

Lemma unsubscribe_types_collects (args collected unsubscribe : list string) :
  unsubscribe_types args collected = Some unsubscribe ->
  (forall t, In t collected -> In t unsubscribe)
  /\ (forall t, In t args -> is_valid t = true -> In t unsubscribe).
Proof.
  revert collected. induction args as [|arg args IH]; intros collected E.
  - cbn in E. injection E as <-. split; [auto|intros t []].
  - cbn [unsubscribe_types] in E. destruct (is_valid arg) eqn:Ev.
    + destruct (String.eqb arg "all") eqn:Ea; [discriminate|].
      destruct (IH _ E) as [Hc Ha]. split.
      * intros t Ht. apply Hc. apply in_or_app. left. exact Ht.
      * intros t [Ht|Ht] Hv; [|apply Ha; assumption].
        subst t. apply Hc. apply in_or_app. right. left. reflexivity.
    + destruct (IH _ E) as [Hc Ha]. split; [exact Hc|].
      intros t [Ht|Ht] Hv; [subst t; congruence|apply Ha; assumption].
Qed.

(** X22.  After [/unsubscribe], in every branch of the handler, the user
    is subscribed to no valid type the command named; every type the user
    still has was there before; and the entries of all other users are as
    before. *)
Theorem unsubscribe_drops_every_named_type
        (user_id : Z) (args : list string) (d : subscriptions) :
  well_formed d ->
  let d' := fst (_cmd_unsubscribe user_id args d) in
  (forall t kept, In t args -> is_valid t = true ->
                  lookup user_id d' = Some kept -> ~ In t kept)
  /\ (forall t kept, lookup user_id d' = Some kept -> In t kept ->
                     exists before, lookup user_id d = Some before /\ In t before)
  /\ (forall other, other <> user_id -> lookup other d' = lookup other d).
Proof.
  intros [Hnd _] d'. subst d'. unfold _cmd_unsubscribe.
  destruct args as [|a args].
  - destruct (lookup user_id d) as [current|] eqn:El; cbn [fst].
    + rewrite lookup_remove_same by exact Hnd.
      split; [intros ? ? []|]. split; [discriminate|].
      intros other Ho. apply lookup_remove_other. congruence.
    + rewrite El. split; [intros ? ? []|]. split; [discriminate|reflexivity].
  - destruct (lookup user_id d) as [current|] eqn:El;
      [|cbn [fst]; rewrite El; split; [discriminate|split; [discriminate|reflexivity]]].
    destruct (unsubscribe_types (a :: args) []) as [unsubscribe|] eqn:Eu.
    + pose proof (unsubscribe_types_collects _ _ _ Eu) as [_ Hall].
      destruct unsubscribe as [|x xs].
      * cbn [fst]. split; [|split; [|reflexivity]].
        -- intros t kept Ht Hv _. destruct (Hall t Ht Hv).
        -- intros t kept E Hin. exists kept. rewrite <- El. split; [exact E|exact Hin].
      * cbv zeta.
        destruct (List.filter _ current) as [|t0 ts] eqn:Ef; cbn [fst].
        -- rewrite lookup_remove_same by exact Hnd.
           split; [discriminate|]. split; [discriminate|].
           intros other Ho. apply lookup_remove_other. congruence.
        -- rewrite lookup_assign, Z.eqb_refl. rewrite <- Ef.
           split; [|split].
           ++ intros t kept Ht Hv E Hin. injection E as <-.
              apply filter_In in Hin. destruct Hin as [_ Hin].
              cbv beta in Hin.
              assert (existsb (String.eqb t) (x :: xs) = true) as Hex.
              { apply existsb_exists. exists t. split; [apply Hall; assumption|].
                apply String.eqb_refl. }
              change (negb (existsb (String.eqb t) (x :: xs)) = true) in Hin.
              rewrite Hex in Hin. discriminate Hin.
           ++ intros t kept E Hin. injection E as <-.
              apply filter_In in Hin. exists current. split; [reflexivity|apply Hin].
           ++ intros other Ho. rewrite lookup_assign.
              destruct (user_id =? other)%Z eqn:E; [|reflexivity].
              apply Z.eqb_eq in E. congruence.
    + cbn [fst]. rewrite lookup_remove_same by exact Hnd.
      split; [discriminate|]. split; [discriminate|].
      intros other Ho. apply lookup_remove_other. congruence.
Qed.

(** X22, witness: a user drops one of two types; the other user keeps
    the entry. *)
Lemma unsubscribe_drops_every_named_type_witness :
  lookup 501 (fst (_cmd_unsubscribe 501 ["scam_alerts"; "bogus"] two_users))
  = Some ["new_tokens"]
  /\ lookup 502 (fst (_cmd_unsubscribe 501 ["scam_alerts"; "bogus"] two_users))
     = lookup 502 two_users.
Proof.
  split; [vm_compute; reflexivity|].
  refine (proj2 (proj2 (unsubscribe_drops_every_named_type
                          501 ["scam_alerts"; "bogus"] two_users _)) 502%Z _).
  - split.
    + cbn. constructor; [intros [H|[]]; discriminate H|].
      constructor; [intros []|constructor].
    + constructor; [split; [discriminate|]|].
      * constructor; [cbn; tauto|]. constructor; [cbn; tauto|constructor].
      * constructor; [|constructor]. split; [discriminate|].
        constructor; [cbn; tauto|constructor].
  - discriminate.
Defined.

Lemma send_alert_direct (fuel : nat) (bot : Bot) (d : subscriptions)
      (notification_type message : string) (chat_id : Z) (n : nat) :
  chat_id <> 0%Z ->
  send_alert (S fuel) bot d notification_type message (Some chat_id) n
  = Some (false, [LogError chat_id], n).
Proof.
  intro H. cbn [send_alert default from_option id].
  destruct (chat_id =? 0)%Z eqn:E; [apply Z.eqb_eq in E; contradiction|].
  reflexivity.
Qed.

(** X23.  [send_alert] never sends.  In its body the name [types] is the
    target of the [for] loop of the broadcast, hence a local variable, and
    [types.ParseMode.HTML] is evaluated before any iteration has bound it:
    the argument list of [send_message] raises inside the [try], the last
    handler logs the error and the call returns [False].  So for any bot and
    any subscriptions with non-zero user ids, a direct alert logs one error
    for its chat, a broadcast logs one error per subscriber of the type in
    the order of the dictionary, no message is passed to [send_message], and
    the result is [False]. *)
Theorem send_alert_never_delivers
        (fuel : nat) (bot : Bot) (d : subscriptions)
        (notification_type message : string) (chat_id : option Z) (n : nat) :
  Forall (fun entry => fst entry <> 0%Z) d ->
  send_alert (S (S fuel)) bot d notification_type message chat_id n
  = Some (false,
          map LogError
              (if negb (default 0 chat_id =? 0)%Z then [default 0%Z chat_id]
               else subscribers notification_type d),
          n).
Proof.
  intro Hd. destruct (negb (default 0 chat_id =? 0)%Z) eqn:E.
  - destruct chat_id as [c|]; [|discriminate E]. cbn [default from_option id] in *.
    apply send_alert_direct. intro Hc. subst c. discriminate E.
  - remember (S fuel) as fuel1 eqn:Ef. cbn [send_alert]. rewrite E. cbn [negb].
    assert (forall items success_count events,
       Forall (fun entry => fst entry <> 0%Z) items ->
       (fix broadcast (items : subscriptions) (success_count : nat)
             (events : list Event) (n : nat) {struct items}
          : option (bool * list Event * nat) :=
           match items with
           | [] => Some (negb (success_count =? 0)%nat, events, n)
           | (user_id, types) :: rest =>
               if existsb (String.eqb notification_type) types then
                 match send_alert fuel1 bot d notification_type message
                                  (Some user_id) n with
                 | Some (ok, events', n') =>
                     broadcast rest
                               (if ok then S success_count else success_count)
                               (events ++ events') n'
                 | None => None
                 end
               else broadcast rest success_count events n
           end) items success_count events n
       = Some (negb (success_count =? 0)%nat,
               events ++ map LogError (subscribers notification_type items), n))
      as Hloop.
    { induction items as [|[u types] items IH]; intros success_count events Hi.
      - cbn. rewrite app_nil_r. reflexivity.
      - inversion Hi as [|? ? Hu Hrest]; subst. cbn [fst] in Hu.
        unfold subscribers. cbn [List.filter snd].
        destruct (existsb (String.eqb notification_type) types) eqn:Et.
        + rewrite send_alert_direct by exact Hu.
          rewrite IH by exact Hrest. cbn [map fst]. rewrite <- app_assoc.
          reflexivity.
        + rewrite IH by exact Hrest. reflexivity. }
    rewrite Hloop by exact Hd. reflexivity.
Qed.

(** X23, witness: a broadcast of [new_tokens] to two users through a bot
    that would accept every message. *)
Lemma send_alert_never_delivers_witness :
  send_alert 2 willing two_users "new_tokens" "found" None 0
  = Some (false, [LogError 501%Z], 0%nat).
Proof.
  apply (send_alert_never_delivers 0 willing two_users "new_tokens" "found" None 0).
  repeat constructor; discriminate.
Defined.

End NotificationExtras.

Section ChannelNameExtras.
Import ChannelNames Re.

Lemma string_append_cons (x : ascii) (a b : string) :
  String.append (String x a) b = String x (String.append a b).
Proof. reflexivity. Qed.

Lemma string_append_assoc (a b c : string) :
  String.append (String.append a b) c = String.append a (String.append b c).
Proof.
  induction a as [|x a IH]; [reflexivity|]. rewrite !string_append_cons, IH.
  reflexivity.
Qed.

Lemma string_length_append (a b : string) :
  String.length (String.append a b) = (String.length a + String.length b)%nat.
Proof.
  induction a as [|x a IH]; [reflexivity|]. rewrite string_append_cons.
  cbn [String.length]. rewrite IH. reflexivity.
Qed.

Lemma string_substring_append (a b : string) :
  String.substring 0 (String.length a) (String.append a b) = a.
Proof.
  induction a as [|x a IH].
  - change (String.append EmptyString b) with b. destruct b; reflexivity.
  - rewrite string_append_cons. cbn [String.length String.substring]. rewrite IH.
    reflexivity.
Qed.

Lemma consumed_append (a b : string) : consumed (String.append a b) b = a.
Proof.
  unfold consumed. rewrite string_length_append.
  replace (String.length a + String.length b - String.length b)%nat
    with (String.length a) by lia.
  apply string_substring_append.
Qed.

Lemma strip_prefix_append (p s rest : string) :
  strip_prefix p s = Some rest -> s = String.append p rest.
Proof.
  revert s. induction p as [|a p IH]; intros s E.
  - cbn in E. injection E as <-. reflexivity.
  - destruct s as [|b s]; [discriminate|]. cbn [strip_prefix] in E.
    destruct (Ascii.eqb a b) eqn:Eab; [|discriminate].
    apply Ascii.eqb_eq in Eab. subst b. rewrite string_append_cons, <- (IH _ E).
    reflexivity.
Qed.

(** A successful match hands a suffix of its input to the continuation. *)
Lemma match_at_suffix {A} (r : regex) :
  forall (s : string) (cap : option string)
         (k : option string -> string -> option A) (res : A),
    match_at r s cap k = Some res ->
    exists cap' s' before, s = String.append before s' /\ k cap' s' = Some res.
Proof.
  induction r as [p|ranges|r1 IH1 r2 IH2|r1 IH1|n r1 IH1|r1 IH1]; intros s cap k res E.
  - cbn [match_at] in E. destruct (strip_prefix p s) as [rest|] eqn:Ep; [|discriminate].
    exists cap, rest, p. split; [apply strip_prefix_append; exact Ep|exact E].
  - cbn [match_at] in E. destruct s as [|c rest]; [discriminate|].
    destruct (in_class ranges c); [|discriminate].
    exists cap, rest, (String c EmptyString). split; [reflexivity|exact E].
  - cbn [match_at] in E. apply IH1 in E. destruct E as (cap1 & s1 & b1 & -> & E).
    apply IH2 in E. destruct E as (cap2 & s2 & b2 & -> & E).
    exists cap2, s2, (String.append b1 b2). split; [|exact E].
    symmetry. apply string_append_assoc.
  - cbn [match_at] in E. destruct (match_at r1 s cap k) as [res1|] eqn:E1.
    + injection E as <-. apply IH1 in E1. exact E1.
    + exists cap, s, EmptyString. split; [reflexivity|exact E].
  - cbn [match_at] in E.
    match type of E with
    | context [ ?f (String.length s) (Nat.pred n) ] =>
        assert (forall fuel n s cap,
                   f fuel n s cap = Some res ->
                   exists cap' s' before,
                     s = String.append before s' /\ k cap' s' = Some res) as Hloop
    end.
    { clear E s cap n. intro fuel.
      induction fuel as [|fuel IHf]; intros n s cap E; cbv beta iota zeta in E.
      - destruct (n =? 0)%nat; [|discriminate].
        exists cap, s, EmptyString. split; [reflexivity|exact E].
      - match type of E with
        | match ?m with _ => _ end = _ => destruct m as [res1|] eqn:E1
        end.
        + injection E as <-. apply IH1 in E1.
          destruct E1 as (cap1 & s1 & b1 & Hs & E1).
          destruct (String.length s1 <? String.length s)%nat; [|discriminate].
          apply IHf in E1. destruct E1 as (cap2 & s2 & b2 & -> & E1).
          exists cap2, s2, (String.append b1 b2). split; [|exact E1].
          rewrite Hs. symmetry. apply string_append_assoc.
        + destruct (n =? 0)%nat; [|discriminate].
          exists cap, s, EmptyString. split; [reflexivity|exact E]. }
    match type of E with
    | match ?m with _ => _ end = _ => destruct m as [res1|] eqn:E1
    end.
    + injection E as <-. apply IH1 in E1.
      destruct E1 as (cap1 & s1 & b1 & Hs & E1).
      destruct (String.length s1 <? String.length s)%nat; [|discriminate].
      apply Hloop in E1. destruct E1 as (cap2 & s2 & b2 & -> & E1).
      exists cap2, s2, (String.append b1 b2). split; [|exact E1].
      rewrite Hs. symmetry. apply string_append_assoc.
    + destruct (n =? 0)%nat; [|discriminate].
      exists cap, s, EmptyString. split; [reflexivity|exact E].
  - cbn [match_at] in E. apply IH1 in E. destruct E as (cap1 & s1 & b1 & Hs & E).
    exists (Some (consumed s s1)), s1, b1. split; [exact Hs|exact E].
Qed.

(** A repeated class consumes a run of its characters, at least [n]. *)
Lemma match_at_rep_class {A} (ranges : list (ascii * ascii)) (n : nat) (s : string)
      (cap : option string) (k : option string -> string -> option A) (res : A) :
  match_at (Rep n (Cls ranges)) s cap k = Some res ->
  exists w s', s = String.append w s'
               /\ all_chars (in_class ranges) w = true
               /\ (n <= String.length w)%nat
               /\ k cap s' = Some res.
Proof.
  intro E. cbn [match_at] in E.
  match type of E with
  | context [ ?f (String.length s) (Nat.pred n) ] =>
      assert (forall fuel n s,
                 f fuel n s cap = Some res ->
                 exists w s', s = String.append w s'
                              /\ all_chars (in_class ranges) w = true
                              /\ (n <= String.length w)%nat
                              /\ k cap s' = Some res) as Hloop
  end.
  { clear E s n. intro fuel.
    induction fuel as [|fuel IHf]; intros n s E; cbv beta iota zeta in E.
    - destruct (n =? 0)%nat eqn:En; [|discriminate]. apply Nat.eqb_eq in En.
      exists EmptyString, s. repeat split; [cbn; lia|exact E].
    - destruct s as [|c rest].
      + destruct (n =? 0)%nat eqn:En; [|discriminate]. apply Nat.eqb_eq in En.
        exists EmptyString, EmptyString. repeat split; [cbn; lia|exact E].
      + destruct (in_class ranges c) eqn:Ec.
        * destruct (String.length rest <? String.length (String c rest))%nat.
          -- match type of E with
             | match ?m with _ => _ end = _ => destruct m as [res1|] eqn:E1
             end.
             ++ injection E as <-. apply IHf in E1.
                destruct E1 as (w & s' & -> & Hw & Hn & E1).
                exists (String c w), s'. split; [reflexivity|].
                split; [cbn; rewrite Ec; exact Hw|]. split; [cbn; lia|exact E1].
             ++ destruct (n =? 0)%nat eqn:En; [|discriminate].
                apply Nat.eqb_eq in En.
                exists EmptyString, (String c rest). repeat split; [cbn; lia|exact E].
          -- destruct (n =? 0)%nat eqn:En; [|discriminate]. apply Nat.eqb_eq in En.
             exists EmptyString, (String c rest). repeat split; [cbn; lia|exact E].
        * destruct (n =? 0)%nat eqn:En; [|discriminate]. apply Nat.eqb_eq in En.
          exists EmptyString, (String c rest). repeat split; [cbn; lia|exact E]. }
  destruct s as [|c rest].
  - destruct (n =? 0)%nat eqn:En; [|discriminate]. apply Nat.eqb_eq in En.
    exists EmptyString, EmptyString. repeat split; [cbn; lia|exact E].
  - destruct (in_class ranges c) eqn:Ec.
    + destruct (String.length rest <? String.length (String c rest))%nat.
      * match type of E with
        | match ?m with _ => _ end = _ => destruct m as [res1|] eqn:E1
        end.
        -- injection E as <-. apply Hloop in E1.
           destruct E1 as (w & s' & -> & Hw & Hn & E1).
           exists (String c w), s'. split; [reflexivity|].
           split; [cbn; rewrite Ec; exact Hw|]. split; [cbn; lia|exact E1].
        -- destruct (n =? 0)%nat eqn:En; [|discriminate].
           apply Nat.eqb_eq in En.
           exists EmptyString, (String c rest). repeat split; [cbn; lia|exact E].
      * destruct (n =? 0)%nat eqn:En; [|discriminate]. apply Nat.eqb_eq in En.
        exists EmptyString, (String c rest). repeat split; [cbn; lia|exact E].
    + destruct (n =? 0)%nat eqn:En; [|discriminate]. apply Nat.eqb_eq in En.
      exists EmptyString, (String c rest). repeat split; [cbn; lia|exact E].
Qed.

Lemma match_at_ends_in_group {A} (ranges : list (ascii * ascii)) (n : nat)
      (r : regex) :
  ends_in_group ranges n r ->
  forall (s : string) (cap : option string)
         (k : option string -> string -> option A) (res : A),
    match_at r s cap k = Some res ->
    exists before w s',
      s = String.append before (String.append w s')
      /\ all_chars (in_class ranges) w = true
      /\ (n <= String.length w)%nat
      /\ k (Some w) s' = Some res.
Proof.
  induction 1 as [|r1 r2 _ IH]; intros s cap k res E.
  - cbn [match_at] in E.
    change (match_at (Rep n (Cls ranges)) s cap
                     (fun _ s' => k (Some (consumed s s')) s') = Some res) in E.
    apply match_at_rep_class in E. destruct E as (w & s' & -> & Hw & Hn & E).
    rewrite consumed_append in E.
    exists EmptyString, w, s'. repeat split; assumption.
  - cbn [match_at] in E. apply match_at_suffix in E.
    destruct E as (cap1 & s1 & b1 & -> & E). apply IH in E.
    destruct E as (b2 & w & s' & -> & Hw & Hn & E).
    exists (String.append b1 b2), w, s'. split; [|repeat split; assumption].
    symmetry. apply string_append_assoc.
Qed.

Lemma findall_fuel_names (ranges : list (ascii * ascii)) (n : nat) (r : regex) :
  ends_in_group ranges n r ->
  forall (fuel : nat) (s x : string),
    In x (findall_fuel fuel r s) ->
    all_chars (in_class ranges) x = true
    /\ (n <= String.length x)%nat
    /\ occurs_in x s.
Proof.
  intros Hr fuel. induction fuel as [|fuel IH]; intros s x Hin; [destruct Hin|].
  cbn [findall_fuel] in Hin.
  assert (forall c s', s = String c s' -> In x (findall_fuel fuel r s') ->
                       all_chars (in_class ranges) x = true
                       /\ (n <= String.length x)%nat /\ occurs_in x s) as Hskip.
  { intros c s' -> Hx. apply IH in Hx. destruct Hx as (Hw & Hn & b & a & ->).
    split; [exact Hw|]. split; [exact Hn|]. exists (String c b), a. reflexivity. }
  destruct (match_at r s None (fun cap rest => Some (cap, rest)))
    as [[cap rest]|] eqn:E.
  - apply (match_at_ends_in_group ranges n r Hr) in E.
    destruct E as (b & w & s' & Hs & Hw & Hn & E). injection E as <- <-.
    cbn [default from_option id] in Hin. destruct Hin as [Hx|Hin].
    + subst x. split; [exact Hw|]. split; [exact Hn|]. exists b, s'. exact Hs.
    + destruct (String.length s' <? String.length s)%nat.
      * apply IH in Hin. destruct Hin as (Hw' & Hn' & b' & a' & Hs').
        split; [exact Hw'|]. split; [exact Hn'|].
        exists (String.append b (String.append w b')), a'.
        rewrite Hs, Hs', !string_append_assoc. reflexivity.
      * destruct s as [|c s0]; [destruct Hin|]. apply (Hskip c s0); [reflexivity|exact Hin].
  - destruct s as [|c s0]; [destruct Hin|]. apply (Hskip c s0); [reflexivity|exact Hin].
Qed.

Lemma all_chars_weaken (p q : ascii -> bool) (s : string) :
  (forall c, p c = true -> q c = true) ->
  all_chars p s = true -> all_chars q s = true.
Proof.
  intro Hpq. induction s as [|c s IH]; [reflexivity|]. cbn [all_chars].
  intro H. apply andb_true_iff in H. destruct H as [Hc Hs].
  rewrite (Hpq c Hc), (IH Hs). reflexivity.
Qed.

(** X24.  Every name that [_extract_channel_links] returns is well formed:
    it is not empty, it consists of the characters [[a-zA-Z0-9_-]] only, and
    it occurs in the text. *)
Theorem extracted_names_are_well_formed (text x : string) :
  x ∈ Spider._extract_channel_links text ->
  x <> EmptyString
  /\ all_chars name_char x = true
  /\ occurs_in x text.
Proof.
  unfold Spider._extract_channel_links.
  rewrite elem_of_list_to_set, list_elem_of_In, in_flat_map.
  intros (pattern & Hp & Hx). unfold findall in Hx.
  assert (exists ranges n, ends_in_group ranges n pattern
                           /\ (1 <= n)%nat
                           /\ forall c, in_class ranges c = true -> name_char c = true)
    as (ranges & n & Hr & Hn & Hc).
  { unfold LinkPatterns.TELEGRAM_LINK_PATTERNS in Hp. cbn [In] in Hp.
    assert (forall c, in_class [("a", "z"); ("A", "Z"); ("0", "9"); ("_", "_")]%char c
                      = true -> name_char c = true) as Hword.
    { intros c H. unfold name_char, in_class in *.
      change [("a", "z"); ("A", "Z"); ("0", "9"); ("_", "_"); ("-", "-")]%char
        with ([("a", "z"); ("A", "Z"); ("0", "9"); ("_", "_")]%char
                ++ [("-", "-")%char]).
      rewrite existsb_app, H. reflexivity. }
    destruct Hp as [<-|[<-|[<-|[<-|[]]]]].
    - exists [("a", "z"); ("A", "Z"); ("0", "9"); ("_", "_")]%char, 1%nat.
      split; [repeat constructor|]. split; [lia|exact Hword].
    - exists [("a", "z"); ("A", "Z"); ("0", "9"); ("_", "_")]%char, 5%nat.
      split; [repeat constructor|]. split; [lia|exact Hword].
    - exists [("a", "z"); ("A", "Z"); ("0", "9"); ("_", "_"); ("-", "-")]%char, 1%nat.
      split; [repeat constructor|]. split; [lia|auto].
    - exists [("a", "z"); ("A", "Z"); ("0", "9"); ("_", "_"); ("-", "-")]%char, 1%nat.
      split; [repeat constructor|]. split; [lia|auto]. }
  apply (findall_fuel_names ranges n pattern Hr) in Hx.
  destruct Hx as (Hw & Hlen & Hocc). split; [|split; [|exact Hocc]].
  - intros ->. cbn in Hlen. lia.
  - apply (all_chars_weaken (in_class ranges)); assumption.
Qed.

(** X24, witness: the link of "join t.me/ton_chat now". *)
Lemma extracted_names_are_well_formed_witness :
  all_chars name_char "ton_chat" = true
  /\ occurs_in "ton_chat" "join t.me/ton_chat now".
Proof.
  refine (proj2 (extracted_names_are_well_formed
                   "join t.me/ton_chat now" "ton_chat" _)).
  unfold Spider._extract_channel_links.
  rewrite elem_of_list_to_set, list_elem_of_In.
  vm_compute. left. reflexivity.
Defined.

End ChannelNameExtras.
